(** * ez_timeline_project: timeline layout, zoom state and Kanban projection

    A shallow embedding of the layout code of the editable timeline
    ([Timeline]), of the read-only timeline ([ReadOnlyTimeline]), of the
    zustand store ([useStore]), of the zoom slider and of the Kanban board,
    with the properties the specification states about them.

    Conventions.
    - A JavaScript [Date] is its time value, a number of milliseconds, as [Z].
      The functions of date-fns work on local wall-clock time; the embedding
      takes instants as local milliseconds in a zone without daylight saving,
      so that a local day is 86400000 ms long.
    - Percentages and pixel lengths are JavaScript numbers; the embedding
      computes them exactly, as rationals ([Q], compared with [==]), where
      JavaScript rounds to binary64.  Two computed numbers are stated equal
      only at inputs where every operation is exact in binary64; elsewhere a
      statement gives the formula, that is the integers a number is computed
      from.
    - [DateFns], [Timeline] and [ReadOnlyTimeline] compute on time values as
      numbers; [DateLimits] adds the range of [Date], outside of which a date
      is an Invalid Date.
    - [localStorage] is a finite map from keys to strings. *)

From Stdlib Require Import ZArith QArith Qround Qminmax List Bool Lia.
From stdpp Require Import gmap strings pretty.
Import ListNotations.

Local Open Scope Z_scope.

(** ** date-fns on local milliseconds *)

Module DateFns.

Definition MS_PER_DAY : Z := 86400000.

(** The local calendar day an instant falls on, counted from 1970-01-01. *)
Definition dayNumber (t : Z) : Z := t / MS_PER_DAY.

Definition startOfDay (t : Z) : Z := dayNumber t * MS_PER_DAY.

(** [differenceInDays later earlier]: the number of full days between the two
    instants, truncated towards zero. *)
Definition differenceInDays (later earlier : Z) : Z :=
  Z.quot (later - earlier) MS_PER_DAY.

(** Day of the week, 0 = Sunday; 1970-01-01 was a Thursday. *)
Definition getDay (t : Z) : Z := (dayNumber t + 4) mod 7.

(** [startOfWeek], [endOfWeek] with the default [weekStartsOn: 0]. *)
Definition startOfWeek (t : Z) : Z := (dayNumber t - getDay t) * MS_PER_DAY.
Definition endOfWeek (t : Z) : Z := startOfWeek t + 7 * MS_PER_DAY - 1.

(** *** The Gregorian calendar *)

Definition isLeapYear (y : Z) : bool :=
  (y mod 4 =? 0) && (negb (y mod 100 =? 0) || (y mod 400 =? 0)).

Definition daysInYear (y : Z) : Z := if isLeapYear y then 366 else 365.

(** Months are numbered from 0 (January), as [Date.prototype.getMonth]. *)
Definition daysInMonth (y m : Z) : Z :=
  if m =? 1 then (if isLeapYear y then 29 else 28)
  else if (m =? 3) || (m =? 5) || (m =? 8) || (m =? 10) then 30
  else 31.

(** [normYear fuel y r]: the day [r] days after January 1st of year [y], as a
    year and a day within that year. *)
Fixpoint normYear (fuel : nat) (y r : Z) : Z * Z :=
  match fuel with
  | O => (y, r)
  | S fuel' =>
      if r <? 0 then normYear fuel' (y - 1) (r + daysInYear (y - 1))
      else if daysInYear y <=? r then normYear fuel' (y + 1) (r - daysInYear y)
      else (y, r)
  end.

(** [normMonth fuel y m r]: the day [r] days after the first of month [m] of
    year [y], as a month and a day within that month. *)
Fixpoint normMonth (fuel : nat) (y m r : Z) : Z * Z :=
  match fuel with
  | O => (m, r)
  | S fuel' =>
      if daysInMonth y m <=? r then normMonth fuel' y (m + 1) (r - daysInMonth y m)
      else (m, r)
  end.

Definition yearFuel (d : Z) : nat := Z.to_nat (Z.abs d / 365 + 1).

(** Year, month (from 0) and day of the month (from 0) of a day number. *)
Definition civil (d : Z) : Z * Z * Z :=
  let '(y, r) := normYear (yearFuel d) 1970 d in
  let '(m, r') := normMonth 11 y 0 r in
  (y, m, r').

Definition startOfMonth (t : Z) : Z :=
  let '(_, _, dom) := civil (dayNumber t) in
  (dayNumber t - dom) * MS_PER_DAY.

Definition endOfMonth (t : Z) : Z :=
  let '(y, m, dom) := civil (dayNumber t) in
  (dayNumber t - dom + daysInMonth y m) * MS_PER_DAY - 1.

(** *** Intervals

    [each*OfInterval {start, end}] raises [RangeError] on an interval whose
    start is after its end in date-fns 2; later versions return the dates in
    reverse order instead.  [None] stands for the exception, so that a result
    [Some _] holds under both. *)

(** The loop
    [while (+date <= endTime) { dates.push(date); date = next(date) }]
    over a loop state [S] that carries the date. *)
Fixpoint datesUpTo {S : Type} (fuel : nat) (time : S -> Z) (next : S -> S)
    (date : S) (endTime : Z) : list Z :=
  match fuel with
  | O => []
  | S fuel' =>
      if time date <=? endTime
      then time date :: datesUpTo fuel' time next (next date) endTime
      else []
  end.

(** Iterations that suffice when every round advances the date by at least
    [step]. *)
Definition loopFuel (date endTime step : Z) : nat :=
  Z.to_nat ((endTime - date) / step + 1).

Definition eachDayOfInterval (start end_ : Z) : option (list Z) :=
  if start <=? end_ then
    let date := startOfDay start in
    Some (datesUpTo (loopFuel date end_ MS_PER_DAY)
            (fun d => d) (fun d => d + MS_PER_DAY) date end_)
  else None.

Definition eachWeekOfInterval (start end_ : Z) : option (list Z) :=
  if start <=? end_ then
    let date := startOfWeek start in
    let endTime := startOfWeek end_ in
    Some (datesUpTo (loopFuel date endTime (7 * MS_PER_DAY))
            (fun d => d) (fun d => d + 7 * MS_PER_DAY) date endTime)
  else None.

(** [date.setMonth(date.getMonth() + 1)] on the first day of a month: the
    loop state is the year, the month and the instant. *)
Definition nextMonth (s : Z * Z * Z) : Z * Z * Z :=
  let '(y, m, t) := s in
  (if m =? 11 then y + 1 else y,
   if m =? 11 then 0 else m + 1,
   t + daysInMonth y m * MS_PER_DAY).

Definition eachMonthOfInterval (start end_ : Z) : option (list Z) :=
  if start <=? end_ then
    let '(y, m, _) := civil (dayNumber start) in
    let date := startOfMonth start in
    Some (datesUpTo (loopFuel date end_ (28 * MS_PER_DAY))
            (fun s => snd s) nextMonth (y, m, date) end_)
  else None.

End DateFns.
Import DateFns.

(** ** JavaScript values used by the code *)

(** The value of a field typed [Date]: a [Date] with a time value, a [Date]
    whose time value is [NaN] ("Invalid Date"), or a value that is not a
    [Date] instance at all (a missing field, a Firestore timestamp that was
    not converted), whose numeric value is [NaN] as well. *)
Inductive JsDate : Type :=
  | DateMs (time : Z)
  | InvalidDate
  | NotADate.

#[global] Instance JsDate_eq_dec : EqDecision JsDate.
Proof. solve_decision. Defined.

(** [task.startDate >= period] and [task.startDate <= weekEnd]: a comparison
    with [NaN] is false. *)
Definition dateGe (d : JsDate) (bound : Z) : bool :=
  match d with DateMs t => bound <=? t | _ => false end.
Definition dateLe (d : JsDate) (bound : Z) : bool :=
  match d with DateMs t => t <=? bound | _ => false end.

(** [Array.prototype.findIndex]: the first index whose element satisfies the
    predicate, [-1] when there is none. *)
Fixpoint findIndexFrom {A : Type} (p : A -> bool) (l : list A) (i : Z) : Z :=
  match l with
  | [] => -1
  | x :: l' => if p x then i else findIndexFrom p l' (i + 1)
  end.
Definition findIndex {A : Type} (p : A -> bool) (l : list A) : Z :=
  findIndexFrom p l 0.

(** [Math.min(...xs)] and [Math.max(...xs)] of a non-empty list. *)
Definition minOf (x : Z) (xs : list Z) : Z := fold_left Z.min xs x.
Definition maxOf (x : Z) (xs : list Z) : Z := fold_left Z.max xs x.

(** [Math.round]: the nearest integer, halves rounded up. *)
Definition Math_round (q : Q) : Z := Qfloor (q + (1 # 2))%Q.

Definition Zq (z : Z) : Q := inject_Z z.

(** ** src/types/index.ts *)

Module Task.
Record t : Type := mk {
  id : string;
  projectId : string;
  title : string;
  description : option string;
  startDate : JsDate;
  endDate : JsDate;
  completed : bool;
  createdAt : JsDate;
  updatedAt : JsDate;
  notes : option string;
  status : option string   (* [status?: TaskStatus], a string at run time *)
}.
End Task.
Abbreviation Task := Task.t.

#[global] Instance Task_eq_dec : EqDecision Task.
Proof. solve_decision. Defined.

Inductive ViewType : Type := daily | weekly | monthly | kanban.

(** The object [timelineData] of both timelines. *)
Record TimelineData : Type := {
  td_periods : list Z;
  td_tasks : list Task;
  td_periodFormat : option string;
  td_startDate : option Z;
  td_endDate : option Z
}.

(** [{ left, width }] as [getTaskPosition] returns it. *)
Record Position : Type := { p_left : Q; p_width : Q }.

(** The inline style of a task bar, in pixels. *)
Record Bar : Type := { bar_left : Q; bar_width : Q }.

Definition isValidDate (d : JsDate) : bool :=
  match d with DateMs _ => true | _ => false end.

Definition hasValidDates (t : Task) : bool :=
  isValidDate (Task.startDate t) && isValidDate (Task.endDate t).

(** [[task.startDate, task.endDate].map(d => d.getTime())] of a task that
    passed the filter. *)
Definition taskTimes (t : Task) : list Z :=
  match Task.startDate t, Task.endDate t with
  | DateMs s, DateMs e => [s; e]
  | _, _ => []
  end.

(** What a component renders: the empty state, or the grid with one row per
    task.  A row whose geometry is [NaN] has no bar. *)
Inductive Rendered : Type :=
  | EmptyState
  | Grid (columnWidth : Z) (rows : list (Task * option Bar)).

(** ** The editable timeline (Timeline.tsx) *)

Module Timeline.

(** [None]: an exception left the [useMemo] callback. *)
Definition timelineData (tasks : list Task) (currentView : ViewType)
  : option TimelineData :=
  let validTasks := List.filter hasValidDates tasks in
  if (length validTasks =? 0)%nat then
    Some {| td_periods := []; td_tasks := []; td_periodFormat := None;
            td_startDate := None; td_endDate := None |}
  else
  let allDates := flat_map taskTimes validTasks in
  match allDates with
  | [] => None   (* not reached: [allDates] holds two entries per valid task *)
  | d :: ds =>
      let minDate := minOf d ds in
      let maxDate := maxOf d ds in
      match currentView with
      | daily =>
          periods ← eachDayOfInterval minDate maxDate;
          Some {| td_periods := periods; td_tasks := validTasks;
                  td_periodFormat := Some "MMM dd"%string;
                  td_startDate := Some minDate; td_endDate := Some maxDate |}
      | weekly =>
          let actualStartDate := startOfWeek minDate in
          let actualEndDate := endOfWeek maxDate in
          periods ← eachWeekOfInterval actualStartDate actualEndDate;
          Some {| td_periods := periods; td_tasks := validTasks;
                  td_periodFormat := Some "MMM dd"%string;
                  td_startDate := Some actualStartDate;
                  td_endDate := Some actualEndDate |}
      | monthly =>
          let actualStartDate := startOfMonth minDate in
          let actualEndDate := endOfMonth maxDate in
          periods ← eachMonthOfInterval actualStartDate actualEndDate;
          Some {| td_periods := periods; td_tasks := validTasks;
                  td_periodFormat := Some "MMM yyyy"%string;
                  td_startDate := Some actualStartDate;
                  td_endDate := Some actualEndDate |}
      | kanban =>
          Some {| td_periods := []; td_tasks := validTasks;
                  td_periodFormat := Some ""%string;
                  td_startDate := Some minDate; td_endDate := Some maxDate |}
      end
  end.

(** [getTaskPosition] reads [timelineData] and [currentView] of the component;
    they are its first two arguments here.  The result is a pair of
    percentages of the grid's width; [None] stands for a [NaN] position.
    The divisors are positive wherever the components call the function:
    [periods] is not empty, and the end of the range is not before its
    start, so that [totalDays] is 1 or more. *)
Definition getTaskPosition (timelineData : TimelineData)
    (currentView : ViewType) (task : Task) (periods : list Z)
  : option Position :=
  match td_startDate timelineData, td_endDate timelineData with
  | Some tdStartDate, Some tdEndDate =>
      if (length periods =? 0)%nat then Some {| p_left := 0; p_width := 0 |}
      else
      match currentView with
      | weekly =>
          let totalWeeks := Z.of_nat (length periods) in
          let taskStartWeek :=
            findIndex (fun period =>
                         let weekEnd := endOfWeek period in
                         dateGe (Task.startDate task) period
                         && dateLe (Task.startDate task) weekEnd) periods in
          let taskEndWeek :=
            findIndex (fun period =>
                         let weekEnd := endOfWeek period in
                         dateGe (Task.endDate task) period
                         && dateLe (Task.endDate task) weekEnd) periods in
          let startWeek :=
            Z.max 0 (if 0 <=? taskStartWeek then taskStartWeek else 0) in
          let endWeek :=
            Z.min (totalWeeks - 1)
              (Z.max (if 0 <=? taskEndWeek then taskEndWeek else startWeek)
                 startWeek) in
          let left := (Zq startWeek / Zq totalWeeks * 100)%Q in
          let width := (Zq (endWeek - startWeek + 1) / Zq totalWeeks * 100)%Q in
          Some {| p_left := left; p_width := width |}
      | monthly =>
          let totalMonths := Z.of_nat (length periods) in
          let taskStartMonth :=
            findIndex (fun period =>
                         let monthEnd := endOfMonth period in
                         dateGe (Task.startDate task) period
                         && dateLe (Task.startDate task) monthEnd) periods in
          let taskEndMonth :=
            findIndex (fun period =>
                         let monthEnd := endOfMonth period in
                         dateGe (Task.endDate task) period
                         && dateLe (Task.endDate task) monthEnd) periods in
          let startMonth :=
            Z.max 0 (if 0 <=? taskStartMonth then taskStartMonth else 0) in
          let endMonth :=
            Z.min (totalMonths - 1)
              (Z.max (if 0 <=? taskEndMonth then taskEndMonth else startMonth)
                 startMonth) in
          let left := (Zq startMonth / Zq totalMonths * 100)%Q in
          let width := (Zq (endMonth - startMonth + 1) / Zq totalMonths * 100)%Q in
          Some {| p_left := left; p_width := width |}
      | _ =>
          (* daily view; a date without a time value makes the days [NaN] *)
          match Task.startDate task, Task.endDate task with
          | DateMs taskStart, DateMs taskEnd =>
              let totalDays := differenceInDays tdEndDate tdStartDate + 1 in
              let taskStartDays :=
                Z.max 0 (differenceInDays taskStart tdStartDate) in
              let taskEndDays :=
                Z.min (totalDays - 1) (differenceInDays taskEnd tdStartDate) in
              let taskDuration := Z.max 1 (taskEndDays - taskStartDays + 1) in
              let left := (Zq taskStartDays / Zq totalDays * 100)%Q in
              let width := (Zq taskDuration / Zq totalDays * 100)%Q in
              Some {| p_left := Qmax 0 left; p_width := Qmax 1 width |}
          | _, _ => None
          end
      end
  | _, _ => Some {| p_left := 0; p_width := 0 |}
  end.

Definition getColumnWidth (currentView : ViewType) (timelineZoom : Z) : Z :=
  let baseWidth :=
    match currentView with daily => 100 | weekly => 120 | _ => 150 end in
  Math_round (Zq baseWidth * (Zq timelineZoom / 100)).

(** The [style] of the bar of a task: [left] and [width] in pixels. *)
Definition barStyle (timelineData : TimelineData) (columnWidth : Z)
    (position : Position) : Bar :=
  let gridWidth :=
    Zq (Z.of_nat (length (td_periods timelineData)) * columnWidth) in
  {| bar_left := p_left position / 100 * gridWidth;
     bar_width := Qmax (p_width position / 100 * gridWidth) 40 |}.

Definition render (tasks : list Task) (currentView : ViewType)
    (timelineZoom : Z) : option Rendered :=
  timelineData ← timelineData tasks currentView;
  if (length (td_periods timelineData) =? 0)%nat then Some EmptyState
  else
    let columnWidth := getColumnWidth currentView timelineZoom in
    Some (Grid columnWidth
            (map (fun task =>
                    let position :=
                      getTaskPosition timelineData currentView task
                        (td_periods timelineData) in
                    (task, barStyle timelineData columnWidth <$> position))
               (td_tasks timelineData))).

End Timeline.

(** ** The read-only timeline (ReadOnlyTimeline.tsx) *)

Module ReadOnlyTimeline.

(** [None]: an exception left the [useMemo] callback. *)
Definition timelineData (tasks : list Task) (currentView : ViewType)
  : option TimelineData :=
  let validTasks := List.filter hasValidDates tasks in
  if (length validTasks =? 0)%nat then
    Some {| td_periods := []; td_tasks := []; td_periodFormat := None;
            td_startDate := None; td_endDate := None |}
  else
  let allDates := flat_map taskTimes validTasks in
  match allDates with
  | [] => None   (* not reached: [allDates] holds two entries per valid task *)
  | d :: ds =>
      let minDate := minOf d ds in
      let maxDate := maxOf d ds in
      match currentView with
      | daily =>
          periods ← eachDayOfInterval minDate maxDate;
          Some {| td_periods := periods; td_tasks := validTasks;
                  td_periodFormat := Some "MMM dd"%string;
                  td_startDate := Some minDate; td_endDate := Some maxDate |}
      | weekly =>
          let actualStartDate := startOfWeek minDate in
          let actualEndDate := endOfWeek maxDate in
          periods ← eachWeekOfInterval actualStartDate actualEndDate;
          Some {| td_periods := periods; td_tasks := validTasks;
                  td_periodFormat := Some "MMM dd"%string;
                  td_startDate := Some actualStartDate;
                  td_endDate := Some actualEndDate |}
      | monthly =>
          let actualStartDate := startOfMonth minDate in
          let actualEndDate := endOfMonth maxDate in
          periods ← eachMonthOfInterval actualStartDate actualEndDate;
          Some {| td_periods := periods; td_tasks := validTasks;
                  td_periodFormat := Some "MMM yyyy"%string;
                  td_startDate := Some actualStartDate;
                  td_endDate := Some actualEndDate |}
      | kanban =>
          Some {| td_periods := []; td_tasks := validTasks;
                  td_periodFormat := Some ""%string;
                  td_startDate := Some minDate; td_endDate := Some maxDate |}
      end
  end.

(** As in [Timeline], with the column width as a further argument: the result
    is in pixels. *)
Definition getTaskPosition (timelineData : TimelineData)
    (currentView : ViewType) (task : Task) (periods : list Z)
    (columnWidth : Z) : option Position :=
  match td_startDate timelineData, td_endDate timelineData with
  | Some tdStartDate, Some tdEndDate =>
      if (length periods =? 0)%nat then Some {| p_left := 0; p_width := 0 |}
      else
      match currentView with
      | weekly =>
          let totalWeeks := Z.of_nat (length periods) in
          let taskStartWeek :=
            findIndex (fun period =>
                         let weekEnd := endOfWeek period in
                         dateGe (Task.startDate task) period
                         && dateLe (Task.startDate task) weekEnd) periods in
          let taskEndWeek :=
            findIndex (fun period =>
                         let weekEnd := endOfWeek period in
                         dateGe (Task.endDate task) period
                         && dateLe (Task.endDate task) weekEnd) periods in
          let startWeek :=
            Z.max 0 (if 0 <=? taskStartWeek then taskStartWeek else 0) in
          let endWeek :=
            Z.min (totalWeeks - 1)
              (Z.max (if 0 <=? taskEndWeek then taskEndWeek else startWeek)
                 startWeek) in
          let left := Zq (startWeek * columnWidth) in
          let width := Zq ((endWeek - startWeek + 1) * columnWidth) in
          Some {| p_left := left; p_width := width |}
      | monthly =>
          let totalMonths := Z.of_nat (length periods) in
          let taskStartMonth :=
            findIndex (fun period =>
                         let monthEnd := endOfMonth period in
                         dateGe (Task.startDate task) period
                         && dateLe (Task.startDate task) monthEnd) periods in
          let taskEndMonth :=
            findIndex (fun period =>
                         let monthEnd := endOfMonth period in
                         dateGe (Task.endDate task) period
                         && dateLe (Task.endDate task) monthEnd) periods in
          let startMonth :=
            Z.max 0 (if 0 <=? taskStartMonth then taskStartMonth else 0) in
          let endMonth :=
            Z.min (totalMonths - 1)
              (Z.max (if 0 <=? taskEndMonth then taskEndMonth else startMonth)
                 startMonth) in
          let left := Zq (startMonth * columnWidth) in
          let width := Zq ((endMonth - startMonth + 1) * columnWidth) in
          Some {| p_left := left; p_width := width |}
      | _ =>
          (* daily view; a date without a time value makes the days [NaN] *)
          match Task.startDate task, Task.endDate task with
          | DateMs taskStart, DateMs taskEnd =>
              let totalDays := differenceInDays tdEndDate tdStartDate + 1 in
              let taskStartDays :=
                Z.max 0 (differenceInDays taskStart tdStartDate) in
              let taskEndDays :=
                Z.min (totalDays - 1) (differenceInDays taskEnd tdStartDate) in
              let taskDuration := Z.max 1 (taskEndDays - taskStartDays + 1) in
              let left := Zq (taskStartDays * columnWidth) in
              let width := Zq (taskDuration * columnWidth) in
              Some {| p_left := Qmax 0 left;
                      p_width := Qmax (Zq columnWidth) width |}
          | _, _ => None
          end
      end
  | _, _ => Some {| p_left := 0; p_width := 0 |}
  end.

Definition getColumnWidth (currentView : ViewType) (timelineZoom : Z) : Z :=
  let baseWidth :=
    match currentView with daily => 100 | weekly => 120 | _ => 150 end in
  Math_round (Zq baseWidth * (Zq timelineZoom / 100)).

Definition barStyle (position : Position) : Bar :=
  {| bar_left := p_left position;
     bar_width := Qmax (p_width position) 40 |}.

Definition render (tasks : list Task) (currentView : ViewType)
    (timelineZoom : Z) : option Rendered :=
  timelineData ← timelineData tasks currentView;
  if (length (td_periods timelineData) =? 0)%nat then Some EmptyState
  else
    let columnWidth := getColumnWidth currentView timelineZoom in
    Some (Grid columnWidth
            (map (fun task =>
                    let position :=
                      getTaskPosition timelineData currentView task
                        (td_periods timelineData) columnWidth in
                    (task, barStyle <$> position))
               (td_tasks timelineData))).

End ReadOnlyTimeline.

(** ** The store (store/useStore.ts) *)

(** A value [JSON.parse] returns. *)
#[local] Unset Elimination Schemes.
Inductive JsValue : Type :=
  | JNull
  | JBool (b : bool)
  | JNumber (q : Q)
  | JString (s : string)
  | JArray (items : list JsValue)
  | JObject (fields : list (string * JsValue)).
#[local] Set Elimination Schemes.

Module Store.

Section Initialize.
(** [JSON.parse] of the host; [None] stands for the [SyntaxError] it
    raises on a text that is not JSON. *)
Variable JSON_parse : string -> option JsValue.

(** [saved ? JSON.parse(saved) : dflt] inside [try { } catch { return dflt }]:
    a missing entry is [null] and an empty string is falsy. *)
Definition readSaved (localStorage : gmap string string) (key : string)
    (dflt : JsValue) : JsValue :=
  match localStorage !! key with
  | None => dflt
  | Some saved =>
      if String.eqb saved "" then dflt
      else match JSON_parse saved with
           | Some v => v
           | None => dflt   (* catch *)
           end
  end.

Definition initializeSidebarState (localStorage : gmap string string)
  : JsValue :=
  readSaved localStorage "sidebarCollapsed" (JBool false).

Definition initializeTimelineZoom (localStorage : gmap string string)
  : JsValue :=
  readSaved localStorage "timelineZoom" (JNumber 100).
End Initialize.

(** The fields of the store that the modelled actions read or write, and the
    browser's [localStorage] next to them.  [timelineZoom] holds the number a
    setter stored; the value the store starts with is the one
    [initializeTimelineZoom] returns. *)
Record AppState : Type := {
  tasks : list Task;
  currentView : ViewType;
  isSidebarCollapsed : bool;
  timelineZoom : Z;
  localStorage : gmap string string
}.

Definition setTasks (newTasks : list Task) (state : AppState) : AppState :=
  {| tasks := newTasks; currentView := currentView state;
     isSidebarCollapsed := isSidebarCollapsed state;
     timelineZoom := timelineZoom state;
     localStorage := localStorage state |}.

Definition addTask (task : Task) (state : AppState) : AppState :=
  setTasks (tasks state ++ [task]) state.

Definition updateTask (task : Task) (state : AppState) : AppState :=
  setTasks
    (map (fun t => if String.eqb (Task.id t) (Task.id task) then task else t)
       (tasks state))
    state.

Definition deleteTask (taskId : string) (state : AppState) : AppState :=
  setTasks
    (List.filter (fun t => negb (String.eqb (Task.id t) taskId)) (tasks state))
    state.

(** [JSON.stringify] of an integer. *)
Definition JSON_stringify (n : Z) : string := pretty n.

Definition setTimelineZoom (zoom : Z) (state : AppState) : AppState :=
  let clampedZoom := Z.max 50 (Z.min 200 zoom) in
  {| tasks := tasks state; currentView := currentView state;
     isSidebarCollapsed := isSidebarCollapsed state;
     timelineZoom := clampedZoom;
     localStorage :=
       <["timelineZoom" := JSON_stringify clampedZoom]> (localStorage state) |}.

Definition setSidebarCollapsed (collapsed : bool) (state : AppState)
  : AppState :=
  {| tasks := tasks state; currentView := currentView state;
     isSidebarCollapsed := collapsed;
     timelineZoom := timelineZoom state;
     localStorage :=
       <["sidebarCollapsed" := if collapsed then "true" else "false"]>
         (localStorage state) |}.

End Store.

(** ** The zoom slider (components/TimelineZoomSlider.tsx) *)

Module TimelineZoomSlider.

(** [handleZoomChange(value)]: the slider hands over an array of numbers. *)
Definition handleZoomChange (value : list Z) (state : Store.AppState)
  : Store.AppState :=
  match value with
  | v :: _ => Store.setTimelineZoom v state
  | [] => state
  end.

Definition handleZoomIn (state : Store.AppState) : Store.AppState :=
  Store.setTimelineZoom (Z.min 200 (Store.timelineZoom state + 25)) state.

Definition handleZoomOut (state : Store.AppState) : Store.AppState :=
  Store.setTimelineZoom (Z.max 50 (Store.timelineZoom state - 25)) state.

Definition handleReset (state : Store.AppState) : Store.AppState :=
  Store.setTimelineZoom 100 state.

End TimelineZoomSlider.

(** ** The Kanban board (components/KanbanBoard.tsx) *)

Module KanbanBoard.

Record KanbanColumn : Type := {
  col_id : string;
  col_title : string;
  col_color : option string;
  col_status : string
}.

(** The initial value of the state [customColumns]. *)
Definition initialColumns : list KanbanColumn :=
  [ {| col_id := "todo"; col_title := "To Do"; col_color := None;
       col_status := "todo" |};
    {| col_id := "in-progress"; col_title := "In Progress"; col_color := None;
       col_status := "in-progress" |};
    {| col_id := "done"; col_title := "Done"; col_color := None;
       col_status := "done" |};
    {| col_id := "pending"; col_title := "Pending"; col_color := None;
       col_status := "pending" |};
    {| col_id := "blocked"; col_title := "Blocked"; col_color := None;
       col_status := "blocked" |} ].

(** The array [defaultColumns] local to [handleDeleteColumn]. *)
Definition defaultColumnIds : list string :=
  ["todo"; "in-progress"; "done"; "pending"; "blocked"].

Definition includes (l : list string) (x : string) : bool :=
  existsb (String.eqb x) l.

(** [task.status || 'todo'] *)
Definition statusOrTodo (task : Task) : string :=
  match Task.status task with
  | Some st => if String.eqb st "" then "todo" else st
  | None => "todo"
  end.

Definition getTasksByStatus (tasks : list Task) (status : string)
  : list Task :=
  List.filter (fun task => String.eqb (statusOrTodo task) status) tasks.

(** What [handleDrop] leaves behind: the store, the component state
    [draggedTask], and the update it sent to the task service, if any. *)
Record DropResult : Type := {
  dr_state : Store.AppState;
  dr_draggedTask : option Task;
  dr_serviceUpdate : option (string * (string * bool))
}.

(** [handleDrop(e, newStatus)].  [serviceOk] tells whether the promise of
    [taskService.updateTask] resolves; when it rejects, the [catch] block
    only reports the error. *)
Definition handleDrop (draggedTask : option Task) (newStatus : string)
    (serviceOk : bool) (state : Store.AppState) : DropResult :=
  match draggedTask with
  | None =>
      {| dr_state := state; dr_draggedTask := None; dr_serviceUpdate := None |}
  | Some dragged =>
      if match Task.status dragged with
         | Some st => String.eqb st newStatus
         | None => false
         end
      then
        {| dr_state := state; dr_draggedTask := None;
           dr_serviceUpdate := None |}
      else
        let completed := String.eqb newStatus "done" in
        let updatedTask :=
          Task.mk (Task.id dragged) (Task.projectId dragged)
            (Task.title dragged) (Task.description dragged)
            (Task.startDate dragged) (Task.endDate dragged)
            completed
            (Task.createdAt dragged) (Task.updatedAt dragged)
            (Task.notes dragged) (Some newStatus) in
        {| dr_state :=
             if serviceOk then Store.updateTask updatedTask state else state;
           dr_draggedTask := None;
           dr_serviceUpdate :=
             Some (Task.id dragged, (newStatus, completed)) |}
  end.

Section Columns.
(** [String.prototype.trim] of the host. *)
Variable trim : string -> string.

(** [handleAddColumn()], with the state [newColumnTitle] and the two values
    [Date.now()] returns, for the id and for the status. *)
Definition handleAddColumn (newColumnTitle : string) (now1 now2 : Z)
    (customColumns : list KanbanColumn) : list KanbanColumn :=
  if String.eqb (trim newColumnTitle) "" then customColumns
  else
    let newColumn :=
      {| col_id := "custom-" +:+ pretty now1;
         col_title := newColumnTitle;
         col_color := None;
         col_status := "custom-" +:+ pretty now2 |} in
    customColumns ++ [newColumn].

Definition handleDeleteColumn (columnId : string)
    (customColumns : list KanbanColumn) : list KanbanColumn :=
  if includes defaultColumnIds columnId then customColumns
  else
    List.filter (fun col => negb (String.eqb (col_id col) columnId))
      customColumns.

Definition handleEditColumn (columnId newTitle : string)
    (customColumns : list KanbanColumn) : list KanbanColumn :=
  map (fun col =>
         if String.eqb (col_id col) columnId
         then {| col_id := col_id col; col_title := newTitle;
                 col_color := col_color col; col_status := col_status col |}
         else col)
    customColumns.

(** The operations of the "Manage Columns" dialog. *)
Inductive ColumnOp : Type :=
  | AddColumn (newColumnTitle : string) (now1 now2 : Z)
  | EditColumn (columnId newTitle : string)
  | DeleteColumn (columnId : string).

Definition applyOp (customColumns : list KanbanColumn) (op : ColumnOp)
  : list KanbanColumn :=
  match op with
  | AddColumn title now1 now2 => handleAddColumn title now1 now2 customColumns
  | EditColumn columnId newTitle =>
      handleEditColumn columnId newTitle customColumns
  | DeleteColumn columnId => handleDeleteColumn columnId customColumns
  end.

Definition runOps (ops : list ColumnOp) : list KanbanColumn :=
  fold_left applyOp ops initialColumns.
End Columns.

End KanbanBoard.

(** ** Vocabulary of the statements *)

(** The time range of a view, from the least and the greatest date. *)
Definition rangeStartOf (view : ViewType) (minDate : Z) : Z :=
  match view with
  | weekly => startOfWeek minDate
  | monthly => startOfMonth minDate
  | _ => minDate
  end.

Definition rangeEndOf (view : ViewType) (maxDate : Z) : Z :=
  match view with
  | weekly => endOfWeek maxDate
  | monthly => endOfMonth maxDate
  | _ => maxDate
  end.

(** The end of the period that starts at [period], in weekly and monthly
    view. *)
Definition periodEnd (view : ViewType) (period : Z) : Z :=
  match view with weekly => endOfWeek period | _ => endOfMonth period end.

(** [date >= period && date <= periodEnd]: the range of the period contains
    the date. *)
Definition inPeriod (view : ViewType) (date : JsDate) (period : Z) : bool :=
  dateGe date period && dateLe date (periodEnd view period).

(** A value that is an integer percentage from 50 to 200. *)
Definition isZoomPercent (v : JsValue) : Prop :=
  exists n : Z,
    50 <= n <= 200
    /\ match v with JNumber q => (q == inject_Z n)%Q | _ => False end.

Definition isBoolean (v : JsValue) : Prop :=
  match v with JBool _ => True | _ => False end.

(** Two rows show the same task with the same bar. *)
Definition sameBars (rowT rowR : Task * option Bar) : Prop :=
  fst rowT = fst rowR
  /\ match snd rowT, snd rowR with
     | Some barT, Some barR =>
         (bar_left barT == bar_left barR)%Q
         /\ (bar_width barT == bar_width barR)%Q
     | None, None => True
     | _, _ => False
     end.

(** Two components render the same geometry. *)
Definition sameGeometry (renderedT renderedR : option Rendered) : Prop :=
  match renderedT, renderedR with
  | Some EmptyState, Some EmptyState => True
  | Some (Grid columnWidthT rowsT), Some (Grid columnWidthR rowsR) =>
      columnWidthT = columnWidthR /\ Forall2 sameBars rowsT rowsR
  | _, _ => False
  end.

(** ** More vocabulary *)

(** The periods of a view, from the least and the greatest date. *)
Definition periodsOf (view : ViewType) (minDate maxDate : Z)
  : option (list Z) :=
  match view with
  | daily => eachDayOfInterval minDate maxDate
  | weekly => eachWeekOfInterval (startOfWeek minDate) (endOfWeek maxDate)
  | monthly => eachMonthOfInterval (startOfMonth minDate) (endOfMonth maxDate)
  | kanban => Some []
  end.

(** The number of the week, from Sunday to Saturday, an instant falls in;
    week 0 holds 1970-01-01. *)
Definition weekNumber (t : Z) : Z := (dayNumber t + 4) / 7.

(** The count of leap years before year [y], in the proleptic Gregorian
    calendar, and the day number of January 1st of year [y]. *)
Definition leapYearsBefore (y : Z) : Z :=
  (y - 1) / 4 - (y - 1) / 100 + (y - 1) / 400.

Definition dayOfJanuary1 (y : Z) : Z :=
  365 * (y - 1970) + leapYearsBefore y - leapYearsBefore 1970.

(** The count of days of year [y] before month [m] (from 0). *)
Definition daysBeforeMonth (y m : Z) : Z :=
  let leap := if isLeapYear y then 1 else 0 in
  match m with
  | 0 => 0
  | 1 => 31
  | 2 => 59 + leap
  | 3 => 90 + leap
  | 4 => 120 + leap
  | 5 => 151 + leap
  | 6 => 181 + leap
  | 7 => 212 + leap
  | 8 => 243 + leap
  | 9 => 273 + leap
  | 10 => 304 + leap
  | _ => 334 + leap
  end.

(** The number of the month an instant falls in, twelve to a year, and the
    first instant of the month of a given number. *)
Definition monthNumber (t : Z) : Z :=
  let '(y, m, _) := civil (dayNumber t) in 12 * y + m.

Definition monthStart (k : Z) : Z :=
  (dayOfJanuary1 (k / 12) + daysBeforeMonth (k / 12) (k mod 12)) * MS_PER_DAY.


(** ** Projects (types/index.ts) and the project slice of the store
       (store/useStore.ts) *)

Module Project.
Record t : Type := mk {
  id : string;
  name : string;
  description : string;
  userId : string;
  createdAt : JsDate;
  updatedAt : JsDate;
  isShared : option bool;
  shareId : option string;
  shareEnabled : option bool;
  sharePassword : option string;
  notes : option string
}.
End Project.
Abbreviation Project := Project.t.

Module ProjectStore.

(** The fields [projects] and [selectedProject] of the store, and the
    browser's [localStorage] next to them. *)
Record ProjectState : Type := {
  projects : list Project;
  selectedProject : option Project;
  localStorage : gmap string string
}.

Definition setProjects (newProjects : list Project) (state : ProjectState)
  : ProjectState :=
  {| projects := newProjects; selectedProject := selectedProject state;
     localStorage := localStorage state |}.

Definition setSelectedProject (newSelected : option Project)
    (state : ProjectState) : ProjectState :=
  {| projects := projects state;
     selectedProject := newSelected;
     localStorage :=
       match newSelected with
       | Some project =>
           <["selectedProjectId" := Project.id project]> (localStorage state)
       | None => delete "selectedProjectId" (localStorage state)
       end |}.

Definition addProject (project : Project) (state : ProjectState)
  : ProjectState :=
  setProjects (projects state ++ [project]) state.

(** [state.selectedProject?.id === projectId] *)
Definition selectedHasId (state : ProjectState) (projectId : string) : bool :=
  match selectedProject state with
  | Some selected => String.eqb (Project.id selected) projectId
  | None => false
  end.

Definition updateProject (project : Project) (state : ProjectState)
  : ProjectState :=
  {| projects :=
       map (fun p =>
              if String.eqb (Project.id p) (Project.id project)
              then project else p)
         (projects state);
     selectedProject :=
       if selectedHasId state (Project.id project) then Some project
       else selectedProject state;
     localStorage := localStorage state |}.

Definition deleteProject (projectId : string) (state : ProjectState)
  : ProjectState :=
  {| projects :=
       List.filter (fun p => negb (String.eqb (Project.id p) projectId))
         (projects state);
     selectedProject :=
       if selectedHasId state projectId then None else selectedProject state;
     localStorage := localStorage state |}.

End ProjectStore.

(** ** The dashboard page *)

Module Dashboard.

(** The callback the page gives to [subscribeToUserProjects]: it stores the
    projects and restores the selected project from [localStorage]. *)
Definition onUserProjects (userProjects : list Project)
    (state : ProjectStore.ProjectState) : ProjectStore.ProjectState :=
  let state := ProjectStore.setProjects userProjects state in
  match ProjectStore.localStorage state !! "selectedProjectId" with
  | Some savedProjectId =>
      if negb (String.eqb savedProjectId "")
         && (0 <? length userProjects)%nat
      then
        match
          List.find (fun p => String.eqb (Project.id p) savedProjectId)
            userProjects
        with
        | Some savedProject =>
            ProjectStore.setSelectedProject (Some savedProject) state
        | None =>
            {| ProjectStore.projects := ProjectStore.projects state;
               ProjectStore.selectedProject :=
                 ProjectStore.selectedProject state;
               ProjectStore.localStorage :=
                 delete "selectedProjectId"
                   (ProjectStore.localStorage state) |}
        end
      else state
  | None => state
  end.

(** [onClick={() => setSidebarCollapsed(!isSidebarCollapsed)}] *)
Definition toggleSidebar (state : Store.AppState) : Store.AppState :=
  Store.setSidebarCollapsed (negb (Store.isSidebarCollapsed state)) state.

End Dashboard.

(** ** The task service (services/firebaseService.ts) *)

Module TaskService.

(** The tasks [getProjectTasks] returns, and [subscribeToProjectTasks] hands
    to its callback, from the converted documents of a snapshot. *)
Definition validTasks (tasks : list Task) : list Task :=
  List.filter
    (fun t => isValidDate (Task.startDate t) && isValidDate (Task.endDate t))
    tasks.

(** The document [toggleTaskCompletion] updates and the fields it writes:
    the status and the flag. *)
Definition toggleTaskCompletion (taskId : string) (completed : bool)
  : string * (string * bool) :=
  let status := if completed then "done" else "todo" in
  (taskId, (status, completed)).

End TaskService.

(** ** The handlers of the editable timeline (Timeline.tsx) *)

Module TimelineHandlers.

(** What [handleToggleComplete] leaves behind: the store and the update it
    sent to the task service. *)
Record ToggleResult : Type := {
  tr_state : Store.AppState;
  tr_serviceUpdate : string * (string * bool)
}.

(** [handleToggleComplete(task)].  [serviceOk] tells whether the promise of
    [taskService.toggleTaskCompletion] resolves. *)
Definition handleToggleComplete (task : Task) (serviceOk : bool)
    (state : Store.AppState) : ToggleResult :=
  let newCompleted := negb (Task.completed task) in
  let newStatus := if newCompleted then "done" else "todo" in
  let updatedTask :=
    Task.mk (Task.id task) (Task.projectId task) (Task.title task)
      (Task.description task) (Task.startDate task) (Task.endDate task)
      newCompleted
      (Task.createdAt task) (Task.updatedAt task) (Task.notes task)
      (Some newStatus) in
  {| tr_state :=
       if serviceOk then Store.updateTask updatedTask state else state;
     tr_serviceUpdate :=
       TaskService.toggleTaskCompletion (Task.id task) newCompleted |}.

(** [handleDeleteTask(task)], of the timeline and of the Kanban board alike.
    [confirmed] is the answer to [confirm(...)]. *)
Definition handleDeleteTask (task : Task) (confirmed serviceOk : bool)
    (state : Store.AppState) : Store.AppState :=
  if confirmed then
    if serviceOk then Store.deleteTask (Task.id task) state else state
  else state.

End TimelineHandlers.

(** ** Tasks on the Kanban board (components/KanbanBoard.tsx) *)

Module KanbanTasks.

(** What the board renders: the "No tasks yet" card, or one card per column
    with the tasks of the column's status. *)
Inductive Board : Type :=
  | NoTasks
  | Columns (cards : list (KanbanBoard.KanbanColumn * list Task)).

Definition columnCards (tasks : list Task)
    (customColumns : list KanbanBoard.KanbanColumn)
  : list (KanbanBoard.KanbanColumn * list Task) :=
  map (fun column =>
         (column,
          KanbanBoard.getTasksByStatus tasks (KanbanBoard.col_status column)))
    customColumns.

Definition render (tasks : list Task)
    (customColumns : list KanbanBoard.KanbanColumn) : Board :=
  if (length tasks =? 0)%nat then NoTasks
  else Columns (columnCards tasks customColumns).

(** What [handleQuickAddTask] leaves behind: the store and the state
    [newTaskTitle] of the inputs. *)
Record QuickAddResult : Type := {
  qa_state : Store.AppState;
  qa_newTaskTitle : gmap string string
}.

Section QuickAdd.
(** [String.prototype.trim] of the host. *)
Variable trim : string -> string.

(** [handleQuickAddTask(status)], with the state [newTaskTitle], the selected
    project, the clock as [new Date()] and [Date.now()] read it, in the order
    of the reads, and the id [taskService.createTask] resolves to ([None]
    when it rejects). *)
Definition handleQuickAddTask (status : string)
    (newTaskTitle : gmap string string) (currentProject : option Project)
    (nowStart nowEnd nowCreated nowUpdated : Z) (createTask : option string)
    (state : Store.AppState) : QuickAddResult :=
  let unchanged :=
    {| qa_state := state; qa_newTaskTitle := newTaskTitle |} in
  match trim <$> (newTaskTitle !! status), currentProject with
  | Some title, Some project =>
      if String.eqb title "" then unchanged
      else
        match createTask with
        | Some taskId =>
            let newTask :=
              Task.mk taskId (Project.id project) title (Some ""%string)
                (DateMs nowStart) (DateMs (nowEnd + 24 * 60 * 60 * 1000))
                (String.eqb status "done")
                (DateMs nowCreated) (DateMs nowUpdated) None (Some status) in
            {| qa_state := Store.addTask newTask state;
               qa_newTaskTitle := <[status := ""%string]> newTaskTitle |}
        | None => unchanged
        end
  | _, _ => unchanged
  end.
End QuickAdd.

End KanbanTasks.

(** ** The task dialog (TaskModal.tsx) *)

Module TaskModal.

(** The state of the form. *)
Record Form : Type := {
  f_title : string;
  f_description : string;
  f_notes : string;
  f_status : string;
  f_startDate : string;
  f_endDate : string
}.

(** [a < b] on two [Date]s: a comparison with [NaN] is false. *)
Definition dateLt (a b : JsDate) : bool :=
  match a, b with
  | DateMs x, DateMs y => x <? y
  | _, _ => false
  end.

(** What [handleSubmit] leaves behind: the store and whether the dialog is
    still open. *)
Record SubmitResult : Type := {
  sr_state : Store.AppState;
  sr_isTaskModalOpen : bool
}.

Section Submit.
(** [String.prototype.trim] and [new Date(string)] of the host. *)
Variable trim : string -> string.
Variable newDate : string -> JsDate.

(** [handleSubmit(e)], with the signed-in flag, the selected project, the
    task being edited if any, the form, the outcome of the call of the task
    service (the id of the created task, or any string for an accepted
    update; [None] when it rejects) and the clock as [new Date()] reads it. *)
Definition handleSubmit (userSignedIn : bool)
    (selectedProject : option Project) (task : option Task) (form : Form)
    (serviceResult : option string) (now1 now2 : Z)
    (state : Store.AppState) : SubmitResult :=
  let rejected := {| sr_state := state; sr_isTaskModalOpen := true |} in
  if negb userSignedIn then rejected
  else
    match selectedProject with
    | None => rejected
    | Some project =>
        if String.eqb (trim (f_title form)) "" then rejected
        else
          let startDateTime := newDate (f_startDate form) in
          let endDateTime := newDate (f_endDate form) in
          if dateLt endDateTime startDateTime then rejected
          else
            match task with
            | Some task =>
                let updatedTask :=
                  Task.mk (Task.id task) (Task.projectId task)
                    (trim (f_title form))
                    (Some (trim (f_description form)))
                    startDateTime endDateTime
                    (Task.completed task)
                    (Task.createdAt task) (DateMs now1)
                    (Some (trim (f_notes form)))
                    (Some (f_status form)) in
                match serviceResult with
                | Some _ =>
                    {| sr_state := Store.updateTask updatedTask state;
                       sr_isTaskModalOpen := false |}
                | None => rejected
                end
            | None =>
                match serviceResult with
                | Some taskId =>
                    let createdTask :=
                      Task.mk taskId (Project.id project)
                        (trim (f_title form))
                        (Some (trim (f_description form)))
                        startDateTime endDateTime
                        false
                        (DateMs now1) (DateMs now2)
                        (Some (trim (f_notes form)))
                        (Some (f_status form)) in
                    {| sr_state := Store.addTask createdTask state;
                       sr_isTaskModalOpen := false |}
                | None => rejected
                end
            end
    end.
End Submit.

End TaskModal.

(** ** The range of [Date]

    A [Date] holds a time value of at most 8.64e15 ms on either side of the
    epoch: [TimeClip] turns every other time value into [NaN], an Invalid
    Date.  The functions of [DateFns] compute on time values as numbers; this
    module gives the functions of date-fns and the layout on [Date]s, with
    the range.  The range is taken on the local milliseconds of the
    embedding, a zone at UTC; in another zone it moves by the offset. *)

Module DateLimits.

Definition MAX_TIME : Z := 8640000000000000.

Definition timeClip (t : Z) : JsDate :=
  if Z.abs t <=? MAX_TIME then DateMs t else InvalidDate.

(** A function of date-fns that moves a copy of its argument with the
    setters of [Date], all of them in one direction: the result is an Invalid
    Date when that of [f] is out of range, or the argument is one. *)
Definition onDate (f : Z -> Z) (date : JsDate) : JsDate :=
  match date with
  | DateMs t => timeClip (f t)
  | _ => InvalidDate
  end.

Definition startOfDay : JsDate -> JsDate := onDate DateFns.startOfDay.
Definition startOfWeek : JsDate -> JsDate := onDate DateFns.startOfWeek.
Definition endOfWeek : JsDate -> JsDate := onDate DateFns.endOfWeek.
Definition startOfMonth : JsDate -> JsDate := onDate DateFns.startOfMonth.
Definition endOfMonth : JsDate -> JsDate := onDate DateFns.endOfMonth.

(** [date.setHours(15)] on the start of a day. *)
Definition setHours15 : JsDate -> JsDate :=
  onDate (fun t => t + 15 * 60 * 60 * 1000).

(** [each*OfInterval] of date-fns 2: [RangeError] ([None]) unless both ends
    are valid and the start is not after the end.  The loop runs while the
    current date compares [<=] to the end time, which is false for an Invalid
    Date: no date is returned when the first one is out of range. *)
Definition eachDayOfInterval (start end_ : JsDate) : option (list Z) :=
  match start, end_ with
  | DateMs s, DateMs e =>
      if s <=? e then
        match startOfDay start with
        | DateMs _ => DateFns.eachDayOfInterval s e
        | _ => Some []
        end
      else None
  | _, _ => None
  end.

Definition eachWeekOfInterval (start end_ : JsDate) : option (list Z) :=
  match start, end_ with
  | DateMs s, DateMs e =>
      if s <=? e then
        let startDateWeek := setHours15 (startOfWeek start) in
        let endDateWeek := setHours15 (startOfWeek end_) in
        match startDateWeek, endDateWeek with
        | DateMs _, DateMs _ => DateFns.eachWeekOfInterval s e
        | _, _ => Some []
        end
      else None
  | _, _ => None
  end.

Definition eachMonthOfInterval (start end_ : JsDate) : option (list Z) :=
  match start, end_ with
  | DateMs s, DateMs e =>
      if s <=? e then
        match startOfMonth start with
        | DateMs _ => DateFns.eachMonthOfInterval s e
        | _ => Some []
        end
      else None
  | _, _ => None
  end.

(** The [useMemo] callback of [Timeline] on [Date]s.  [None]: an exception
    left the callback. *)
Definition timelineData (tasks : list Task) (currentView : ViewType)
  : option TimelineData :=
  let validTasks := List.filter hasValidDates tasks in
  if (length validTasks =? 0)%nat then
    Some {| td_periods := []; td_tasks := []; td_periodFormat := None;
            td_startDate := None; td_endDate := None |}
  else
  let allDates := flat_map taskTimes validTasks in
  match allDates with
  | [] => None   (* not reached: [allDates] holds two entries per valid task *)
  | d :: ds =>
      let minDate := timeClip (minOf d ds) in
      let maxDate := timeClip (maxOf d ds) in
      (* the object returned; its dates are valid where it is reached *)
      let model (periods : list Z) (periodFormat : string)
                (actualStartDate actualEndDate : JsDate) :=
        match actualStartDate, actualEndDate with
        | DateMs rangeStart, DateMs rangeEnd =>
            Some {| td_periods := periods; td_tasks := validTasks;
                    td_periodFormat := Some periodFormat;
                    td_startDate := Some rangeStart;
                    td_endDate := Some rangeEnd |}
        | _, _ => None
        end in
      match currentView with
      | daily =>
          periods ← eachDayOfInterval minDate maxDate;
          model periods "MMM dd"%string minDate maxDate
      | weekly =>
          let actualStartDate := startOfWeek minDate in
          let actualEndDate := endOfWeek maxDate in
          periods ← eachWeekOfInterval actualStartDate actualEndDate;
          model periods "MMM dd"%string actualStartDate actualEndDate
      | monthly =>
          let actualStartDate := startOfMonth minDate in
          let actualEndDate := endOfMonth maxDate in
          periods ← eachMonthOfInterval actualStartDate actualEndDate;
          model periods "MMM yyyy"%string actualStartDate actualEndDate
      | kanban =>
          model [] ""%string minDate maxDate
      end
  end.

(** What [Timeline] renders from it. *)
Definition render (tasks : list Task) (currentView : ViewType)
    (timelineZoom : Z) : option Rendered :=
  timelineData ← timelineData tasks currentView;
  if (length (td_periods timelineData) =? 0)%nat then Some EmptyState
  else
    let columnWidth := Timeline.getColumnWidth currentView timelineZoom in
    Some (Grid columnWidth
            (map (fun task =>
                    let position :=
                      Timeline.getTaskPosition timelineData currentView task
                        (td_periods timelineData) in
                    (task,
                     Timeline.barStyle timelineData columnWidth <$> position))
               (td_tasks timelineData))).

End DateLimits.

(** A time value that a [Date] can hold, and for which the dates the layout
    of a view makes of it are [Date]s too: the start of its day in daily
    view, the start and the end of its week in weekly view, of its month in
    monthly view. *)
Definition withinDateLimits (view : ViewType) (t : Z) : bool :=
  isValidDate (DateLimits.timeClip t)
  && match view with
     | daily => isValidDate (DateLimits.startOfDay (DateMs t))
     | weekly =>
         isValidDate (DateLimits.startOfWeek (DateMs t))
         && isValidDate (DateLimits.endOfWeek (DateMs t))
     | monthly =>
         isValidDate (DateLimits.startOfMonth (DateMs t))
         && isValidDate (DateLimits.endOfMonth (DateMs t))
     | kanban => true
     end.

(** ** Vocabulary of the further statements *)

(** The selected project, if there is one, is one of the listed projects,
    and its id is the saved one. *)
Definition selectionListed (state : ProjectStore.ProjectState) : Prop :=
  match ProjectStore.selectedProject state with
  | Some selected =>
      In selected (ProjectStore.projects state)
      /\ ProjectStore.localStorage state !! "selectedProjectId"
         = Some (Project.id selected)
  | None => True
  end.

(** The flag [completed] of a task says what its status says. *)
Definition flagMatchesStatus (task : Task) : bool :=
  Bool.eqb (Task.completed task)
    (String.eqb (KanbanBoard.statusOrTodo task) "done").

(** What a user does to the tasks on the board and on the timeline, with the
    answers of the task service, of the clock and of [confirm]. *)
Inductive TaskAction : Type :=
  | DropTask (draggedTask : option Task) (newStatus : string)
      (serviceOk : bool)
  | ToggleComplete (task : Task) (serviceOk : bool)
  | QuickAddTask (status : string) (newTaskTitle : gmap string string)
      (currentProject : option Project)
      (nowStart nowEnd nowCreated nowUpdated : Z) (createTask : option string)
  | DeleteTask (task : Task) (confirmed serviceOk : bool).

Definition applyTaskAction (trim : string -> string) (state : Store.AppState)
    (action : TaskAction) : Store.AppState :=
  match action with
  | DropTask draggedTask newStatus serviceOk =>
      KanbanBoard.dr_state
        (KanbanBoard.handleDrop draggedTask newStatus serviceOk state)
  | ToggleComplete task serviceOk =>
      TimelineHandlers.tr_state
        (TimelineHandlers.handleToggleComplete task serviceOk state)
  | QuickAddTask status newTaskTitle currentProject nowStart nowEnd nowCreated
      nowUpdated createTask =>
      KanbanTasks.qa_state
        (KanbanTasks.handleQuickAddTask trim status newTaskTitle
           currentProject nowStart nowEnd nowCreated nowUpdated createTask
           state)
  | DeleteTask task confirmed serviceOk =>
      TimelineHandlers.handleDeleteTask task confirmed serviceOk state
  end.

Definition runTaskActions (trim : string -> string)
    (actions : list TaskAction) (state : Store.AppState) : Store.AppState :=
  fold_left (applyTaskAction trim) actions state.

(** The columns of the board that show the tasks of a status. *)
Definition columnsOfStatus (status : string)
    (columns : list KanbanBoard.KanbanColumn)
  : list KanbanBoard.KanbanColumn :=
  List.filter (fun column => String.eqb (KanbanBoard.col_status column) status)
    columns.

(** A status has one column, whose id is the status. *)
Definition hasOwnColumn (status : string)
    (columns : list KanbanBoard.KanbanColumn) : Prop :=
  length (columnsOfStatus status columns) = 1%nat
  /\ forall column,
       In column columns ->
       KanbanBoard.col_status column = status ->
       KanbanBoard.col_id column = status.

(** * Sample inputs *)

Module Samples.

Definition mkTask (id : string) (startDate endDate : JsDate)
    (completed : bool) (status : option string) : Task :=
  Task.mk id "project-1" id None startDate endDate completed
    (DateMs 1704067200000) (DateMs 1704067200000) None status.

(** 2024-01-01 to 2024-01-03 and 2024-01-05 to 2024-01-05. *)
Definition taskJan1to3 : Task :=
  mkTask "1" (DateMs 1704067200000) (DateMs 1704240000000) false (Some "todo").
Definition taskJan5 : Task :=
  mkTask "2" (DateMs 1704412800000) (DateMs 1704412800000) false (Some "todo").

(** A task of one day, 2024-01-01, and a task of one day 199 days later,
    2024-07-18: a timeline of 200 days. *)
Definition taskFirstDay : Task :=
  mkTask "a" (DateMs 1704067200000) (DateMs 1704067200000) false (Some "todo").
Definition taskLastDay : Task :=
  mkTask "b" (DateMs 1721260800000) (DateMs 1721260800000) false (Some "todo").

(** A task added on Monday 2024-01-01 at 23:00 for 24 hours, as the quick-add
    of the Kanban board makes them, and a task on Wednesday 2024-01-03 at
    00:00. *)
Definition taskQuickAdd : Task :=
  mkTask "q" (DateMs 1704150000000) (DateMs 1704236400000) false (Some "todo").
Definition taskMidnight : Task :=
  mkTask "w" (DateMs 1704240000000) (DateMs 1704240000000) false (Some "todo").

(** A completed task stored without a status. *)
Definition taskNoStatus : Task :=
  mkTask "c" (DateMs 1704067200000) (DateMs 1704240000000) true None.

Definition taskInvalid : Task :=
  mkTask "d" InvalidDate (DateMs 1704240000000) false (Some "todo").

Definition sampleState (tasks : list Task) : Store.AppState :=
  {| Store.tasks := tasks; Store.currentView := daily;
     Store.isSidebarCollapsed := false; Store.timelineZoom := 100;
     Store.localStorage := ∅ |}.

(** A stand-in for [JSON.parse] on the texts that are a run of decimal
    digits without a leading zero; every other text is refused. *)
Fixpoint digitsValue (s : string) (acc : Z) : option Z :=
  match s with
  | EmptyString => Some acc
  | String c rest =>
      let n := Z.of_nat (Ascii.nat_of_ascii c) in
      if (48 <=? n) && (n <=? 57) then digitsValue rest (10 * acc + (n - 48))
      else None
  end.

Definition parseDigits (s : string) : option JsValue :=
  match s with
  | EmptyString => None
  | String c rest =>
      if (Z.of_nat (Ascii.nat_of_ascii c) =? 48) && negb (String.eqb rest "")
      then None
      else (fun n => JNumber (inject_Z n)) <$> digitsValue s 0
  end.

End Samples.

(** Stand-ins for the host functions on the texts the samples use:
    [JSON.parse] on [true], [false] and runs of digits, [trim] on texts
    without white space at their ends, and [new Date(string)] on decimal
    time values. *)
Module SampleHost.

Definition parseJson (s : string) : option JsValue :=
  if String.eqb s "true" then Some (JBool true)
  else if String.eqb s "false" then Some (JBool false)
  else Samples.parseDigits s.

Definition trim (s : string) : string := s.

Definition sampleProject (id : string) : Project :=
  Project.mk id id "" "user-1" (DateMs 1704067200000) (DateMs 1704067200000)
    None None None None None.

Definition emptyProjects : ProjectStore.ProjectState :=
  {| ProjectStore.projects := []; ProjectStore.selectedProject := None;
     ProjectStore.localStorage := ∅ |}.

End SampleHost.

(** Tasks with times of day: Monday 2024-01-01 at 10:00 to Tuesday at 18:00,
    and Tuesday 2024-01-02 at 09:00; and a task on the last instant a [Date]
    can hold. *)
Module TimedSamples.

Definition taskMonToTue : Task :=
  Samples.mkTask "m" (DateMs 1704103200000) (DateMs 1704218400000) false
    (Some "todo"%string).
Definition taskTueMorning : Task :=
  Samples.mkTask "t" (DateMs 1704186000000) (DateMs 1704186000000) false
    (Some "todo"%string).

Definition taskAtDateLimit : Task :=
  Samples.mkTask "z" (DateMs 8640000000000000) (DateMs 8640000000000000)
    false (Some "todo"%string).

End TimedSamples.

(** * Facts about the model of date-fns *)

Section DateFnsFacts.

Lemma MS_PER_DAY_pos : 0 < MS_PER_DAY.
Proof. reflexivity. Qed.

Lemma startOfDay_le (t : Z) : startOfDay t <= t.
Proof.
  unfold startOfDay, dayNumber, MS_PER_DAY.
  Z.to_euclidean_division_equations; lia.
Qed.

Lemma differenceInDays_div (later earlier : Z) :
  earlier <= later ->
  differenceInDays later earlier = (later - earlier) / MS_PER_DAY.
Proof.
  intros H. unfold differenceInDays.
  apply Z.quot_div_nonneg; [lia | reflexivity].
Qed.

Lemma differenceInDays_nonneg (later earlier : Z) :
  earlier <= later -> 0 <= differenceInDays later earlier.
Proof.
  intros H. rewrite differenceInDays_div by lia.
  apply Z.div_pos; [lia | reflexivity].
Qed.

Lemma startOfWeek_le (t : Z) : startOfWeek t <= t.
Proof.
  unfold startOfWeek, getDay, dayNumber, MS_PER_DAY.
  Z.to_euclidean_division_equations; lia.
Qed.

Lemma endOfWeek_ge (t : Z) : t <= endOfWeek t.
Proof.
  unfold endOfWeek, startOfWeek, getDay, dayNumber, MS_PER_DAY.
  Z.to_euclidean_division_equations; lia.
Qed.

Lemma startOfWeek_mono (a b : Z) : a <= b -> startOfWeek a <= startOfWeek b.
Proof.
  unfold startOfWeek, getDay, dayNumber, MS_PER_DAY.
  intros H. Z.to_euclidean_division_equations; lia.
Qed.

Lemma daysInYear_bounds (y : Z) : 365 <= daysInYear y <= 366.
Proof. unfold daysInYear. destruct (isLeapYear y); lia. Qed.

Lemma daysInMonth_bounds (y m : Z) : 28 <= daysInMonth y m <= 31.
Proof.
  unfold daysInMonth.
  destruct (m =? 1); [destruct (isLeapYear y); lia |].
  destruct ((m =? 3) || (m =? 5) || (m =? 8) || (m =? 10)); lia.
Qed.

(** With fuel for the distance from the year, [normYear] ends on a day of
    the year it returns. *)
Lemma normYear_spec (fuel : nat) :
  forall y r,
    (0 <= r < daysInYear y) \/
    (- 365 * Z.of_nat fuel <= r < 365 * (Z.of_nat fuel + 1)) ->
    let '(y', r') := normYear fuel y r in 0 <= r' < daysInYear y'.
Proof.
  induction fuel as [| fuel IH]; intros y r H.
  - simpl. pose proof (daysInYear_bounds y). lia.
  - cbn [normYear].
    pose proof (daysInYear_bounds y) as By.
    pose proof (daysInYear_bounds (y - 1)) as By1.
    destruct (Z.ltb_spec r 0) as [Hneg | Hpos].
    + apply IH.
      destruct (Z.lt_ge_cases (r + daysInYear (y - 1)) 0); [right | left]; lia.
    + destruct (Z.leb_spec (daysInYear y) r) as [Hbig | Hsmall].
      * apply IH. right. lia.
      * lia.
Qed.

Lemma normMonth_spec (y r : Z) :
  0 <= r < daysInYear y ->
  let '(m, r') := normMonth 11 y 0 r in
  0 <= r' < daysInMonth y m.
Proof.
  intros H. unfold daysInYear in H. cbn [normMonth].
  unfold daysInMonth.
  cbv beta iota delta [Z.eqb Pos.eqb Z.add Pos.add Pos.succ orb].
  destruct (isLeapYear y);
    repeat (match goal with
            | |- context [?a <=? ?b] => destruct (Z.leb_spec a b)
            end; [| lia]);
    lia.
Qed.

Lemma civil_spec (d : Z) :
  let '(y, m, dom) := civil d in 0 <= dom < daysInMonth y m.
Proof.
  unfold civil.
  pose proof (normYear_spec (yearFuel d) 1970 d) as HY.
  destruct (normYear (yearFuel d) 1970 d) as [y r].
  assert (Hr : 0 <= r < daysInYear y).
  { apply HY. right. unfold yearFuel.
    rewrite Z2Nat.id by (Z.to_euclidean_division_equations; lia).
    Z.to_euclidean_division_equations; lia. }
  pose proof (normMonth_spec y r Hr) as HM.
  destruct (normMonth 11 y 0 r) as [m r']. exact HM.
Qed.

Lemma dayNumber_bounds (t : Z) :
  dayNumber t * MS_PER_DAY <= t < (dayNumber t + 1) * MS_PER_DAY.
Proof.
  unfold dayNumber, MS_PER_DAY. Z.to_euclidean_division_equations; lia.
Qed.

Lemma startOfMonth_le (t : Z) : startOfMonth t <= t.
Proof.
  unfold startOfMonth. pose proof (civil_spec (dayNumber t)) as H.
  destruct (civil (dayNumber t)) as [[y m] dom].
  pose proof (dayNumber_bounds t). pose proof MS_PER_DAY_pos. nia.
Qed.

Lemma endOfMonth_ge (t : Z) : t <= endOfMonth t.
Proof.
  unfold endOfMonth. pose proof (civil_spec (dayNumber t)) as H.
  destruct (civil (dayNumber t)) as [[y m] dom].
  pose proof (dayNumber_bounds t). pose proof MS_PER_DAY_pos. nia.
Qed.

Lemma differenceInDays_le (a b base : Z) :
  a <= b -> differenceInDays a base <= differenceInDays b base.
Proof.
  intros H. unfold differenceInDays.
  apply Z.quot_le_mono; [reflexivity | lia].
Qed.

End DateFnsFacts.

Section Loops.
Context {S : Type} (time : S -> Z) (next : S -> S).

Lemma datesUpTo_nonempty (fuel : nat) (date : S) (endTime : Z) :
  fuel <> O -> time date <= endTime ->
  datesUpTo fuel time next date endTime <> [].
Proof.
  destruct fuel as [| fuel]; [congruence |].
  intros _ H. cbn [datesUpTo].
  destruct (Z.leb_spec (time date) endTime); [discriminate | lia].
Qed.

(** When every round advances the date by [step] or more, [loopFuel]
    rounds reach the end of the interval: further fuel adds no date. *)
Lemma datesUpTo_enough (step endTime : Z) :
  0 < step ->
  (forall s, time s + step <= time (next s)) ->
  forall (fuel : nat) (date : S) (extra : nat),
    endTime - time date < step * Z.of_nat fuel ->
    datesUpTo (fuel + extra) time next date endTime
    = datesUpTo fuel time next date endTime.
Proof.
  intros Hstep Hnext. induction fuel as [| fuel IH]; intros date extra Hf.
  - destruct extra as [| extra]; [reflexivity |].
    cbn [Nat.add datesUpTo].
    destruct (Z.leb_spec (time date) endTime); [lia | reflexivity].
  - cbn [Nat.add datesUpTo].
    destruct (Z.leb_spec (time date) endTime); [| reflexivity].
    f_equal. apply IH. specialize (Hnext date). nia.
Qed.

Lemma loopFuel_enough (date endTime step : Z) :
  0 < step ->
  endTime - date < step * Z.of_nat (loopFuel date endTime step).
Proof.
  intros Hstep. unfold loopFuel.
  destruct (Z.le_gt_cases date endTime) as [Hle | Hgt].
  - rewrite Z2Nat.id by (Z.to_euclidean_division_equations; nia).
    Z.to_euclidean_division_equations; nia.
  - assert (0 <= Z.of_nat (Z.to_nat ((endTime - date) / step + 1))) by lia.
    nia.
Qed.

Lemma loopFuel_nonzero (date endTime step : Z) :
  0 < step -> date <= endTime -> loopFuel date endTime step <> O.
Proof.
  intros Hstep Hle. unfold loopFuel.
  assert (0 <= (endTime - date) / step) by (apply Z.div_pos; lia).
  lia.
Qed.
End Loops.

Lemma nextMonth_advances (s : Z * Z * Z) :
  snd s + 28 * MS_PER_DAY <= snd (nextMonth s).
Proof.
  destruct s as [[y m] t]. cbn [nextMonth snd].
  pose proof (daysInMonth_bounds y m). pose proof MS_PER_DAY_pos. nia.
Qed.

(** No interval function stops for lack of fuel. *)
Lemma eachDayOfInterval_complete (start end_ : Z) (extra : nat) :
  let date := startOfDay start in
  datesUpTo (loopFuel date end_ MS_PER_DAY + extra)
    (fun d => d) (fun d => d + MS_PER_DAY) date end_
  = datesUpTo (loopFuel date end_ MS_PER_DAY)
      (fun d => d) (fun d => d + MS_PER_DAY) date end_.
Proof.
  intros date. apply datesUpTo_enough with (step := MS_PER_DAY).
  - apply MS_PER_DAY_pos.
  - intros s. lia.
  - apply loopFuel_enough, MS_PER_DAY_pos.
Qed.

Lemma eachWeekOfInterval_complete (start end_ : Z) (extra : nat) :
  let date := startOfWeek start in
  let endTime := startOfWeek end_ in
  datesUpTo (loopFuel date endTime (7 * MS_PER_DAY) + extra)
    (fun d => d) (fun d => d + 7 * MS_PER_DAY) date endTime
  = datesUpTo (loopFuel date endTime (7 * MS_PER_DAY))
      (fun d => d) (fun d => d + 7 * MS_PER_DAY) date endTime.
Proof.
  intros date endTime. apply datesUpTo_enough with (step := 7 * MS_PER_DAY).
  - reflexivity.
  - intros s. lia.
  - apply loopFuel_enough. reflexivity.
Qed.

Lemma eachMonthOfInterval_complete (y m start end_ : Z) (extra : nat) :
  let date := startOfMonth start in
  datesUpTo (loopFuel date end_ (28 * MS_PER_DAY) + extra)
    (fun s => snd s) nextMonth (y, m, date) end_
  = datesUpTo (loopFuel date end_ (28 * MS_PER_DAY))
      (fun s => snd s) nextMonth (y, m, date) end_.
Proof.
  intros date. apply datesUpTo_enough with (step := 28 * MS_PER_DAY).
  - reflexivity.
  - apply nextMonth_advances.
  - apply loopFuel_enough. reflexivity.
Qed.

Lemma eachDayOfInterval_periods (start end_ : Z) :
  start <= end_ ->
  exists periods,
    eachDayOfInterval start end_ = Some periods /\ periods <> [].
Proof.
  intros H. unfold eachDayOfInterval.
  destruct (Z.leb_spec start end_); [| lia].
  eexists; split; [reflexivity |].
  pose proof (startOfDay_le start).
  apply datesUpTo_nonempty; [apply loopFuel_nonzero; [reflexivity | lia] | lia].
Qed.

Lemma eachWeekOfInterval_periods (start end_ : Z) :
  start <= end_ ->
  exists periods,
    eachWeekOfInterval start end_ = Some periods /\ periods <> [].
Proof.
  intros H. unfold eachWeekOfInterval.
  destruct (Z.leb_spec start end_); [| lia].
  eexists; split; [reflexivity |].
  pose proof (startOfWeek_mono start end_ H).
  apply datesUpTo_nonempty; [apply loopFuel_nonzero; [reflexivity | lia] | lia].
Qed.

Lemma eachMonthOfInterval_periods (start end_ : Z) :
  start <= end_ ->
  exists periods,
    eachMonthOfInterval start end_ = Some periods /\ periods <> [].
Proof.
  intros H. unfold eachMonthOfInterval.
  destruct (Z.leb_spec start end_); [| lia].
  destruct (civil (dayNumber start)) as [[y m] dom].
  eexists; split; [reflexivity |].
  pose proof (startOfMonth_le start).
  apply datesUpTo_nonempty;
    [apply loopFuel_nonzero; [reflexivity | lia] | cbn [snd]; lia].
Qed.

(** ** Minimum and maximum of a list *)

Lemma minOf_le_init (xs : list Z) (x : Z) : minOf x xs <= x.
Proof.
  unfold minOf. revert x.
  induction xs as [| a xs IH]; intros x; cbn [fold_left]; [lia |].
  specialize (IH (Z.min x a)). lia.
Qed.

Lemma minOf_lower (xs : list Z) (x a : Z) : In a (x :: xs) -> minOf x xs <= a.
Proof.
  intros [-> | Hin]; [apply minOf_le_init |].
  unfold minOf. revert x.
  induction xs as [| b xs IH]; intros x; [destruct Hin |].
  cbn [fold_left]. destruct Hin as [-> | Hin].
  - pose proof (minOf_le_init xs (Z.min x a)). unfold minOf in *. lia.
  - now apply IH.
Qed.

Lemma minOf_In (xs : list Z) (x : Z) : In (minOf x xs) (x :: xs).
Proof.
  unfold minOf. revert x.
  induction xs as [| b xs IH]; intros x; cbn [fold_left]; [now left |].
  destruct (IH (Z.min x b)) as [H | H].
  - rewrite <- H. destruct (Z.min_spec x b) as [[_ ->] | [_ ->]];
      [now left | right; now left].
  - right; now right.
Qed.

Lemma maxOf_ge_init (xs : list Z) (x : Z) : x <= maxOf x xs.
Proof.
  unfold maxOf. revert x.
  induction xs as [| a xs IH]; intros x; cbn [fold_left]; [lia |].
  specialize (IH (Z.max x a)). lia.
Qed.

Lemma maxOf_upper (xs : list Z) (x a : Z) : In a (x :: xs) -> a <= maxOf x xs.
Proof.
  intros [-> | Hin]; [apply maxOf_ge_init |].
  unfold maxOf. revert x.
  induction xs as [| b xs IH]; intros x; [destruct Hin |].
  cbn [fold_left]. destruct Hin as [-> | Hin].
  - pose proof (maxOf_ge_init xs (Z.max x a)). unfold maxOf in *. lia.
  - now apply IH.
Qed.

Lemma minOf_le_maxOf (xs : list Z) (x : Z) : minOf x xs <= maxOf x xs.
Proof. pose proof (minOf_le_init xs x). pose proof (maxOf_ge_init xs x). lia. Qed.

(** * Facts about the layout *)

(** The two components hold the same [useMemo] callback. *)
Lemma timelineData_same :
  ReadOnlyTimeline.timelineData = Timeline.timelineData.
Proof. reflexivity. Qed.

Lemma hasValidDates_times (t : Task) :
  hasValidDates t = true ->
  exists s e,
    Task.startDate t = DateMs s /\ Task.endDate t = DateMs e
    /\ taskTimes t = [s; e].
Proof.
  unfold hasValidDates, isValidDate, taskTimes.
  destruct (Task.startDate t) as [s | |], (Task.endDate t) as [e | |];
    try discriminate.
  intros _. now exists s, e.
Qed.

Lemma hasValidDates_iff (t : Task) :
  hasValidDates t = true
  <-> isValidDate (Task.startDate t) = true
      /\ isValidDate (Task.endDate t) = true.
Proof. unfold hasValidDates. apply andb_true_iff. Qed.

Lemma taskTimes_in_allDates (validTasks : list Task) (t : Task) (x : Z) :
  In t validTasks -> In x (taskTimes t) ->
  In x (flat_map taskTimes validTasks).
Proof. intros Ht Hx. apply in_flat_map. now exists t. Qed.

Lemma timelineData_empty (tasks : list Task) (view : ViewType) :
  List.filter hasValidDates tasks = [] ->
  Timeline.timelineData tasks view
  = Some {| td_periods := []; td_tasks := []; td_periodFormat := None;
            td_startDate := None; td_endDate := None |}.
Proof. intros H. unfold Timeline.timelineData. now rewrite H. Qed.

(** Closes a case of [timelineData_nonempty], from the periods [Hp], the
    times of the first valid task and the bounds on the dates. *)
Ltac finish_td Hp Htimes Hmin Hmax Hlo :=
  lazymatch type of Hmin with
  | In (minOf ?s0 ?ds) _ =>
      eexists _, (minOf s0 ds), (maxOf s0 ds);
      do 4 (split; [reflexivity |]);
      cbn [td_tasks td_periods flat_map]; rewrite Htimes; cbn [app];
      split; [first [intros _; exact Hp | congruence] |];
      split; [exact Hmin |]; split; [exact Hmax | exact Hlo]
  end.

Lemma timelineData_nonempty (tasks : list Task) (view : ViewType) :
  List.filter hasValidDates tasks <> [] ->
  exists td minDate maxDate,
    Timeline.timelineData tasks view = Some td
    /\ td_tasks td = List.filter hasValidDates tasks
    /\ td_startDate td = Some (rangeStartOf view minDate)
    /\ td_endDate td = Some (rangeEndOf view maxDate)
    /\ (view <> kanban -> td_periods td <> [])
    /\ In minDate (flat_map taskTimes (td_tasks td))
    /\ In maxDate (flat_map taskTimes (td_tasks td))
    /\ (forall x, In x (flat_map taskTimes (td_tasks td)) ->
                  minDate <= x <= maxDate).
Proof.
  intros Hne. unfold Timeline.timelineData.
  set (validTasks := List.filter hasValidDates tasks) in *.
  destruct validTasks as [| t0 rest] eqn:Hvalid; [congruence |].
  cbn [length Nat.eqb].
  assert (Ht0 : hasValidDates t0 = true).
  { assert (Hin : In t0 (List.filter hasValidDates tasks))
      by (fold validTasks; rewrite Hvalid; now left).
    now apply filter_In in Hin. }
  destruct (hasValidDates_times t0 Ht0) as (s0 & e0 & _ & _ & Htimes).
  cbn [flat_map]. rewrite Htimes. cbn [app].
  set (ds := e0 :: flat_map taskTimes rest).
  assert (Hlo : forall x, In x (s0 :: ds) -> minOf s0 ds <= x <= maxOf s0 ds)
    by (intros x Hx; split; [now apply minOf_lower | now apply maxOf_upper]).
  pose proof (minOf_In ds s0) as Hmin.
  assert (Hmax : In (maxOf s0 ds) (s0 :: ds)).
  { unfold maxOf. clear. revert s0.
    induction ds as [| b ds IH]; intros x; cbn [fold_left]; [now left |].
    destruct (IH (Z.max x b)) as [H | H].
    - rewrite <- H. destruct (Z.max_spec x b) as [[_ ->] | [_ ->]];
        [right; now left | now left].
    - right; now right. }
  pose proof (minOf_le_maxOf ds s0) as Hle.
  destruct view.
  - destruct (eachDayOfInterval_periods _ _ Hle) as (periods & -> & Hp).
    finish_td Hp Htimes Hmin Hmax Hlo.
  - assert (Hw : startOfWeek (minOf s0 ds) <= endOfWeek (maxOf s0 ds)).
    { pose proof (startOfWeek_le (minOf s0 ds)).
      pose proof (endOfWeek_ge (maxOf s0 ds)). lia. }
    destruct (eachWeekOfInterval_periods _ _ Hw) as (periods & -> & Hp).
    finish_td Hp Htimes Hmin Hmax Hlo.
  - assert (Hm : startOfMonth (minOf s0 ds) <= endOfMonth (maxOf s0 ds)).
    { pose proof (startOfMonth_le (minOf s0 ds)).
      pose proof (endOfMonth_ge (maxOf s0 ds)). lia. }
    destruct (eachMonthOfInterval_periods _ _ Hm) as (periods & -> & Hp).
    finish_td Hp Htimes Hmin Hmax Hlo.
  - pose proof I as Hp. finish_td Hp Htimes Hmin Hmax Hlo.
Qed.

(** ** [findIndex] *)

Lemma findIndexFrom_range {A : Type} (p : A -> bool) (l : list A) (i : Z) :
  findIndexFrom p l i = -1 /\ (forall x, In x l -> p x = false)
  \/ i <= findIndexFrom p l i < i + Z.of_nat (length l).
Proof.
  revert i. induction l as [| x l IH]; intros i; cbn [findIndexFrom length].
  - left. split; [reflexivity | intros x []].
  - destruct (p x) eqn:Hp; [right; lia |].
    destruct (IH (i + 1)) as [[H1 H2] | H].
    + left. split; [exact H1 |]. intros y [<- | Hy]; auto.
    + right. lia.
Qed.

Lemma findIndexFrom_none {A : Type} (p : A -> bool) (l : list A) (i : Z) :
  (forall x, In x l -> p x = false) -> findIndexFrom p l i = -1.
Proof.
  revert i. induction l as [| x l IH]; intros i H; cbn [findIndexFrom].
  - reflexivity.
  - rewrite (H x) by now left. apply IH. intros y Hy. apply H. now right.
Qed.

Lemma findIndex_range {A : Type} (p : A -> bool) (l : list A) :
  findIndex p l = -1 \/ 0 <= findIndex p l < Z.of_nat (length l).
Proof.
  unfold findIndex. destruct (findIndexFrom_range p l 0) as [[H _] | H];
    [now left | right; lia].
Qed.

Lemma findIndex_none {A : Type} (p : A -> bool) (l : list A) :
  (forall x, In x l -> p x = false) -> findIndex p l = -1.
Proof. apply findIndexFrom_none. Qed.

(** ** Percentages *)

Lemma Zq_pos (t : Z) : 0 < t -> (0 < Zq t)%Q.
Proof. intros H. unfold Zq. change 0%Q with (inject_Z 0). now rewrite <- Zlt_Qlt. Qed.

Lemma getTaskPosition_valid (td : TimelineData) (view : ViewType)
    (task : Task) (periods : list Z) :
  hasValidDates task = true ->
  is_Some (Timeline.getTaskPosition td view task periods).
Proof.
  intros Hv. destruct (hasValidDates_times task Hv) as (s & e & Hs & He & _).
  unfold Timeline.getTaskPosition. rewrite Hs, He.
  destruct (td_startDate td), (td_endDate td); try (eexists; reflexivity).
  destruct (length periods =? 0)%nat; [eexists; reflexivity |].
  destruct view; eexists; reflexivity.
Qed.

Lemma count_occ_filter_true (f : Task -> bool) (l : list Task) (t : Task) :
  f t = true ->
  count_occ Task_eq_dec (List.filter f l) t = count_occ Task_eq_dec l t.
Proof.
  intros Hf. induction l as [| a l IH]; [reflexivity |].
  cbn [List.filter count_occ].
  destruct (Task_eq_dec a t) as [-> | Hne].
  - rewrite Hf. cbn [count_occ]. destruct (Task_eq_dec t t); congruence.
  - destruct (f a); cbn [count_occ]; [| exact IH].
    destruct (Task_eq_dec a t); congruence.
Qed.

(** * Facts about the store and the Kanban board *)

Lemma hasDefaultColumns_step (trim : string -> string)
    (cols : list KanbanBoard.KanbanColumn) (op : KanbanBoard.ColumnOp)
    (d : string) :
  In d KanbanBoard.defaultColumnIds ->
  (exists col, In col cols /\ KanbanBoard.col_id col = d
               /\ KanbanBoard.col_status col = d) ->
  exists col, In col (KanbanBoard.applyOp trim cols op)
              /\ KanbanBoard.col_id col = d /\ KanbanBoard.col_status col = d.
Proof.
  intros Hd (col & Hin & Hid & Hst). destruct op as [title n1 n2 | cid t | cid].
  - cbn [KanbanBoard.applyOp]. unfold KanbanBoard.handleAddColumn.
    destruct (String.eqb (trim title) ""); [now exists col |].
    exists col. split; [apply in_or_app; now left | now split].
  - cbn [KanbanBoard.applyOp]. unfold KanbanBoard.handleEditColumn.
    destruct (String.eqb (KanbanBoard.col_id col) cid) eqn:E.
    + eexists. split; [apply in_map_iff; exists col; split;
                       [rewrite E; reflexivity | exact Hin] |].
      now split.
    + exists col. split; [| now split].
      apply in_map_iff. exists col. now rewrite E.
  - cbn [KanbanBoard.applyOp]. unfold KanbanBoard.handleDeleteColumn.
    destruct (KanbanBoard.includes KanbanBoard.defaultColumnIds cid) eqn:E;
      [now exists col |].
    exists col. split; [| now split].
    apply filter_In. split; [exact Hin |].
    apply negb_true_iff, String.eqb_neq. rewrite Hid. intros ->.
    assert (KanbanBoard.includes KanbanBoard.defaultColumnIds cid = true);
      [| congruence].
    apply existsb_exists. exists cid. split; [exact Hd | apply String.eqb_refl].
Qed.

Lemma hasDefaultColumns_run (trim : string -> string)
    (ops : list KanbanBoard.ColumnOp) (d : string) :
  In d KanbanBoard.defaultColumnIds ->
  forall cols,
    (exists col, In col cols /\ KanbanBoard.col_id col = d
                 /\ KanbanBoard.col_status col = d) ->
    exists col, In col (fold_left (KanbanBoard.applyOp trim) ops cols)
                /\ KanbanBoard.col_id col = d
                /\ KanbanBoard.col_status col = d.
Proof.
  intros Hd. induction ops as [| op ops IH]; intros cols H; [exact H |].
  cbn [fold_left]. apply IH. now apply hasDefaultColumns_step.
Qed.

Lemma initialColumns_default (d : string) :
  In d KanbanBoard.defaultColumnIds ->
  exists col, In col KanbanBoard.initialColumns
              /\ KanbanBoard.col_id col = d /\ KanbanBoard.col_status col = d.
Proof.
  intros Hd.
  exists {| KanbanBoard.col_id := d;
            KanbanBoard.col_title :=
              if String.eqb d "todo" then "To Do"
              else if String.eqb d "in-progress" then "In Progress"
              else if String.eqb d "done" then "Done"
              else if String.eqb d "pending" then "Pending"
              else "Blocked";
            KanbanBoard.col_color := None;
            KanbanBoard.col_status := d |}.
  split; [| split; reflexivity].
  cbn in Hd. destruct Hd as [<- | [<- | [<- | [<- | [<- | []]]]]];
    cbn; tauto.
Qed.

Lemma sublist_List_filter {A : Type} (f : A -> bool) (l : list A) :
  sublist (List.filter f l) l.
Proof.
  induction l as [| a l IH]; cbn [List.filter]; [constructor |].
  destruct (f a); now constructor.
Qed.

(** * The scenarios of the specification, computed *)

(** Tasks from January 1st to 3rd and on January 5th, daily view: five day
    columns; at zoom 100 the first bar runs from 0 to 300 pixels, the second
    from 400 to 500. *)
Example scenario_daily :
  exists td rows bar1 bar2,
    Timeline.timelineData [Samples.taskJan1to3; Samples.taskJan5] daily
    = Some td
    /\ length (td_periods td) = 5%nat
    /\ Timeline.render [Samples.taskJan1to3; Samples.taskJan5] daily 100
       = Some (Grid 100 rows)
    /\ rows = [(Samples.taskJan1to3, Some bar1); (Samples.taskJan5, Some bar2)]
    /\ (bar_left bar1 == 0)%Q /\ (bar_width bar1 == 300)%Q
    /\ (bar_left bar2 == 400)%Q /\ (bar_width bar2 == 100)%Q.
Proof.
  do 4 eexists.
  split; [vm_compute; reflexivity |]. split; [reflexivity |].
  split; [vm_compute; reflexivity |]. split; [reflexivity |].
  repeat split.
Qed.

(** A task from Monday, January 29th to Friday, February 2nd, weekly view:
    one week, from Sunday, January 28th; monthly view: two months. *)
Example scenario_weekly :
  let task :=
    Samples.mkTask "x" (DateMs 1706486400000) (DateMs 1706832000000)
      false None in
  (exists td,
      Timeline.timelineData [task] weekly = Some td
      /\ td_periods td = [1706400000000]
      /\ td_startDate td = Some 1706400000000
      /\ td_endDate td = Some 1707004799999)
  /\ (exists td,
         Timeline.timelineData [task] monthly = Some td
         /\ td_periods td = [1704067200000; 1706745600000]).
Proof.
  split; eexists; (split; [vm_compute; reflexivity |]); repeat split.
Qed.

(** A task with an invalid start date is left out of the model. *)
Example scenario_invalid_date :
  exists td,
    Timeline.timelineData [Samples.taskInvalid; Samples.taskJan5] daily
    = Some td
    /\ td_tasks td = [Samples.taskJan5].
Proof. eexists. split; [vm_compute; reflexivity | reflexivity]. Qed.

(** * The claims *)

(** C1. The two renderers do not give the same bar to every task: in daily
    view, on a timeline of 200 days at zoom 100 (columns of 100 pixels), the
    editable timeline draws the one-day task 200 pixels wide (its width of
    0.5 percent is raised to 1 percent) and the read-only timeline draws it
    100 pixels wide, one column; the left offsets agree there. *)
Theorem daily_bars_differ_C1 :
  (exists rowsT rowsR barT barR,
      Timeline.render [Samples.taskFirstDay; Samples.taskLastDay] daily 100
      = Some (Grid 100 rowsT)
      /\ ReadOnlyTimeline.render [Samples.taskFirstDay; Samples.taskLastDay]
           daily 100
         = Some (Grid 100 rowsR)
      /\ nth_error rowsT 0 = Some (Samples.taskFirstDay, Some barT)
      /\ nth_error rowsR 0 = Some (Samples.taskFirstDay, Some barR)
      /\ (bar_left barT == bar_left barR)%Q
      /\ (bar_width barT == 200)%Q
      /\ (bar_width barR == 100)%Q)
  /\ ~ sameGeometry
        (Timeline.render [Samples.taskFirstDay; Samples.taskLastDay]
           daily 100)
        (ReadOnlyTimeline.render [Samples.taskFirstDay; Samples.taskLastDay]
           daily 100).
Proof.
  split.
  - do 4 eexists.
    split; [vm_compute; reflexivity |].
    split; [vm_compute; reflexivity |].
    split; [reflexivity |]. split; [reflexivity |].
    split; [reflexivity |]. split; reflexivity.
  - intros H. vm_compute in H. destruct H as [_ H].
    inversion H as [| rowT rowR restT restR Hrow _]; subst.
    cbv beta in Hrow. destruct Hrow as [_ [_ Hwidth]].
    discriminate Hwidth.
Qed.

(** The offsets differ as well when the dates carry a time of day: a task
    from Monday 23:00 to Tuesday 23:00 and a task on Wednesday 00:00 make a
    timeline of two full days under three day columns, and the editable
    timeline puts the second task at 150 pixels where the read-only one puts
    it at 100 pixels, under the second day column. *)
Lemma daily_offsets_differ_with_times :
  exists rowsT rowsR barT barR,
    Timeline.render [Samples.taskQuickAdd; Samples.taskMidnight] daily 100
    = Some (Grid 100 rowsT)
    /\ ReadOnlyTimeline.render [Samples.taskQuickAdd; Samples.taskMidnight]
         daily 100
       = Some (Grid 100 rowsR)
    /\ nth_error rowsT 1 = Some (Samples.taskMidnight, Some barT)
    /\ nth_error rowsR 1 = Some (Samples.taskMidnight, Some barR)
    /\ (bar_left barT == 150)%Q
    /\ (bar_left barR == 100)%Q
    /\ (bar_width barT == 150)%Q
    /\ (bar_width barR == 100)%Q.
Proof.
  do 4 eexists.
  split; [vm_compute; reflexivity |].
  split; [vm_compute; reflexivity |].
  split; [reflexivity |]. split; [reflexivity |].
  split; [reflexivity |]. split; [reflexivity |]. split; reflexivity.
Qed.

(** C2. In daily view the position of a task does not always cover the day
    of the task.  With a task from Monday 10:00 to Tuesday 18:00 and a task on
    Tuesday at 09:00 the timeline starts on Monday at 10:00 and counts two
    days, under the two day columns of Monday and of Tuesday.  The second
    task lies on Tuesday, the day of the second column, one calendar day
    after the day the timeline starts on, but less than a full day after its
    first instant: [getTaskPosition] gives it offset 0 and length 50 percent,
    that is day 0 up to day 1, and both components draw its bar over the
    column of Monday alone. *)
Theorem daily_bar_under_wrong_day_C2 :
  let tasks := [TimedSamples.taskMonToTue; TimedSamples.taskTueMorning] in
  let task := TimedSamples.taskTueMorning in
  exists td position rowsT rowsR barT barR,
    Timeline.timelineData tasks daily = Some td
    /\ td_startDate td = Some 1704103200000
    /\ td_endDate td = Some 1704218400000
    /\ td_periods td = [1704067200000; 1704153600000]
    /\ Task.startDate task = DateMs 1704186000000
    /\ Task.endDate task = DateMs 1704186000000
    /\ nth_error (td_periods td) 1 = Some (startOfDay 1704186000000)
    /\ dayNumber 1704186000000 - dayNumber 1704103200000 = 1
    /\ differenceInDays 1704186000000 1704103200000 = 0
    /\ Timeline.getTaskPosition td daily task (td_periods td) = Some position
    /\ (let totalDays :=
          Zq (differenceInDays 1704218400000 1704103200000 + 1) in
        let offset := p_left position / 100 * totalDays in
        let length := p_width position / 100 * totalDays in
        p_left position == 0 /\ p_width position == 50
        /\ offset == 0 /\ offset + length == 1
        /\ ~ Zq 1 < offset + length)%Q
    /\ Timeline.render tasks daily 100 = Some (Grid 100 rowsT)
    /\ ReadOnlyTimeline.render tasks daily 100 = Some (Grid 100 rowsR)
    /\ nth_error rowsT 1 = Some (task, Some barT)
    /\ nth_error rowsR 1 = Some (task, Some barR)
    /\ (bar_left barT == 0 /\ bar_width barT == 100)%Q
    /\ (bar_left barR == 0 /\ bar_width barR == 100)%Q.
Proof.
  cbv zeta. do 6 eexists.
  split; [vm_compute; reflexivity |].
  do 8 (split; [reflexivity |]).
  split; [vm_compute; reflexivity |].
  split.
  { cbn [p_left p_width].
    split; [reflexivity |]. split; [reflexivity |].
    split; [reflexivity |]. split; [reflexivity |].
    intros H. vm_compute in H. discriminate H. }
  split; [vm_compute; reflexivity |].
  split; [vm_compute; reflexivity |].
  split; [reflexivity |]. split; [reflexivity |].
  split; split; reflexivity.
Qed.

(** C3. In weekly and monthly view, on a model that has a time range and for
    a list of periods that is not empty (the components call
    [getTaskPosition] in no other case), both components place a task by a
    start and an end index into the periods: the start index is 0 when no
    period contains the start date, the end index is the start index when no
    period contains the end date, the end index is never below the start
    index nor past the last period, and the task spans one period or more. *)
Theorem period_index_fallback_C3 :
  forall (view : ViewType) (timelineData : TimelineData) (task : Task)
         (periods : list Z) (columnWidth rangeStart rangeEnd : Z),
    view = weekly \/ view = monthly ->
    td_startDate timelineData = Some rangeStart ->
    td_endDate timelineData = Some rangeEnd ->
    periods <> [] ->
    exists startIndex endIndex : Z,
      let total := Z.of_nat (length periods) in
      Timeline.getTaskPosition timelineData view task periods
      = Some {| p_left := (Zq startIndex / Zq total * 100)%Q;
                p_width :=
                  (Zq (endIndex - startIndex + 1) / Zq total * 100)%Q |}
      /\ ReadOnlyTimeline.getTaskPosition timelineData view task periods
           columnWidth
         = Some {| p_left := Zq (startIndex * columnWidth);
                   p_width :=
                     Zq ((endIndex - startIndex + 1) * columnWidth) |}
      /\ ((forall p, In p periods ->
                     inPeriod view (Task.startDate task) p = false) ->
          startIndex = 0)
      /\ ((forall p, In p periods ->
                     inPeriod view (Task.endDate task) p = false) ->
          endIndex = startIndex)
      /\ (0 <= findIndex (inPeriod view (Task.startDate task)) periods ->
          startIndex = findIndex (inPeriod view (Task.startDate task)) periods)
      /\ 0 <= startIndex <= endIndex
      /\ endIndex <= total - 1
      /\ 1 <= endIndex - startIndex + 1.
Proof.
  intros view td task periods cw rs re Hview Hs He Hne.
  set (total := Z.of_nat (length periods)).
  set (iStart := findIndex (inPeriod view (Task.startDate task)) periods).
  set (iEnd := findIndex (inPeriod view (Task.endDate task)) periods).
  set (startIndex := Z.max 0 (if 0 <=? iStart then iStart else 0)).
  set (endIndex :=
         Z.min (total - 1)
           (Z.max (if 0 <=? iEnd then iEnd else startIndex) startIndex)).
  exists startIndex, endIndex.
  assert (Hlen : (length periods =? 0)%nat = false)
    by (destruct periods; [congruence | reflexivity]).
  assert (Htotal : 0 < total)
    by (subst total; destruct periods; [congruence | cbn [length]; lia]).
  pose proof (findIndex_range (inPeriod view (Task.startDate task)) periods)
    as Hrs.
  pose proof (findIndex_range (inPeriod view (Task.endDate task)) periods)
    as Hre.
  fold iStart in Hrs. fold iEnd in Hre. fold total in Hrs, Hre.
  assert (Hstart : 0 <= startIndex <= total - 1).
  { subst startIndex. destruct (Z.leb_spec 0 iStart); lia. }
  split; [| split].
  - unfold Timeline.getTaskPosition. rewrite Hs, He, Hlen.
    destruct Hview as [-> | ->]; reflexivity.
  - unfold ReadOnlyTimeline.getTaskPosition. rewrite Hs, He, Hlen.
    destruct Hview as [-> | ->]; reflexivity.
  - split; [| split; [| split]].
    + intros Hnone. subst startIndex.
      pose proof (findIndex_none _ _ Hnone) as E. fold iStart in E. rewrite E.
      reflexivity.
    + intros Hnone. subst endIndex.
      pose proof (findIndex_none _ _ Hnone) as E. fold iEnd in E. rewrite E.
      cbn [Z.leb Z.compare]. lia.
    + intros Hfound. subst startIndex.
      destruct (Z.leb_spec 0 iStart); lia.
    + subst endIndex. destruct (Z.leb_spec 0 iEnd); lia.
Qed.

(** The two weeks from Sunday 2023-12-31 on, and the task of January 5th. *)
Lemma period_index_fallback_C3_witness :
  exists startIndex endIndex : Z,
    let total := Z.of_nat (length [1703980800000; 1704585600000]) in
    let timelineData :=
      {| td_periods := [1703980800000; 1704585600000];
         td_tasks := [Samples.taskJan5];
         td_periodFormat := Some "MMM dd"%string;
         td_startDate := Some 1703980800000;
         td_endDate := Some 1705190399999 |} in
    Timeline.getTaskPosition timelineData weekly Samples.taskJan5
      [1703980800000; 1704585600000]
    = Some {| p_left := (Zq startIndex / Zq total * 100)%Q;
              p_width := (Zq (endIndex - startIndex + 1) / Zq total * 100)%Q |}
    /\ ReadOnlyTimeline.getTaskPosition timelineData weekly Samples.taskJan5
         [1703980800000; 1704585600000] 120
       = Some {| p_left := Zq (startIndex * 120);
                 p_width := Zq ((endIndex - startIndex + 1) * 120) |}
    /\ ((forall p, In p [1703980800000; 1704585600000] ->
                   inPeriod weekly (Task.startDate Samples.taskJan5) p = false)
        -> startIndex = 0)
    /\ ((forall p, In p [1703980800000; 1704585600000] ->
                   inPeriod weekly (Task.endDate Samples.taskJan5) p = false)
        -> endIndex = startIndex)
    /\ (0 <= findIndex (inPeriod weekly (Task.startDate Samples.taskJan5))
               [1703980800000; 1704585600000] ->
        startIndex
        = findIndex (inPeriod weekly (Task.startDate Samples.taskJan5))
            [1703980800000; 1704585600000])
    /\ 0 <= startIndex <= endIndex
    /\ endIndex <= total - 1
    /\ 1 <= endIndex - startIndex + 1.
Proof.
  apply (period_index_fallback_C3 weekly _ Samples.taskJan5
           [1703980800000; 1704585600000] 120 1703980800000 1705190399999).
  - left; reflexivity.
  - reflexivity.
  - reflexivity.
  - discriminate.
Defined.

(** C4. A task whose start date and end date are the same day does not
    always get the length of one day: on a timeline of 200 days the editable
    timeline returns a width of 1 percent, which is two days, where the
    read-only timeline returns one column. *)
Theorem one_day_task_gets_two_days_C4 :
  exists td rangeStart rangeEnd position positionR,
    Timeline.timelineData [Samples.taskFirstDay; Samples.taskLastDay] daily
    = Some td
    /\ td_startDate td = Some rangeStart
    /\ td_endDate td = Some rangeEnd
    /\ differenceInDays rangeEnd rangeStart + 1 = 200
    /\ Task.startDate Samples.taskFirstDay = Task.endDate Samples.taskFirstDay
    /\ Timeline.getTaskPosition td daily Samples.taskFirstDay (td_periods td)
       = Some position
    /\ (p_width position == 1)%Q
    /\ (p_width position / 100 * 200 == 2)%Q
    /\ ~ (p_width position / 100 * 200 == 1)%Q
    /\ ReadOnlyTimeline.getTaskPosition td daily Samples.taskFirstDay
         (td_periods td) 100
       = Some positionR
    /\ (p_width positionR == 100)%Q.
Proof.
  do 5 eexists.
  split; [vm_compute; reflexivity |].
  do 2 (split; [reflexivity |]).
  split; [reflexivity |]. split; [reflexivity |].
  split; [vm_compute; reflexivity |].
  split; [reflexivity |]. split; [reflexivity |].
  split; [intros H; vm_compute in H; discriminate H |].
  split; [vm_compute; reflexivity | reflexivity].
Qed.

(** C5. For every integer [x], [setTimelineZoom x] stores a zoom between 50
    and 200 (50 for a smaller [x], 200 for a greater one, [x] itself
    otherwise) and persists it; zooming in at 200 and zooming out at 50 leave
    the zoom as it is, and reset sets it to 100. *)
Theorem zoom_setter_clamps_C5 :
  forall (x : Z) (state : Store.AppState),
    50 <= Store.timelineZoom (Store.setTimelineZoom x state) <= 200
    /\ (x < 50 -> Store.timelineZoom (Store.setTimelineZoom x state) = 50)
    /\ (200 < x -> Store.timelineZoom (Store.setTimelineZoom x state) = 200)
    /\ (50 <= x <= 200 ->
        Store.timelineZoom (Store.setTimelineZoom x state) = x)
    /\ Store.localStorage (Store.setTimelineZoom x state) !! "timelineZoom"
       = Some (Store.JSON_stringify
                 (Store.timelineZoom (Store.setTimelineZoom x state)))
    /\ (Store.timelineZoom state = 200 ->
        Store.timelineZoom (TimelineZoomSlider.handleZoomIn state) = 200)
    /\ (Store.timelineZoom state = 50 ->
        Store.timelineZoom (TimelineZoomSlider.handleZoomOut state) = 50)
    /\ Store.timelineZoom (TimelineZoomSlider.handleReset state) = 100.
Proof.
  intros x state.
  unfold TimelineZoomSlider.handleZoomIn, TimelineZoomSlider.handleZoomOut,
    TimelineZoomSlider.handleReset, Store.setTimelineZoom.
  cbn [Store.timelineZoom Store.localStorage].
  split; [lia |]. split; [lia |]. split; [lia |]. split; [lia |].
  split; [apply lookup_insert_eq |].
  split; [intros ->; reflexivity |].
  split; [intros ->; reflexivity | reflexivity].
Qed.

(** C6. Whatever [JSON.parse] makes of a non-empty stored text is the
    initial zoom, and the initial collapsed flag, as it is: the value is
    neither clamped nor checked to be a number or a boolean. *)
Theorem initial_view_state_not_validated_C6 :
  forall (JSON_parse : string -> option JsValue) (saved : string)
         (v : JsValue) (storage : gmap string string),
    saved <> ""%string ->
    JSON_parse saved = Some v ->
    (storage !! "timelineZoom"%string = Some saved ->
     Store.initializeTimelineZoom JSON_parse storage = v)
    /\ (storage !! "sidebarCollapsed"%string = Some saved ->
        Store.initializeSidebarState JSON_parse storage = v).
Proof.
  intros JSON_parse saved v storage Hne Hparse.
  assert (Hfalsy : String.eqb saved "" = false)
    by (apply String.eqb_neq; exact Hne).
  unfold Store.initializeTimelineZoom, Store.initializeSidebarState,
    Store.readSaved.
  split; intros ->; rewrite Hfalsy, Hparse; reflexivity.
Qed.

(** The stored text ["500"]: the initial zoom is 500, and the same text under
    the other key makes the collapsed flag the number 500. *)
Lemma initial_view_state_not_validated_C6_witness :
  (Store.initializeTimelineZoom Samples.parseDigits
     {[ "timelineZoom"%string := "500"%string ]}
   = JNumber (inject_Z 500)
   /\ ~ isZoomPercent (JNumber (inject_Z 500)))
  /\ (Store.initializeSidebarState Samples.parseDigits
        {[ "sidebarCollapsed"%string := "500"%string ]}
      = JNumber (inject_Z 500)
      /\ ~ isBoolean (JNumber (inject_Z 500))).
Proof.
  split; split.
  - apply (initial_view_state_not_validated_C6 Samples.parseDigits
             "500" (JNumber (inject_Z 500))
             {[ "timelineZoom"%string := "500"%string ]});
      [discriminate | reflexivity | apply lookup_singleton_eq].
  - intros (n & Hn & Hq). unfold Qeq in Hq. cbn in Hq. lia.
  - apply (initial_view_state_not_validated_C6 Samples.parseDigits
             "500" (JNumber (inject_Z 500))
             {[ "sidebarCollapsed"%string := "500"%string ]});
      [discriminate | reflexivity | apply lookup_singleton_eq].
  - intros H. exact H.
Defined.

(** The layout on time values as numbers, without the range of [Date]: it
    returns a model for every task list; the model holds the tasks whose
    start date and end date are both valid, and no other; without a valid
    task it is the empty model, with no period, and the component shows its
    empty state; otherwise the grid has one row with a bar per occurrence of
    a valid task. *)
Lemma layout_on_time_values :
  forall (tasks : list Task) (view : ViewType) (zoom : Z),
    exists td,
      Timeline.timelineData tasks view = Some td
      /\ td_tasks td = List.filter hasValidDates tasks
      /\ (forall t,
             In t (td_tasks td)
             <-> In t tasks
                 /\ isValidDate (Task.startDate t) = true
                 /\ isValidDate (Task.endDate t) = true)
      /\ (List.filter hasValidDates tasks = [] ->
          td = {| td_periods := []; td_tasks := []; td_periodFormat := None;
                  td_startDate := None; td_endDate := None |}
          /\ Timeline.render tasks view zoom = Some EmptyState)
      /\ (List.filter hasValidDates tasks <> [] ->
          view <> kanban ->
          exists rows,
            Timeline.render tasks view zoom
            = Some (Grid (Timeline.getColumnWidth view zoom) rows)
            /\ map fst rows = td_tasks td
            /\ Forall (fun row => is_Some (snd row)) rows
            /\ (forall t,
                   hasValidDates t = true ->
                   count_occ Task_eq_dec (map fst rows) t
                   = count_occ Task_eq_dec tasks t)
            /\ (List.NoDup (map Task.id tasks) ->
                forall t,
                  In t tasks -> hasValidDates t = true ->
                  count_occ Task_eq_dec (map fst rows) t = 1%nat)).
Proof.
  intros tasks view zoom.
  destruct (List.filter hasValidDates tasks) as [| t0 rest] eqn:Hvalid.
  - exists {| td_periods := []; td_tasks := []; td_periodFormat := None;
              td_startDate := None; td_endDate := None |}.
    pose proof (timelineData_empty tasks view Hvalid) as Htd.
    split; [exact Htd |]. split; [reflexivity |]. split; [| split].
    + intros t. cbn [td_tasks]. split; [intros [] |].
      intros (Hin & Hs & He).
      assert (Hf : In t (List.filter hasValidDates tasks))
        by (apply filter_In; split; [exact Hin | now apply hasValidDates_iff]).
      rewrite Hvalid in Hf. destruct Hf.
    + intros _. split; [reflexivity |].
      unfold Timeline.render. rewrite Htd. reflexivity.
    + intros Hne. congruence.
  - assert (Hne : List.filter hasValidDates tasks <> [])
      by (rewrite Hvalid; discriminate).
    destruct (timelineData_nonempty tasks view Hne)
      as (td & minDate & maxDate & Htd & Htasks & _ & _ & Hper & _).
    rewrite Hvalid in Htasks.
    exists td. split; [exact Htd |]. split; [exact Htasks |].
    split; [| split].
    + intros t. rewrite Htasks, <- Hvalid, filter_In, hasValidDates_iff.
      reflexivity.
    + intros E. discriminate E.
    + intros _ Hview. specialize (Hper Hview).
      assert (Hlen : (length (td_periods td) =? 0)%nat = false)
        by (destruct (td_periods td); [congruence | reflexivity]).
      exists (map (fun task =>
                     (task,
                      Timeline.barStyle td (Timeline.getColumnWidth view zoom)
                      <$> Timeline.getTaskPosition td view task
                            (td_periods td)))
                (td_tasks td)).
      split; [| split; [| split; [| split]]].
      * unfold Timeline.render. rewrite Htd. cbn [mbind option_bind].
        rewrite Hlen. reflexivity.
      * rewrite map_map. cbn [fst]. apply map_id.
      * apply List.Forall_forall. intros row Hrow.
        apply in_map_iff in Hrow as (t & <- & Ht). cbn [snd].
        assert (Hv : hasValidDates t = true).
        { rewrite Htasks, <- Hvalid in Ht. now apply filter_In in Ht. }
        destruct (getTaskPosition_valid td view t (td_periods td) Hv)
          as [position ->].
        eexists; reflexivity.
      * intros t Hv. rewrite map_map. cbn [fst]. rewrite map_id, Htasks.
        rewrite <- Hvalid. now apply count_occ_filter_true.
      * intros Hnodup t Hin Hv. rewrite map_map. cbn [fst].
        rewrite map_id, Htasks, <- Hvalid.
        rewrite (count_occ_filter_true hasValidDates tasks t Hv).
        apply NoDup_count_occ'; [| exact Hin].
        now apply NoDup_map_inv in Hnodup.
Qed.

(** C8. A drop on the column a task is shown in does change the task when
    the task is stored without a status: [getTasksByStatus] shows it under
    "todo", and a drop on "todo" sends an update to the task service and
    replaces the task by one with status "todo" and [completed = false]. *)
Theorem drop_on_own_column_changes_task_C8 :
  let state := Samples.sampleState [Samples.taskNoStatus; Samples.taskJan5] in
  let result :=
    KanbanBoard.handleDrop (Some Samples.taskNoStatus) "todo" true state in
  In Samples.taskNoStatus
    (KanbanBoard.getTasksByStatus (Store.tasks state) "todo")
  /\ Task.completed Samples.taskNoStatus = true
  /\ Store.tasks (KanbanBoard.dr_state result)
     = [Samples.mkTask "c" (DateMs 1704067200000) (DateMs 1704240000000)
          false (Some "todo"%string);
        Samples.taskJan5]
  /\ Store.tasks (KanbanBoard.dr_state result) <> Store.tasks state
  /\ KanbanBoard.dr_serviceUpdate result
     = Some ("c"%string, ("todo"%string, false)).
Proof.
  cbv zeta. split; [left; reflexivity |]. split; [reflexivity |].
  split; [reflexivity |]. split; [discriminate | reflexivity].
Qed.

(** C9. [handleDeleteColumn] leaves the columns as they are when it is given
    one of the five default ids, and after every sequence of add, rename and
    delete operations on the initial columns each of the five default ids is
    still the id, and the status, of a column. *)
Theorem default_columns_never_removed_C9 :
  forall (trim : string -> string) (ops : list KanbanBoard.ColumnOp),
    (forall cols,
        List.Forall
          (fun d => KanbanBoard.handleDeleteColumn d cols = cols)
          KanbanBoard.defaultColumnIds)
    /\ List.Forall
         (fun d =>
            exists col,
              In col (KanbanBoard.runOps trim ops)
              /\ KanbanBoard.col_id col = d
              /\ KanbanBoard.col_status col = d)
         KanbanBoard.defaultColumnIds.
Proof.
  intros trim ops. split.
  - intros cols. repeat constructor.
  - apply List.Forall_forall. intros d Hd.
    apply hasDefaultColumns_run; [exact Hd |].
    apply initialColumns_default. exact Hd.
Qed.

(** C10. [updateTask task] keeps the length and the order of the task list,
    puts [task] at the positions whose task has the id of [task] and leaves
    every other position as it was; [deleteTask taskId] keeps, in their
    order, the tasks with another id, each as often as it occurred, and
    removes the tasks with that id; neither touches another field. *)
Theorem updateTask_deleteTask_frame_C10 :
  forall (task : Task) (taskId : string) (state : Store.AppState),
    let before := Store.tasks state in
    let updated := Store.tasks (Store.updateTask task state) in
    let deleted := Store.tasks (Store.deleteTask taskId state) in
    length updated = length before
    /\ (forall i t,
           nth_error before i = Some t ->
           (Task.id t = Task.id task -> nth_error updated i = Some task)
           /\ (Task.id t <> Task.id task -> nth_error updated i = Some t))
    /\ sublist deleted before
    /\ (forall t, In t deleted <-> In t before /\ Task.id t <> taskId)
    /\ (forall t,
           Task.id t <> taskId ->
           count_occ Task_eq_dec deleted t = count_occ Task_eq_dec before t)
    /\ (Store.currentView (Store.updateTask task state),
        Store.isSidebarCollapsed (Store.updateTask task state),
        Store.timelineZoom (Store.updateTask task state),
        Store.localStorage (Store.updateTask task state))
       = (Store.currentView state, Store.isSidebarCollapsed state,
          Store.timelineZoom state, Store.localStorage state)
    /\ (Store.currentView (Store.deleteTask taskId state),
        Store.isSidebarCollapsed (Store.deleteTask taskId state),
        Store.timelineZoom (Store.deleteTask taskId state),
        Store.localStorage (Store.deleteTask taskId state))
       = (Store.currentView state, Store.isSidebarCollapsed state,
          Store.timelineZoom state, Store.localStorage state).
Proof.
  intros task taskId state. cbv zeta.
  unfold Store.updateTask, Store.deleteTask, Store.setTasks.
  cbn [Store.tasks Store.currentView Store.isSidebarCollapsed
         Store.timelineZoom Store.localStorage].
  split; [apply length_map |].
  split.
  { intros i t Hi. rewrite nth_error_map, Hi. cbn [option_map].
    split; intros Hid.
    - apply String.eqb_eq in Hid. now rewrite Hid.
    - apply String.eqb_neq in Hid. now rewrite Hid. }
  split; [apply sublist_List_filter |].
  split.
  { intros t. rewrite filter_In, negb_true_iff, String.eqb_neq. reflexivity. }
  split.
  { intros t Hid. apply count_occ_filter_true.
    now apply negb_true_iff, String.eqb_neq. }
  split; reflexivity.
Qed.

(** * Further properties *)




(** X4. A drop of a task whose stored status is another one than the
    column's, when the task service accepts the update: the service is sent
    the new status and [completed = (status === 'done')], and in the store
    every task with the id of the dragged task is replaced by the dragged
    task with that status and that flag, every other task staying as it was.
    A drop without a dragged task, or on the stored status of the task,
    changes nothing and sends nothing, and a rejected update leaves the
    store as it was. *)
Theorem handleDrop_moves_task :
  forall (dragged : Task) (newStatus : string) (state : Store.AppState),
    let moved :=
      Task.mk (Task.id dragged) (Task.projectId dragged) (Task.title dragged)
        (Task.description dragged) (Task.startDate dragged)
        (Task.endDate dragged) (String.eqb newStatus "done")
        (Task.createdAt dragged) (Task.updatedAt dragged) (Task.notes dragged)
        (Some newStatus) in
    (Task.status dragged <> Some newStatus ->
     KanbanBoard.dr_serviceUpdate
       (KanbanBoard.handleDrop (Some dragged) newStatus true state)
     = Some (Task.id dragged, (newStatus, String.eqb newStatus "done"))
     /\ (forall i t,
            nth_error (Store.tasks state) i = Some t ->
            nth_error
              (Store.tasks
                 (KanbanBoard.dr_state
                    (KanbanBoard.handleDrop (Some dragged) newStatus true
                       state))) i
            = Some (if String.eqb (Task.id t) (Task.id dragged)
                    then moved else t))
     /\ KanbanBoard.dr_state
          (KanbanBoard.handleDrop (Some dragged) newStatus false state)
        = state)
    /\ (Task.status dragged = Some newStatus ->
        forall serviceOk,
          KanbanBoard.handleDrop (Some dragged) newStatus serviceOk state
          = {| KanbanBoard.dr_state := state;
               KanbanBoard.dr_draggedTask := None;
               KanbanBoard.dr_serviceUpdate := None |})
    /\ (forall serviceOk,
           KanbanBoard.handleDrop None newStatus serviceOk state
           = {| KanbanBoard.dr_state := state;
                KanbanBoard.dr_draggedTask := None;
                KanbanBoard.dr_serviceUpdate := None |}).
Proof.
  intros dragged newStatus state moved.
  split; [| split].
  - intros Hst.
    assert (Hguard :
              match Task.status dragged with
              | Some st => String.eqb st newStatus
              | None => false
              end = false).
    { destruct (Task.status dragged) as [st |]; [| reflexivity].
      apply String.eqb_neq. congruence. }
    unfold KanbanBoard.handleDrop. rewrite Hguard.
    cbn [KanbanBoard.dr_serviceUpdate KanbanBoard.dr_state].
    split; [reflexivity |]. split; [| reflexivity].
    intros i t Hi. unfold Store.updateTask, Store.setTasks.
    cbn [Store.tasks Task.id]. rewrite nth_error_map, Hi. reflexivity.
  - intros Hst serviceOk. unfold KanbanBoard.handleDrop.
    rewrite Hst, String.eqb_refl. reflexivity.
  - intros serviceOk. reflexivity.
Qed.

(** X5. Reading the persisted view state raises nothing, and gives the
    defaults, zoom 100 and an expanded sidebar, when the entry is missing,
    empty, or a text [JSON.parse] refuses. *)
Theorem initial_view_state_defaults :
  forall (JSON_parse : string -> option JsValue)
         (storage : gmap string string),
    let unreadable (key : string) :=
      storage !! key = None
      \/ storage !! key = Some ""%string
      \/ exists saved, storage !! key = Some saved
                       /\ JSON_parse saved = None in
    (unreadable "timelineZoom"%string ->
     Store.initializeTimelineZoom JSON_parse storage = JNumber 100)
    /\ (unreadable "sidebarCollapsed"%string ->
        Store.initializeSidebarState JSON_parse storage = JBool false).
Proof.
  intros JSON_parse storage unreadable.
  unfold Store.initializeTimelineZoom, Store.initializeSidebarState,
    Store.readSaved.
  split; (intros [-> | [-> | (saved & -> & Hparse)]];
            [reflexivity | reflexivity |]);
    rewrite Hparse; now destruct (String.eqb saved "").
Qed.

(** * More facts about the layout *)

Lemma maxOf_In (xs : list Z) (x : Z) : In (maxOf x xs) (x :: xs).
Proof.
  unfold maxOf. revert x.
  induction xs as [| b xs IH]; intros x; cbn [fold_left]; [now left |].
  destruct (IH (Z.max x b)) as [H | H].
  - rewrite <- H. destruct (Z.max_spec x b) as [[_ ->] | [_ ->]];
      [right; now left | now left].
  - right; now right.
Qed.

(** The model of a task list with a valid task, with the periods its view
    asks date-fns for. *)
Lemma timelineData_periods (tasks : list Task) (view : ViewType) :
  List.filter hasValidDates tasks <> [] ->
  exists td minDate maxDate,
    Timeline.timelineData tasks view = Some td
    /\ td_tasks td = List.filter hasValidDates tasks
    /\ td_startDate td = Some (rangeStartOf view minDate)
    /\ td_endDate td = Some (rangeEndOf view maxDate)
    /\ periodsOf view minDate maxDate = Some (td_periods td)
    /\ In minDate (flat_map taskTimes (td_tasks td))
    /\ In maxDate (flat_map taskTimes (td_tasks td))
    /\ (forall x, In x (flat_map taskTimes (td_tasks td)) ->
                  minDate <= x <= maxDate).
Proof.
  intros Hne. unfold Timeline.timelineData.
  set (validTasks := List.filter hasValidDates tasks) in *.
  destruct validTasks as [| t0 rest] eqn:Hvalid; [congruence |].
  cbn [length Nat.eqb].
  assert (Ht0 : hasValidDates t0 = true).
  { assert (Hin : In t0 (List.filter hasValidDates tasks))
      by (fold validTasks; rewrite Hvalid; now left).
    now apply filter_In in Hin. }
  destruct (hasValidDates_times t0 Ht0) as (s0 & e0 & _ & _ & Htimes).
  cbn [flat_map]. rewrite Htimes. cbn [app].
  set (ds := e0 :: flat_map taskTimes rest).
  assert (Hlo : forall x, In x (s0 :: ds) -> minOf s0 ds <= x <= maxOf s0 ds)
    by (intros x Hx; split; [now apply minOf_lower | now apply maxOf_upper]).
  pose proof (minOf_In ds s0) as Hmin.
  pose proof (maxOf_In ds s0) as Hmax.
  pose proof (minOf_le_maxOf ds s0) as Hle.
  assert (Hall : flat_map taskTimes (t0 :: rest) = s0 :: ds)
    by (cbn [flat_map]; now rewrite Htimes).
  destruct view; cbn [periodsOf].
  - destruct (eachDayOfInterval_periods _ _ Hle) as (periods & E & Hp).
    rewrite E. eexists _, (minOf s0 ds), (maxOf s0 ds).
    do 4 (split; [reflexivity |]). cbn [td_periods td_tasks]. rewrite Hall.
    repeat split; auto; apply Hlo; assumption.
  - assert (Hw : startOfWeek (minOf s0 ds) <= endOfWeek (maxOf s0 ds)).
    { pose proof (startOfWeek_le (minOf s0 ds)).
      pose proof (endOfWeek_ge (maxOf s0 ds)). lia. }
    destruct (eachWeekOfInterval_periods _ _ Hw) as (periods & E & Hp).
    rewrite E. eexists _, (minOf s0 ds), (maxOf s0 ds).
    do 4 (split; [reflexivity |]). cbn [td_periods td_tasks]. rewrite Hall.
    repeat split; auto; apply Hlo; assumption.
  - assert (Hm : startOfMonth (minOf s0 ds) <= endOfMonth (maxOf s0 ds)).
    { pose proof (startOfMonth_le (minOf s0 ds)).
      pose proof (endOfMonth_ge (maxOf s0 ds)). lia. }
    destruct (eachMonthOfInterval_periods _ _ Hm) as (periods & E & Hp).
    rewrite E. eexists _, (minOf s0 ds), (maxOf s0 ds).
    do 4 (split; [reflexivity |]). cbn [td_periods td_tasks]. rewrite Hall.
    repeat split; auto; apply Hlo; assumption.
  - eexists _, (minOf s0 ds), (maxOf s0 ds).
    do 4 (split; [reflexivity |]). cbn [td_periods td_tasks]. rewrite Hall.
    repeat split; auto; apply Hlo; assumption.
Qed.

(** ** Loops with a constant step *)

Lemma datesUpTo_constant_step (step endTime : Z) :
  forall (n : nat) (date : Z),
    (n = O \/ date + (Z.of_nat n - 1) * step <= endTime) ->
    0 <= step ->
    datesUpTo n (fun d => d) (fun d => d + step) date endTime
    = map (fun k => date + Z.of_nat k * step) (seq 0 n).
Proof.
  induction n as [| n IH]; intros date Hn Hstep; [reflexivity |].
  cbn [datesUpTo seq map].
  destruct Hn as [Hn | Hn]; [discriminate |].
  destruct (Z.leb_spec date endTime) as [_ | Hgt]; [| nia].
  f_equal; [lia |].
  rewrite IH; [| destruct n; [now left | right; nia] | exact Hstep].
  rewrite <- seq_shift, map_map. apply map_ext. intros k. lia.
Qed.

Lemma loopFuel_last (date endTime step : Z) :
  0 < step ->
  loopFuel date endTime step = O
  \/ date + (Z.of_nat (loopFuel date endTime step) - 1) * step <= endTime.
Proof.
  intros Hstep. unfold loopFuel.
  destruct (Z.le_gt_cases date endTime) as [Hle | Hgt].
  - right. rewrite Z2Nat.id by (Z.to_euclidean_division_equations; nia).
    Z.to_euclidean_division_equations; nia.
  - left. assert ((endTime - date) / step + 1 <= 0)
      by (Z.to_euclidean_division_equations; nia).
    lia.
Qed.

(** The days of an interval: the days from the day of [start] to the day of
    [end_], one period each, at their local midnight. *)
Lemma eachDayOfInterval_days (start end_ : Z) :
  start <= end_ ->
  eachDayOfInterval start end_
  = Some (map (fun k => (dayNumber start + Z.of_nat k) * MS_PER_DAY)
            (seq 0 (Z.to_nat (dayNumber end_ - dayNumber start + 1)))).
Proof.
  intros Hle. unfold eachDayOfInterval.
  destruct (Z.leb_spec start end_); [| lia]. f_equal.
  rewrite datesUpTo_constant_step;
    [| apply loopFuel_last; reflexivity | unfold MS_PER_DAY; lia].
  assert (Hn : loopFuel (startOfDay start) end_ MS_PER_DAY
               = Z.to_nat (dayNumber end_ - dayNumber start + 1)).
  { unfold loopFuel, startOfDay, dayNumber, MS_PER_DAY. f_equal.
    Z.to_euclidean_division_equations; lia. }
  rewrite Hn. apply map_ext. intros k. unfold startOfDay. lia.
Qed.

Lemma differenceInDays_vs_days (minDate maxDate : Z) :
  minDate <= maxDate ->
  let totalDays := differenceInDays maxDate minDate + 1 in
  let columns := dayNumber maxDate - dayNumber minDate + 1 in
  totalDays <= columns <= totalDays + 1
  /\ (columns = totalDays
      <-> minDate mod MS_PER_DAY <= maxDate mod MS_PER_DAY).
Proof.
  intros Hle. cbv zeta. rewrite differenceInDays_div by exact Hle.
  unfold dayNumber, MS_PER_DAY.
  Z.to_euclidean_division_equations; lia.
Qed.

(** ** Weeks *)

Lemma startOfWeek_weekNumber (t : Z) :
  startOfWeek t = (7 * weekNumber t - 4) * MS_PER_DAY.
Proof.
  unfold startOfWeek, getDay, weekNumber. f_equal.
  Z.to_euclidean_division_equations; lia.
Qed.

Lemma weekNumber_week (w t : Z) :
  (7 * w - 4) * MS_PER_DAY <= t <= (7 * w - 4) * MS_PER_DAY + 7 * MS_PER_DAY - 1
  <-> weekNumber t = w.
Proof.
  unfold weekNumber, dayNumber, MS_PER_DAY.
  Z.to_euclidean_division_equations; lia.
Qed.

Lemma weekNumber_mono (a b : Z) : a <= b -> weekNumber a <= weekNumber b.
Proof.
  unfold weekNumber, dayNumber, MS_PER_DAY. intros H.
  Z.to_euclidean_division_equations; lia.
Qed.

Lemma weekNumber_startOfWeek (t : Z) : weekNumber (startOfWeek t) = weekNumber t.
Proof.
  apply weekNumber_week. rewrite startOfWeek_weekNumber. unfold MS_PER_DAY. lia.
Qed.

Lemma weekNumber_endOfWeek (t : Z) : weekNumber (endOfWeek t) = weekNumber t.
Proof.
  apply weekNumber_week. unfold endOfWeek. rewrite startOfWeek_weekNumber.
  unfold MS_PER_DAY. lia.
Qed.

(** The weeks of an interval: the weeks from the week of [start] to the week
    of [end_], one period each, at their Sunday midnight. *)
Lemma eachWeekOfInterval_weeks (start end_ : Z) :
  start <= end_ ->
  eachWeekOfInterval start end_
  = Some (map (fun k => (7 * (weekNumber start + Z.of_nat k) - 4) * MS_PER_DAY)
            (seq 0 (Z.to_nat (weekNumber end_ - weekNumber start + 1)))).
Proof.
  intros Hle. unfold eachWeekOfInterval.
  destruct (Z.leb_spec start end_); [| lia]. f_equal.
  rewrite datesUpTo_constant_step;
    [| apply loopFuel_last; reflexivity | unfold MS_PER_DAY; lia].
  assert (Hn : loopFuel (startOfWeek start) (startOfWeek end_)
                 (7 * MS_PER_DAY)
               = Z.to_nat (weekNumber end_ - weekNumber start + 1)).
  { unfold loopFuel. rewrite !startOfWeek_weekNumber. f_equal.
    unfold MS_PER_DAY. Z.to_euclidean_division_equations; lia. }
  rewrite Hn. apply map_ext. intros k. rewrite startOfWeek_weekNumber.
  unfold MS_PER_DAY. lia.
Qed.

(** ** [findIndex] on a list given by its index *)

Lemma findIndexFrom_first {A : Type} (p : A -> bool) (l : list A) :
  forall (i : nat) (x : A) (from : Z),
    nth_error l i = Some x ->
    p x = true ->
    (forall k y, (k < i)%nat -> nth_error l k = Some y -> p y = false) ->
    findIndexFrom p l from = from + Z.of_nat i.
Proof.
  induction l as [| a l IH]; intros i x from Hi Hp Hbefore.
  - destruct i; discriminate.
  - cbn [findIndexFrom]. destruct i as [| i].
    + injection Hi as ->. rewrite Hp. lia.
    + rewrite (Hbefore 0%nat a) by (lia || reflexivity).
      rewrite (IH i x (from + 1) Hi Hp); [lia |].
      intros k y Hk Hy. apply (Hbefore (S k) y); [lia | exact Hy].
Qed.

Lemma findIndex_map_seq (p : Z -> bool) (f : nat -> Z) (n i : nat) :
  (i < n)%nat ->
  p (f i) = true ->
  (forall k, (k < i)%nat -> p (f k) = false) ->
  findIndex p (map f (seq 0 n)) = Z.of_nat i.
Proof.
  intros Hi Hp Hbefore. unfold findIndex.
  rewrite (findIndexFrom_first p _ i (f i) 0); [lia | | exact Hp |].
  - rewrite nth_error_map, nth_error_seq.
    destruct (Nat.ltb_spec i n); [reflexivity | lia].
  - intros k y Hk Hy. rewrite nth_error_map, nth_error_seq in Hy.
    destruct (Nat.ltb_spec k n); [| discriminate].
    injection Hy as <-. now apply Hbefore.
Qed.

(** The position of both components in weekly and monthly view, from the
    indices [findIndex] returns when it finds the two periods. *)
Lemma period_position_found (view : ViewType) (td : TimelineData)
    (task : Task) (periods : list Z) (columnWidth rangeStart rangeEnd : Z)
    (a b : Z) :
  view = weekly \/ view = monthly ->
  td_startDate td = Some rangeStart ->
  td_endDate td = Some rangeEnd ->
  findIndex (inPeriod view (Task.startDate task)) periods = a ->
  findIndex (inPeriod view (Task.endDate task)) periods = b ->
  0 <= a < Z.of_nat (length periods) ->
  0 <= b < Z.of_nat (length periods) ->
  let total := Z.of_nat (length periods) in
  Timeline.getTaskPosition td view task periods
  = Some {| p_left := (Zq a / Zq total * 100)%Q;
            p_width := (Zq (Z.max b a - a + 1) / Zq total * 100)%Q |}
  /\ ReadOnlyTimeline.getTaskPosition td view task periods columnWidth
     = Some {| p_left := Zq (a * columnWidth);
               p_width := Zq ((Z.max b a - a + 1) * columnWidth) |}.
Proof.
  intros Hview Hs He Ha Hb Hra Hrb total.
  assert (Hlen : (length periods =? 0)%nat = false)
    by (destruct periods; [cbn [length] in Hra; lia | reflexivity]).
  assert (Estart : Z.max 0 (if 0 <=? a then a else 0) = a)
    by (destruct (Z.leb_spec 0 a); lia).
  assert (Eend :
            Z.min (total - 1) (Z.max (if 0 <=? b then b else a) a)
            = Z.max b a)
    by (subst total; destruct (Z.leb_spec 0 b); lia).
  unfold Timeline.getTaskPosition, ReadOnlyTimeline.getTaskPosition.
  rewrite Hs, He, Hlen.
  destruct Hview as [-> | ->]; unfold inPeriod, periodEnd in Ha, Hb;
    cbv zeta; rewrite Ha, Hb; fold total; rewrite Estart, Eend;
    split; reflexivity.
Qed.

(** ** Months *)

Lemma dayOfJanuary1_succ (y : Z) :
  dayOfJanuary1 (y + 1) = dayOfJanuary1 y + daysInYear y.
Proof.
  unfold dayOfJanuary1, leapYearsBefore, daysInYear, isLeapYear.
  replace (y + 1 - 1) with y by lia.
  destruct (Z.eqb_spec (y mod 4) 0), (Z.eqb_spec (y mod 100) 0),
    (Z.eqb_spec (y mod 400) 0); cbn [andb orb negb];
    Z.to_euclidean_division_equations; lia.
Qed.

Lemma normYear_day (fuel : nat) :
  forall y r,
    let '(y', r') := normYear fuel y r in
    dayOfJanuary1 y' + r' = dayOfJanuary1 y + r.
Proof.
  induction fuel as [| fuel IH]; intros y r; [reflexivity |].
  cbn [normYear].
  destruct (r <? 0).
  - specialize (IH (y - 1) (r + daysInYear (y - 1))).
    destruct (normYear fuel (y - 1) (r + daysInYear (y - 1))) as [y' r'].
    pose proof (dayOfJanuary1_succ (y - 1)) as E.
    replace (y - 1 + 1) with y in E by lia. lia.
  - destruct (daysInYear y <=? r); [| reflexivity].
    specialize (IH (y + 1) (r - daysInYear y)).
    destruct (normYear fuel (y + 1) (r - daysInYear y)) as [y' r'].
    pose proof (dayOfJanuary1_succ y). lia.
Qed.

Lemma daysBeforeMonth_succ (y m : Z) :
  0 <= m <= 10 ->
  daysBeforeMonth y (m + 1) = daysBeforeMonth y m + daysInMonth y m.
Proof.
  intros Hm.
  assert (Hcases : m = 0 \/ m = 1 \/ m = 2 \/ m = 3 \/ m = 4 \/ m = 5
                   \/ m = 6 \/ m = 7 \/ m = 8 \/ m = 9 \/ m = 10) by lia.
  unfold daysBeforeMonth, daysInMonth.
  destruct Hcases as [-> | [-> | [-> | [-> | [-> | [-> | [-> | [-> | [->
                       | [-> | ->]]]]]]]]]];
    cbn [Z.add Pos.add Pos.succ Z.eqb Pos.eqb orb];
    destruct (isLeapYear y); reflexivity.
Qed.

Lemma daysBeforeMonth_december (y : Z) :
  daysBeforeMonth y 11 + daysInMonth y 11 = daysInYear y.
Proof.
  unfold daysBeforeMonth, daysInMonth, daysInYear. cbn [Z.eqb Pos.eqb orb].
  destruct (isLeapYear y); reflexivity.
Qed.

Lemma normMonth_day (y : Z) (fuel : nat) :
  forall m r,
    0 <= m -> m + Z.of_nat fuel <= 11 ->
    let '(m', r') := normMonth fuel y m r in
    daysBeforeMonth y m' + r' = daysBeforeMonth y m + r /\ 0 <= m' <= 11.
Proof.
  induction fuel as [| fuel IH]; intros m r Hm Hf; [cbn; lia |].
  cbn [normMonth].
  destruct (daysInMonth y m <=? r); [| lia].
  specialize (IH (m + 1) (r - daysInMonth y m)).
  destruct (normMonth fuel y (m + 1) (r - daysInMonth y m)) as [m' r'].
  rewrite daysBeforeMonth_succ in IH by lia.
  destruct IH as [IH1 IH2]; lia.
Qed.

(** What [civil] returns names the day it is given. *)
Lemma civil_day (d : Z) :
  let '(y, m, dom) := civil d in
  0 <= m <= 11
  /\ 0 <= dom < daysInMonth y m
  /\ dayOfJanuary1 y + daysBeforeMonth y m + dom = d.
Proof.
  pose proof (civil_spec d) as Hspec. unfold civil in *.
  pose proof (normYear_day (yearFuel d) 1970 d) as HY.
  destruct (normYear (yearFuel d) 1970 d) as [y r].
  pose proof (normMonth_day y 11 0 r) as HM.
  destruct (normMonth 11 y 0 r) as [m dom].
  destruct HM as [HM1 HM2]; [lia | lia |].
  change (dayOfJanuary1 1970) with 0 in HY.
  change (daysBeforeMonth y 0) with 0 in HM1. lia.
Qed.

Lemma monthStart_succ (k : Z) :
  monthStart (k + 1)
  = monthStart k + daysInMonth (k / 12) (k mod 12) * MS_PER_DAY.
Proof.
  unfold monthStart.
  destruct (Z.eq_dec (k mod 12) 11) as [E | E].
  - assert (E1 : (k + 1) / 12 = k / 12 + 1)
      by (Z.to_euclidean_division_equations; lia).
    assert (E2 : (k + 1) mod 12 = 0)
      by (Z.to_euclidean_division_equations; lia).
    rewrite E1, E2, E, dayOfJanuary1_succ.
    pose proof (daysBeforeMonth_december (k / 12)).
    change (daysBeforeMonth (k / 12 + 1) 0) with 0. lia.
  - assert (E1 : (k + 1) / 12 = k / 12)
      by (Z.to_euclidean_division_equations; lia).
    assert (E2 : (k + 1) mod 12 = k mod 12 + 1)
      by (Z.to_euclidean_division_equations; lia).
    rewrite E1, E2, daysBeforeMonth_succ
      by (Z.to_euclidean_division_equations; lia).
    lia.
Qed.

Lemma monthStart_grows (k : Z) (n : nat) :
  monthStart k + 28 * MS_PER_DAY * Z.of_nat n <= monthStart (k + Z.of_nat n).
Proof.
  induction n as [| n IH].
  - change (Z.of_nat 0) with 0. replace (k + 0) with k by lia.
    rewrite Z.mul_0_r. lia.
  - replace (k + Z.of_nat (S n)) with (k + Z.of_nat n + 1) by lia.
    rewrite monthStart_succ.
    pose proof (daysInMonth_bounds ((k + Z.of_nat n) / 12)
                  ((k + Z.of_nat n) mod 12)).
    pose proof MS_PER_DAY_pos. nia.
Qed.

Lemma monthStart_mono (a b : Z) : a <= b -> monthStart a <= monthStart b.
Proof.
  intros H. pose proof (monthStart_grows a (Z.to_nat (b - a))) as G.
  rewrite Z2Nat.id in G by lia. replace (a + (b - a)) with b in G by lia.
  pose proof MS_PER_DAY_pos. nia.
Qed.

Lemma monthStart_lt (a b : Z) : a < b -> monthStart a < monthStart b.
Proof.
  intros H. pose proof (monthStart_grows a (Z.to_nat (b - a))) as G.
  rewrite Z2Nat.id in G by lia. replace (a + (b - a)) with b in G by lia.
  pose proof MS_PER_DAY_pos. nia.
Qed.

(** An instant lies in the month of its number. *)
Lemma monthNumber_spec (t : Z) :
  monthStart (monthNumber t) <= t < monthStart (monthNumber t + 1)
  /\ startOfMonth t = monthStart (monthNumber t)
  /\ endOfMonth t = monthStart (monthNumber t + 1) - 1
  /\ civil (dayNumber t)
     = (monthNumber t / 12, monthNumber t mod 12,
        dayNumber t - monthStart (monthNumber t) / MS_PER_DAY).
Proof.
  rewrite monthStart_succ.
  unfold monthNumber, startOfMonth, endOfMonth, monthStart.
  pose proof (civil_day (dayNumber t)) as H.
  destruct (civil (dayNumber t)) as [[y m] dom].
  destruct H as (Hm & Hdom & Hd).
  assert (E1 : (12 * y + m) / 12 = y)
    by (Z.to_euclidean_division_equations; lia).
  assert (E2 : (12 * y + m) mod 12 = m)
    by (Z.to_euclidean_division_equations; lia).
  rewrite E1, E2.
  pose proof (dayNumber_bounds t). pose proof MS_PER_DAY_pos.
  split; [nia |]. split; [f_equal; lia |]. split; [nia |].
  rewrite Z.div_mul by (unfold MS_PER_DAY; lia).
  do 2 f_equal. lia.
Qed.

Lemma monthNumber_month (k t : Z) :
  monthStart k <= t < monthStart (k + 1) <-> monthNumber t = k.
Proof.
  pose proof (monthNumber_spec t) as (Ht & _).
  split.
  - intros Hk.
    destruct (Z.lt_trichotomy (monthNumber t) k) as [Hlt | [E | Hgt]];
      [| exact E |].
    + pose proof (monthStart_mono (monthNumber t + 1) k). lia.
    + pose proof (monthStart_mono (k + 1) (monthNumber t)). lia.
  - intros <-. exact Ht.
Qed.

Lemma monthNumber_mono (a b : Z) : a <= b -> monthNumber a <= monthNumber b.
Proof.
  intros H. pose proof (monthNumber_spec a) as (Ha & _).
  pose proof (monthNumber_spec b) as (Hb & _).
  destruct (Z.le_gt_cases (monthNumber a) (monthNumber b)) as [L | G];
    [exact L |].
  pose proof (monthStart_mono (monthNumber b + 1) (monthNumber a)). lia.
Qed.

Lemma monthNumber_monthStart (k : Z) : monthNumber (monthStart k) = k.
Proof.
  apply monthNumber_month. pose proof (monthStart_lt k (k + 1)). lia.
Qed.

Lemma monthNumber_startOfMonth (t : Z) :
  monthNumber (startOfMonth t) = monthNumber t.
Proof.
  pose proof (monthNumber_spec t) as (_ & -> & _).
  apply monthNumber_monthStart.
Qed.

Lemma monthNumber_endOfMonth (t : Z) :
  monthNumber (endOfMonth t) = monthNumber t.
Proof.
  pose proof (monthNumber_spec t) as (_ & _ & -> & _).
  apply monthNumber_month.
  pose proof (monthStart_lt (monthNumber t) (monthNumber t + 1)). lia.
Qed.

(** The loop state of [eachMonthOfInterval] at the month of number [k]. *)
Lemma nextMonth_monthStart (k : Z) :
  nextMonth (k / 12, k mod 12, monthStart k)
  = ((k + 1) / 12, (k + 1) mod 12, monthStart (k + 1)).
Proof.
  cbn [nextMonth]. rewrite monthStart_succ.
  destruct (Z.eqb_spec (k mod 12) 11) as [E | E];
    do 2 (f_equal; try reflexivity);
    Z.to_euclidean_division_equations; lia.
Qed.

Lemma datesUpTo_months (endTime : Z) :
  forall (n fuel : nat) (k : Z),
    (n <= fuel)%nat ->
    (forall i, (i < n)%nat -> monthStart (k + Z.of_nat i) <= endTime) ->
    endTime < monthStart (k + Z.of_nat n) ->
    datesUpTo fuel (fun s => snd s) nextMonth
      (k / 12, k mod 12, monthStart k) endTime
    = map (fun i => monthStart (k + Z.of_nat i)) (seq 0 n).
Proof.
  induction n as [| n IH]; intros fuel k Hfuel Hin Hout.
  - cbn [seq map]. destruct fuel as [| fuel]; [reflexivity |].
    cbn [datesUpTo snd]. change (Z.of_nat 0) with 0 in Hout.
    replace (k + 0) with k in Hout by lia.
    destruct (Z.leb_spec (monthStart k) endTime); [lia | reflexivity].
  - destruct fuel as [| fuel]; [lia |].
    cbn [datesUpTo snd seq map].
    pose proof (Hin 0%nat ltac:(lia)) as H0. change (Z.of_nat 0) with 0 in *.
    replace (k + 0) with k in * by lia.
    destruct (Z.leb_spec (monthStart k) endTime); [| lia].
    f_equal. rewrite nextMonth_monthStart, (IH fuel (k + 1)).
    + rewrite <- seq_shift, map_map. apply map_ext. intros i.
      f_equal. lia.
    + lia.
    + intros i Hi. replace (k + 1 + Z.of_nat i) with (k + Z.of_nat (S i))
        by lia. apply Hin. lia.
    + replace (k + 1 + Z.of_nat n) with (k + Z.of_nat (S n)) by lia.
      exact Hout.
Qed.

(** The months of an interval: the months from the month of [start] to the
    month of [end_], one period each, at the first instant of the month. *)
Lemma eachMonthOfInterval_months (start end_ : Z) :
  start <= end_ ->
  eachMonthOfInterval start end_
  = Some (map (fun i => monthStart (monthNumber start + Z.of_nat i))
            (seq 0 (Z.to_nat (monthNumber end_ - monthNumber start + 1)))).
Proof.
  intros Hle. unfold eachMonthOfInterval.
  destruct (Z.leb_spec start end_); [| lia].
  pose proof (monthNumber_spec start) as (Hs & Hsm & _ & Hc).
  pose proof (monthNumber_spec end_) as (He & _).
  pose proof (monthNumber_mono _ _ Hle) as Hmono.
  rewrite Hc, Hsm. f_equal.
  set (k := monthNumber start) in *. set (ke := monthNumber end_) in *.
  apply datesUpTo_months.
  - unfold loopFuel.
    pose proof (monthStart_grows k (Z.to_nat (ke - k))) as G.
    rewrite Z2Nat.id in G by lia. replace (k + (ke - k)) with ke in G by lia.
    assert (ke - k <= (end_ - monthStart k) / (28 * MS_PER_DAY)).
    { apply Z.div_le_lower_bound; [reflexivity | lia]. }
    lia.
  - intros i Hi. pose proof (monthStart_mono (k + Z.of_nat i) ke). lia.
  - rewrite Z2Nat.id by lia. replace (k + (ke - k + 1)) with (ke + 1) by lia.
    lia.
Qed.

Lemma inPeriod_weekStart (t w : Z) :
  inPeriod weekly (DateMs t) ((7 * w - 4) * MS_PER_DAY)
  = (weekNumber t =? w).
Proof.
  unfold inPeriod, periodEnd, dateGe, dateLe, endOfWeek.
  rewrite startOfWeek_weekNumber.
  assert (Ek : weekNumber ((7 * w - 4) * MS_PER_DAY) = w)
    by (apply weekNumber_week; unfold MS_PER_DAY; lia).
  rewrite Ek. pose proof (weekNumber_week w t) as Hwk.
  destruct (Z.eqb_spec (weekNumber t) w) as [E | E].
  - apply proj2 in Hwk. specialize (Hwk E).
    apply andb_true_iff. split; apply Z.leb_le; lia.
  - apply andb_false_iff.
    destruct (Z.leb_spec ((7 * w - 4) * MS_PER_DAY) t) as [Hl | Hl];
      [| now left].
    right. apply Z.leb_gt.
    destruct (Z.le_gt_cases t
                ((7 * w - 4) * MS_PER_DAY + 7 * MS_PER_DAY - 1))
      as [Hr | Hr]; [| exact Hr].
    exfalso. apply E, Hwk. lia.
Qed.

Lemma inPeriod_monthStart (t k : Z) :
  inPeriod monthly (DateMs t) (monthStart k) = (monthNumber t =? k).
Proof.
  unfold inPeriod, periodEnd, dateGe, dateLe.
  pose proof (monthNumber_spec (monthStart k)) as (_ & _ & -> & _).
  rewrite monthNumber_monthStart.
  pose proof (monthNumber_month k t) as Hk.
  destruct (Z.eqb_spec (monthNumber t) k) as [E | E].
  - apply proj2 in Hk. specialize (Hk E).
    apply andb_true_iff. split; apply Z.leb_le; lia.
  - apply andb_false_iff.
    destruct (Z.leb_spec (monthStart k) t) as [Hl | Hl]; [| now left].
    right. apply Z.leb_gt.
    destruct (Z.le_gt_cases t (monthStart (k + 1) - 1)) as [Hr | Hr];
      [| exact Hr].
    exfalso. apply E, Hk. lia.
Qed.

(** In weekly and monthly view a position is a run of whole periods inside
    the grid, whatever [findIndex] returned. *)
Lemma period_position_bounds (view : ViewType) (td : TimelineData)
    (task : Task) (periods : list Z) (columnWidth rangeStart rangeEnd : Z) :
  view = weekly \/ view = monthly ->
  td_startDate td = Some rangeStart ->
  td_endDate td = Some rangeEnd ->
  periods <> [] ->
  exists start count : Z,
    let total := Z.of_nat (length periods) in
    0 <= start /\ 1 <= count /\ start + count <= total
    /\ Timeline.getTaskPosition td view task periods
       = Some {| p_left := (Zq start / Zq total * 100)%Q;
                 p_width := (Zq count / Zq total * 100)%Q |}
    /\ ReadOnlyTimeline.getTaskPosition td view task periods columnWidth
       = Some {| p_left := Zq (start * columnWidth);
                 p_width := Zq (count * columnWidth) |}.
Proof.
  intros Hview Hs He Hne.
  assert (Hlen : (length periods =? 0)%nat = false)
    by (destruct periods; [congruence | reflexivity]).
  assert (Hpos : 0 < Z.of_nat (length periods))
    by (destruct periods; [congruence | cbn [length]; lia]).
  unfold Timeline.getTaskPosition, ReadOnlyTimeline.getTaskPosition.
  rewrite Hs, He, Hlen.
  destruct Hview as [-> | ->]; cbv zeta;
    refine (ex_intro _ _ (ex_intro _ _
              (conj _ (conj _ (conj _ (conj eq_refl eq_refl))))));
    match goal with
    | |- context [Z.max 0 (if 0 <=? findIndex ?p periods then _ else _)] =>
        pose proof (findIndex_range p periods) as Hr;
        set (a := findIndex p periods) in *
    end;
    try match goal with
    | |- context [findIndex ?q periods] => set (b := findIndex q periods)
    end;
    destruct (Z.leb_spec 0 a); try destruct (Z.leb_spec 0 b); lia.
Qed.

Lemma Zq_le (a b : Z) : a <= b -> (Zq a <= Zq b)%Q.
Proof. intros H. unfold Zq. now rewrite <- Zle_Qle. Qed.

(** A property of the integers from 50 to 200, checked on each of them. *)
Lemma zoom_range_cases (P : Z -> bool) :
  forallb (fun k => P (50 + Z.of_nat k)) (seq 0 151) = true ->
  forall n, 50 <= n <= 200 -> P n = true.
Proof.
  intros H n Hn. rewrite List.forallb_forall in H.
  replace n with (50 + Z.of_nat (Z.to_nat (n - 50))) by lia.
  apply H, in_seq. lia.
Qed.

Lemma JSON_stringify_zoom_nonempty (n : Z) :
  50 <= n <= 200 -> String.eqb (Store.JSON_stringify n) "" = false.
Proof.
  intros Hn. apply negb_true_iff.
  apply (zoom_range_cases
           (fun n => negb (String.eqb (Store.JSON_stringify n) ""))).
  - vm_compute. reflexivity.
  - exact Hn.
Qed.

Lemma parseJson_zoom (n : Z) :
  50 <= n <= 200 ->
  SampleHost.parseJson (Store.JSON_stringify n) = Some (JNumber (inject_Z n)).
Proof.
  intros Hn.
  pose proof
    (zoom_range_cases
       (fun n =>
          match SampleHost.parseJson (Store.JSON_stringify n) with
          | Some (JNumber (a # b)) => (a =? n) && (b =? 1)%positive
          | _ => false
          end)) as H.
  specialize (H ltac:(vm_compute; reflexivity) n Hn). cbv beta in H.
  destruct (SampleHost.parseJson (Store.JSON_stringify n))
    as [[| | [a b] | | |] |]; try discriminate H.
  apply andb_true_iff in H as [Ha Hb].
  apply Z.eqb_eq in Ha. apply Pos.eqb_eq in Hb. now subst.
Qed.

(** ** Tasks and columns of the board *)

Lemma custom_id_not_default (suffix d : string) :
  In d KanbanBoard.defaultColumnIds -> ("custom-" +:+ suffix)%string <> d.
Proof.
  intros Hd E. cbn in Hd.
  destruct Hd as [<- | [<- | [<- | [<- | [<- | []]]]]]; discriminate E.
Qed.

Lemma includes_default (d : string) :
  KanbanBoard.includes KanbanBoard.defaultColumnIds d = true
  <-> In d KanbanBoard.defaultColumnIds.
Proof.
  unfold KanbanBoard.includes. rewrite existsb_exists. split.
  - intros (x & Hx & E). apply String.eqb_eq in E. now subst.
  - intros H. exists d. split; [exact H | apply String.eqb_refl].
Qed.

Lemma filter_keeps_all {A : Type} (f : A -> bool) (l : list A) :
  (forall x, In x l -> f x = true) -> List.filter f l = l.
Proof.
  induction l as [| a l IH]; intros H; [reflexivity |].
  cbn [List.filter]. rewrite (H a (or_introl eq_refl)).
  f_equal. apply IH. intros x Hx. apply H. now right.
Qed.

Lemma hasOwnColumn_step (trim : string -> string)
    (cols : list KanbanBoard.KanbanColumn) (op : KanbanBoard.ColumnOp)
    (d : string) :
  In d KanbanBoard.defaultColumnIds ->
  hasOwnColumn d cols ->
  hasOwnColumn d (KanbanBoard.applyOp trim cols op).
Proof.
  intros Hd [Hone Hid]. unfold hasOwnColumn, columnsOfStatus in *.
  destruct op as [title n1 n2 | cid t | cid]; cbn [KanbanBoard.applyOp].
  - unfold KanbanBoard.handleAddColumn.
    destruct (String.eqb (trim title) ""); [now split |].
    split.
    + rewrite List.filter_app, List.length_app, Hone. cbn [List.filter].
      cbn [KanbanBoard.col_status].
      destruct (String.eqb_spec ("custom-" +:+ pretty n2) d) as [E | E];
        [now apply custom_id_not_default in E | reflexivity].
    + intros col Hin Hst. apply in_app_or in Hin as [Hin | [<- | []]];
        [now apply Hid |].
      cbn [KanbanBoard.col_status] in Hst.
      now apply custom_id_not_default in Hst.
  - unfold KanbanBoard.handleEditColumn. split.
    + rewrite <- Hone. clear. induction cols as [| c cols IH];
        [reflexivity |].
      cbn [map List.filter].
      destruct (String.eqb (KanbanBoard.col_id c) cid);
        cbn [KanbanBoard.col_status];
        destruct (String.eqb (KanbanBoard.col_status c) d);
        cbn [length]; now rewrite IH.
    + intros col Hin Hst. apply in_map_iff in Hin as (c & Hc & Hin).
      destruct (String.eqb (KanbanBoard.col_id c) cid); subst col;
        cbn [KanbanBoard.col_status KanbanBoard.col_id] in *;
        now apply Hid.
  - unfold KanbanBoard.handleDeleteColumn.
    destruct (KanbanBoard.includes KanbanBoard.defaultColumnIds cid) eqn:E;
      [now split |].
    assert (Hcid : cid <> d).
    { intros ->. apply includes_default in Hd. congruence. }
    split.
    + rewrite <- Hone. clear Hone. induction cols as [| c cols IH];
        [reflexivity |].
      cbn [List.filter].
      assert (IH' : length
                      (List.filter
                         (fun column =>
                            String.eqb (KanbanBoard.col_status column) d)
                         (List.filter
                            (fun col =>
                               negb (String.eqb (KanbanBoard.col_id col) cid))
                            cols))
                    = length
                        (List.filter
                           (fun column =>
                              String.eqb (KanbanBoard.col_status column) d)
                           cols)).
      { apply IH. intros col Hin. apply Hid. now right. }
      destruct (String.eqb_spec (KanbanBoard.col_status c) d) as [Est | Est].
      * assert (Ec : KanbanBoard.col_id c = d)
          by (apply Hid; [now left | exact Est]).
        assert (Ekeep : String.eqb (KanbanBoard.col_id c) cid = false)
          by (apply String.eqb_neq; congruence).
        rewrite Ekeep. cbn [negb List.filter].
        apply String.eqb_eq in Est. rewrite Est. cbn [length].
        now rewrite IH'.
      * destruct (String.eqb (KanbanBoard.col_id c) cid); cbn [negb];
          [exact IH' |].
        cbn [List.filter]. apply String.eqb_neq in Est. rewrite Est.
        exact IH'.
    + intros col Hin Hst. apply filter_In in Hin as [Hin _]. now apply Hid.
Qed.

Lemma hasOwnColumn_run (trim : string -> string)
    (ops : list KanbanBoard.ColumnOp) (d : string) :
  In d KanbanBoard.defaultColumnIds ->
  forall cols,
    hasOwnColumn d cols ->
    hasOwnColumn d (fold_left (KanbanBoard.applyOp trim) ops cols).
Proof.
  intros Hd. induction ops as [| op ops IH]; intros cols H; [exact H |].
  cbn [fold_left]. apply IH. now apply hasOwnColumn_step.
Qed.

Lemma hasOwnColumn_initial (d : string) :
  In d KanbanBoard.defaultColumnIds ->
  hasOwnColumn d KanbanBoard.initialColumns.
Proof.
  intros Hd. cbn in Hd.
  destruct Hd as [<- | [<- | [<- | [<- | [<- | []]]]]];
    (split; [reflexivity |]);
    intros col Hin Hst; cbn in Hin;
    destruct Hin as [<- | [<- | [<- | [<- | [<- | []]]]]];
    cbn in Hst |- *; congruence.
Qed.

Lemma count_occ_getTasksByStatus (tasks : list Task) (status : string)
    (task : Task) :
  count_occ Task_eq_dec (KanbanBoard.getTasksByStatus tasks status) task
  = if String.eqb (KanbanBoard.statusOrTodo task) status
    then count_occ Task_eq_dec tasks task else 0%nat.
Proof.
  unfold KanbanBoard.getTasksByStatus.
  destruct (String.eqb (KanbanBoard.statusOrTodo task) status) eqn:E.
  - now apply count_occ_filter_true.
  - apply count_occ_not_In. intros Hin. apply filter_In in Hin as [_ Hin].
    congruence.
Qed.

Lemma count_occ_columnCards (tasks : list Task)
    (cols : list KanbanBoard.KanbanColumn) (task : Task) :
  count_occ Task_eq_dec (flat_map snd (KanbanTasks.columnCards tasks cols))
    task
  = (length (columnsOfStatus (KanbanBoard.statusOrTodo task) cols)
     * count_occ Task_eq_dec tasks task)%nat.
Proof.
  unfold KanbanTasks.columnCards, columnsOfStatus.
  induction cols as [| c cols IH]; [reflexivity |].
  cbn [map flat_map snd List.filter].
  rewrite count_occ_app, IH, count_occ_getTasksByStatus.
  rewrite (String.eqb_sym (KanbanBoard.col_status c)).
  destruct (String.eqb (KanbanBoard.statusOrTodo task)
              (KanbanBoard.col_status c)); cbn [length]; lia.
Qed.

Lemma flagMatchesStatus_set (task : Task) (newStatus : string) :
  flagMatchesStatus
    (Task.mk (Task.id task) (Task.projectId task) (Task.title task)
       (Task.description task) (Task.startDate task) (Task.endDate task)
       (String.eqb newStatus "done")
       (Task.createdAt task) (Task.updatedAt task) (Task.notes task)
       (Some newStatus)) = true.
Proof.
  unfold flagMatchesStatus, KanbanBoard.statusOrTodo.
  cbn [Task.completed Task.status].
  destruct (String.eqb_spec newStatus "") as [-> | _];
    [reflexivity | apply eqb_reflx].
Qed.

Lemma updateTask_Forall (P : Task -> Prop) (task : Task)
    (state : Store.AppState) :
  P task ->
  Forall P (Store.tasks state) ->
  Forall P (Store.tasks (Store.updateTask task state)).
Proof.
  intros Ht H. cbn [Store.updateTask Store.setTasks Store.tasks].
  induction H as [| t l Hp _ IH]; cbn [map]; constructor; [| exact IH].
  now destruct (String.eqb (Task.id t) (Task.id task)).
Qed.

Lemma applyTaskAction_flags (trim : string -> string)
    (state : Store.AppState) (action : TaskAction) :
  Forall (fun t => flagMatchesStatus t = true) (Store.tasks state) ->
  Forall (fun t => flagMatchesStatus t = true)
    (Store.tasks (applyTaskAction trim state action)).
Proof.
  intros H.
  destruct action as [[dragged |] newStatus ok | task ok
                     | status titles project n1 n2 n3 n4 created
                     | task confirmed ok]; cbn [applyTaskAction].
  - unfold KanbanBoard.handleDrop.
    destruct (match Task.status dragged with
              | Some st => String.eqb st newStatus
              | None => false
              end); [exact H |].
    cbn [KanbanBoard.dr_state]. destruct ok; [| exact H].
    apply updateTask_Forall; [apply flagMatchesStatus_set | exact H].
  - exact H.
  - unfold TimelineHandlers.handleToggleComplete.
    cbn [TimelineHandlers.tr_state]. destruct ok; [| exact H].
    apply updateTask_Forall; [| exact H].
    unfold flagMatchesStatus, KanbanBoard.statusOrTodo.
    cbn [Task.completed Task.status].
    now destruct (Task.completed task).
  - unfold KanbanTasks.handleQuickAddTask.
    destruct (trim <$> titles !! status) as [title |]; [| exact H].
    destruct project as [project |]; [| exact H].
    destruct (String.eqb title ""); [exact H |].
    destruct created as [taskId |]; [| exact H].
    cbn [KanbanTasks.qa_state Store.addTask Store.setTasks Store.tasks].
    apply Forall_app. split; [exact H |]. constructor; [| constructor].
    unfold flagMatchesStatus, KanbanBoard.statusOrTodo.
    cbn [Task.completed Task.status].
    destruct (String.eqb_spec status "") as [-> | _];
      [reflexivity | apply eqb_reflx].
  - unfold TimelineHandlers.handleDeleteTask.
    destruct confirmed; [| exact H]. destruct ok; [| exact H].
    cbn [Store.deleteTask Store.setTasks Store.tasks].
    apply List.Forall_forall. intros t Ht. apply filter_In in Ht as [Ht _].
    revert t Ht. now apply List.Forall_forall.
Qed.

(** * Further properties of the layout *)



(** X6. In daily view the clamps of [getTaskPosition] on the days of a task
    never act on a task of the list with valid dates: its start day is the
    count of full days from the least date to its start date, its end day
    the count of full days to its end date, and start day and duration stay
    within the days of the timeline.  Both components work from these two
    integers: the editable timeline returns them as shares of the total days
    in percent, the read-only timeline as multiples of the column width. *)
Theorem daily_positions_share_days :
  forall (tasks : list Task) (task : Task) (columnWidth : Z),
    In task tasks ->
    hasValidDates task = true ->
    exists td minDate maxDate taskStart taskEnd,
      Timeline.timelineData tasks daily = Some td
      /\ ReadOnlyTimeline.timelineData tasks daily = Some td
      /\ td_startDate td = Some minDate
      /\ td_endDate td = Some maxDate
      /\ Task.startDate task = DateMs taskStart
      /\ Task.endDate task = DateMs taskEnd
      /\ let totalDays := differenceInDays maxDate minDate + 1 in
         let startDays := differenceInDays taskStart minDate in
         let endDays := differenceInDays taskEnd minDate in
         let duration := Z.max 1 (endDays - startDays + 1) in
         Z.max 0 startDays = startDays
         /\ Z.min (totalDays - 1) endDays = endDays
         /\ startDays + duration <= totalDays
         /\ Timeline.getTaskPosition td daily task (td_periods td)
            = Some {| p_left := Qmax 0 (Zq startDays / Zq totalDays * 100);
                      p_width := Qmax 1 (Zq duration / Zq totalDays * 100) |}
         /\ ReadOnlyTimeline.getTaskPosition td daily task (td_periods td)
              columnWidth
            = Some {| p_left := Qmax 0 (Zq (startDays * columnWidth));
                      p_width :=
                        Qmax (Zq columnWidth) (Zq (duration * columnWidth)) |}.
Proof.
  intros tasks task cw Hin Hvalid.
  assert (Hf : In task (List.filter hasValidDates tasks))
    by (apply filter_In; now split).
  assert (Hne : List.filter hasValidDates tasks <> [])
    by (intros E; rewrite E in Hf; destruct Hf).
  destruct (timelineData_nonempty tasks daily Hne)
    as (td & minDate & maxDate & Htd & Htasks & Hs & He & Hp & _ & _ & Hb).
  cbn [rangeStartOf rangeEndOf] in Hs, He.
  specialize (Hp ltac:(discriminate)).
  destruct (hasValidDates_times task Hvalid) as (s & e & Hts & Hte & Htimes).
  rewrite <- Htasks in Hf.
  assert (Hsr : minDate <= s <= maxDate).
  { apply Hb, (taskTimes_in_allDates _ task); [exact Hf |].
    rewrite Htimes. now left. }
  assert (Her : minDate <= e <= maxDate).
  { apply Hb, (taskTimes_in_allDates _ task); [exact Hf |].
    rewrite Htimes. right; now left. }
  assert (Hlen : (length (td_periods td) =? 0)%nat = false)
    by (destruct (td_periods td); [congruence | reflexivity]).
  pose proof (differenceInDays_nonneg s minDate (proj1 Hsr)) as Hds.
  pose proof (differenceInDays_le s maxDate minDate (proj2 Hsr)) as Hds2.
  pose proof (differenceInDays_le e maxDate minDate (proj2 Her)) as Hde2.
  exists td, minDate, maxDate, s, e.
  split; [exact Htd |]. split; [rewrite timelineData_same; exact Htd |].
  split; [exact Hs |]. split; [exact He |].
  split; [exact Hts |]. split; [exact Hte |]. cbv zeta.
  assert (E0 : Z.max 0 (differenceInDays s minDate)
               = differenceInDays s minDate) by lia.
  assert (E1 : Z.min (differenceInDays maxDate minDate + 1 - 1)
                 (differenceInDays e minDate)
               = differenceInDays e minDate) by lia.
  split; [exact E0 |]. split; [exact E1 |]. split; [lia |].
  unfold Timeline.getTaskPosition, ReadOnlyTimeline.getTaskPosition.
  rewrite Hs, He, Hlen, Hts, Hte. cbv zeta. rewrite E0, E1.
  split; reflexivity.
Qed.

Lemma daily_positions_share_days_witness :
  exists td minDate maxDate taskStart taskEnd,
    Timeline.timelineData [Samples.taskQuickAdd; Samples.taskMidnight] daily
    = Some td
    /\ ReadOnlyTimeline.timelineData
         [Samples.taskQuickAdd; Samples.taskMidnight] daily = Some td
    /\ td_startDate td = Some minDate
    /\ td_endDate td = Some maxDate
    /\ Task.startDate Samples.taskMidnight = DateMs taskStart
    /\ Task.endDate Samples.taskMidnight = DateMs taskEnd
    /\ let totalDays := differenceInDays maxDate minDate + 1 in
       let startDays := differenceInDays taskStart minDate in
       let endDays := differenceInDays taskEnd minDate in
       let duration := Z.max 1 (endDays - startDays + 1) in
       Z.max 0 startDays = startDays
       /\ Z.min (totalDays - 1) endDays = endDays
       /\ startDays + duration <= totalDays
       /\ Timeline.getTaskPosition td daily Samples.taskMidnight
            (td_periods td)
          = Some {| p_left := Qmax 0 (Zq startDays / Zq totalDays * 100);
                    p_width := Qmax 1 (Zq duration / Zq totalDays * 100) |}
       /\ ReadOnlyTimeline.getTaskPosition td daily Samples.taskMidnight
            (td_periods td) 100
          = Some {| p_left := Qmax 0 (Zq (startDays * 100));
                    p_width := Qmax (Zq 100) (Zq (duration * 100)) |}.
Proof.
  apply (daily_positions_share_days
           [Samples.taskQuickAdd; Samples.taskMidnight] Samples.taskMidnight
           100).
  - right; left; reflexivity.
  - reflexivity.
Defined.

(** X7. In daily view the grid has one column for each calendar day from the
    day of the least date to the day of the greatest date, at its local
    midnight; that is the count of days [getTaskPosition] divides by, or one
    more, and it is that count exactly when the time of day of the least
    date is not after the time of day of the greatest. *)
Theorem daily_columns_are_calendar_days :
  forall (tasks : list Task) (task : Task),
    In task tasks ->
    hasValidDates task = true ->
    exists td minDate maxDate,
      Timeline.timelineData tasks daily = Some td
      /\ td_startDate td = Some minDate
      /\ td_endDate td = Some maxDate
      /\ In minDate (flat_map taskTimes (td_tasks td))
      /\ In maxDate (flat_map taskTimes (td_tasks td))
      /\ (forall x, In x (flat_map taskTimes (td_tasks td)) ->
                    minDate <= x <= maxDate)
      /\ td_periods td
         = map (fun k => (dayNumber minDate + Z.of_nat k) * MS_PER_DAY)
             (seq 0 (Z.to_nat (dayNumber maxDate - dayNumber minDate + 1)))
      /\ let columns := Z.of_nat (length (td_periods td)) in
         let totalDays := differenceInDays maxDate minDate + 1 in
         columns = dayNumber maxDate - dayNumber minDate + 1
         /\ totalDays <= columns <= totalDays + 1
         /\ (columns = totalDays
             <-> minDate mod MS_PER_DAY <= maxDate mod MS_PER_DAY).
Proof.
  intros tasks task Hin Hvalid.
  assert (Hne : List.filter hasValidDates tasks <> []).
  { intros E. assert (Hf : In task (List.filter hasValidDates tasks))
      by (apply filter_In; now split).
    rewrite E in Hf. destruct Hf. }
  destruct (timelineData_periods tasks daily Hne)
    as (td & minDate & maxDate & Htd & _ & Hs & He & Hp & Hmin & Hmax & Hb).
  cbn [rangeStartOf rangeEndOf periodsOf] in Hs, He, Hp.
  assert (Hle : minDate <= maxDate) by apply (Hb minDate Hmin).
  rewrite (eachDayOfInterval_days _ _ Hle) in Hp. injection Hp as Hp.
  exists td, minDate, maxDate.
  do 3 (split; [assumption |]).
  split; [exact Hmin |]. split; [exact Hmax |]. split; [exact Hb |].
  split; [now symmetry |].
  cbv zeta. rewrite <- Hp, length_map, length_seq.
  assert (Hd : dayNumber minDate <= dayNumber maxDate)
    by (unfold dayNumber; apply Z.div_le_mono; [reflexivity | exact Hle]).
  rewrite Z2Nat.id by lia.
  split; [reflexivity |]. apply differenceInDays_vs_days. exact Hle.
Qed.

Lemma daily_columns_are_calendar_days_witness :
  exists td minDate maxDate,
    Timeline.timelineData [Samples.taskQuickAdd; Samples.taskMidnight] daily
    = Some td
    /\ td_startDate td = Some minDate
    /\ td_endDate td = Some maxDate
    /\ In minDate (flat_map taskTimes (td_tasks td))
    /\ In maxDate (flat_map taskTimes (td_tasks td))
    /\ (forall x, In x (flat_map taskTimes (td_tasks td)) ->
                  minDate <= x <= maxDate)
    /\ td_periods td
       = map (fun k => (dayNumber minDate + Z.of_nat k) * MS_PER_DAY)
           (seq 0 (Z.to_nat (dayNumber maxDate - dayNumber minDate + 1)))
    /\ let columns := Z.of_nat (length (td_periods td)) in
       let totalDays := differenceInDays maxDate minDate + 1 in
       columns = dayNumber maxDate - dayNumber minDate + 1
       /\ totalDays <= columns <= totalDays + 1
       /\ (columns = totalDays
           <-> minDate mod MS_PER_DAY <= maxDate mod MS_PER_DAY).
Proof.
  apply (daily_columns_are_calendar_days
           [Samples.taskQuickAdd; Samples.taskMidnight] Samples.taskQuickAdd).
  - left; reflexivity.
  - reflexivity.
Defined.







(** * Further properties of the store and of the handlers *)

(** X11. The view state survives a reload: what [setTimelineZoom] saves
    reads back, through [initializeTimelineZoom], as the zoom it put in the
    store, and what [setSidebarCollapsed] saves reads back as the flag it put
    in the store, for a [JSON.parse] that reads [JSON.stringify] of an integer
    from 50 to 200 and the texts [true] and [false] back; neither setter
    changes what the other initializer reads. *)
Theorem view_state_round_trip :
  forall (JSON_parse : string -> option JsValue) (zoom : Z)
         (collapsed : bool) (state : Store.AppState),
    (forall n, 50 <= n <= 200 ->
               JSON_parse (Store.JSON_stringify n)
               = Some (JNumber (inject_Z n))) ->
    JSON_parse "true" = Some (JBool true) ->
    JSON_parse "false" = Some (JBool false) ->
    let zoomed := Store.setTimelineZoom zoom state in
    let folded := Store.setSidebarCollapsed collapsed state in
    Store.initializeTimelineZoom JSON_parse (Store.localStorage zoomed)
    = JNumber (inject_Z (Store.timelineZoom zoomed))
    /\ Store.initializeSidebarState JSON_parse (Store.localStorage zoomed)
       = Store.initializeSidebarState JSON_parse (Store.localStorage state)
    /\ Store.initializeSidebarState JSON_parse (Store.localStorage folded)
       = JBool (Store.isSidebarCollapsed folded)
    /\ Store.initializeTimelineZoom JSON_parse (Store.localStorage folded)
       = Store.initializeTimelineZoom JSON_parse (Store.localStorage state)
    /\ Store.initializeSidebarState JSON_parse
         (Store.localStorage (Dashboard.toggleSidebar state))
       = JBool (negb (Store.isSidebarCollapsed state)).
Proof.
  intros JSON_parse zoom collapsed state Hnum Htrue Hfalse zoomed folded.
  assert (Hrange : 50 <= Z.max 50 (Z.min 200 zoom) <= 200) by lia.
  assert (Hflag : forall (b : bool) (storage : gmap string string),
            Store.initializeSidebarState JSON_parse
              (<["sidebarCollapsed" := if b then "true" else "false"]>
                 storage)%string
            = JBool b).
  { intros b storage. unfold Store.initializeSidebarState, Store.readSaved.
    rewrite lookup_insert_eq. destruct b; cbn [String.eqb].
    - change (String.eqb "true" "") with false. cbv iota. now rewrite Htrue.
    - change (String.eqb "false" "") with false. cbv iota. now rewrite Hfalse. }
  subst zoomed folded.
  unfold Dashboard.toggleSidebar, Store.setTimelineZoom,
    Store.setSidebarCollapsed.
  cbn [Store.localStorage Store.timelineZoom Store.isSidebarCollapsed].
  split.
  { unfold Store.initializeTimelineZoom, Store.readSaved.
    rewrite lookup_insert_eq, (JSON_stringify_zoom_nonempty _ Hrange).
    now rewrite (Hnum _ Hrange). }
  split.
  { unfold Store.initializeSidebarState, Store.readSaved.
    now rewrite lookup_insert_ne by discriminate. }
  split; [apply Hflag |].
  split; [| apply Hflag].
  unfold Store.initializeTimelineZoom, Store.readSaved.
  now rewrite lookup_insert_ne by discriminate.
Qed.

Lemma view_state_round_trip_witness :
  let state := Samples.sampleState [] in
  let zoomed := Store.setTimelineZoom 175 state in
  let folded := Store.setSidebarCollapsed true state in
  Store.initializeTimelineZoom SampleHost.parseJson
    (Store.localStorage zoomed)
  = JNumber (inject_Z (Store.timelineZoom zoomed))
  /\ Store.initializeSidebarState SampleHost.parseJson
       (Store.localStorage zoomed)
     = Store.initializeSidebarState SampleHost.parseJson
         (Store.localStorage state)
  /\ Store.initializeSidebarState SampleHost.parseJson
       (Store.localStorage folded)
     = JBool (Store.isSidebarCollapsed folded)
  /\ Store.initializeTimelineZoom SampleHost.parseJson
       (Store.localStorage folded)
     = Store.initializeTimelineZoom SampleHost.parseJson
         (Store.localStorage state)
  /\ Store.initializeSidebarState SampleHost.parseJson
       (Store.localStorage (Dashboard.toggleSidebar state))
     = JBool (negb (Store.isSidebarCollapsed state)).
Proof.
  apply (view_state_round_trip SampleHost.parseJson 175 true
           (Samples.sampleState [])).
  - exact parseJson_zoom.
  - reflexivity.
  - reflexivity.
Defined.

(** X12. From a zoom between 50 and 200 the buttons of the slider move in
    steps of 25 up to the bounds: [n] clicks on zoom-in give
    [min(200, zoom + 25 n)], [n] clicks on zoom-out [max(50, zoom - 25 n)];
    a zoom-in is undone by a zoom-out unless it hit the upper bound, and the
    other way round; and a multiple of 25 stays one. *)
Theorem zoom_buttons_step_by_25 :
  forall (state : Store.AppState) (n : nat),
    50 <= Store.timelineZoom state <= 200 ->
    let zoom := Store.timelineZoom state in
    Store.timelineZoom (Nat.iter n TimelineZoomSlider.handleZoomIn state)
    = Z.min 200 (zoom + 25 * Z.of_nat n)
    /\ Store.timelineZoom (Nat.iter n TimelineZoomSlider.handleZoomOut state)
       = Z.max 50 (zoom - 25 * Z.of_nat n)
    /\ (zoom <= 175 ->
        Store.timelineZoom
          (TimelineZoomSlider.handleZoomOut
             (TimelineZoomSlider.handleZoomIn state)) = zoom)
    /\ (75 <= zoom ->
        Store.timelineZoom
          (TimelineZoomSlider.handleZoomIn
             (TimelineZoomSlider.handleZoomOut state)) = zoom)
    /\ ((25 | zoom) ->
        (25 | Store.timelineZoom (TimelineZoomSlider.handleZoomIn state))
        /\ (25 | Store.timelineZoom (TimelineZoomSlider.handleZoomOut state))).
Proof.
  intros state n Hz zoom.
  split; [| split].
  - induction n as [| n IH].
    + cbn [Nat.iter nat_rect]. subst zoom. lia.
    + rewrite Nat.iter_succ. unfold TimelineZoomSlider.handleZoomIn at 1.
      unfold Store.setTimelineZoom. cbn [Store.timelineZoom].
      rewrite IH. lia.
  - induction n as [| n IH].
    + cbn [Nat.iter nat_rect]. subst zoom. lia.
    + rewrite Nat.iter_succ. unfold TimelineZoomSlider.handleZoomOut at 1.
      unfold Store.setTimelineZoom. cbn [Store.timelineZoom].
      rewrite IH. lia.
  - unfold TimelineZoomSlider.handleZoomIn, TimelineZoomSlider.handleZoomOut,
      Store.setTimelineZoom.
    cbn [Store.timelineZoom]. fold zoom.
    split; [lia |]. split; [lia |].
    intros [k Hk]. split.
    + destruct (Z_le_gt_dec zoom 175).
      * exists (k + 1). lia.
      * exists 8. lia.
    + destruct (Z_le_gt_dec 75 zoom).
      * exists (k - 1). lia.
      * exists 2. lia.
Qed.

Lemma zoom_buttons_step_by_25_witness :
  let state := Samples.sampleState [] in
  let zoom := Store.timelineZoom state in
  Store.timelineZoom (Nat.iter 3 TimelineZoomSlider.handleZoomIn state)
  = Z.min 200 (zoom + 25 * Z.of_nat 3)
  /\ Store.timelineZoom (Nat.iter 3 TimelineZoomSlider.handleZoomOut state)
     = Z.max 50 (zoom - 25 * Z.of_nat 3)
  /\ (zoom <= 175 ->
      Store.timelineZoom
        (TimelineZoomSlider.handleZoomOut
           (TimelineZoomSlider.handleZoomIn state)) = zoom)
  /\ (75 <= zoom ->
      Store.timelineZoom
        (TimelineZoomSlider.handleZoomIn
           (TimelineZoomSlider.handleZoomOut state)) = zoom)
  /\ ((25 | zoom) ->
      (25 | Store.timelineZoom (TimelineZoomSlider.handleZoomIn state))
      /\ (25 | Store.timelineZoom (TimelineZoomSlider.handleZoomOut state))).
Proof.
  apply (zoom_buttons_step_by_25 (Samples.sampleState []) 3).
  cbn. lia.
Defined.

(** X13. The project actions of the store keep the selection consistent:
    when the selected project is one of the listed projects and its id is
    the saved one, that is still so after a project is added, after a
    project is updated (the selected project is replaced along with the
    listed one) and after a project is deleted (the selection is dropped with
    the project); selecting a listed project establishes it. *)
Theorem selected_project_stays_listed :
  forall (state : ProjectStore.ProjectState) (project : Project)
         (projectId : string),
    selectionListed state ->
    selectionListed (ProjectStore.addProject project state)
    /\ selectionListed (ProjectStore.updateProject project state)
    /\ selectionListed (ProjectStore.deleteProject projectId state)
    /\ (In project (ProjectStore.projects state) ->
        selectionListed
          (ProjectStore.setSelectedProject (Some project) state))
    /\ selectionListed (ProjectStore.setSelectedProject None state).
Proof.
  intros state project projectId Hinv.
  unfold selectionListed in *.
  unfold ProjectStore.addProject, ProjectStore.setProjects,
    ProjectStore.updateProject, ProjectStore.deleteProject,
    ProjectStore.setSelectedProject, ProjectStore.selectedHasId.
  cbn [ProjectStore.projects ProjectStore.selectedProject
         ProjectStore.localStorage].
  destruct (ProjectStore.selectedProject state) as [selected |].
  - destruct Hinv as [Hin Hsaved].
    split; [split; [apply in_or_app; now left | exact Hsaved] |].
    split.
    { destruct (String.eqb_spec (Project.id selected) (Project.id project))
        as [E | E].
      - split; [| now rewrite <- E].
        apply in_map_iff. exists selected. split; [| exact Hin].
        apply String.eqb_eq in E. now rewrite E.
      - split; [| exact Hsaved].
        apply in_map_iff. exists selected. split; [| exact Hin].
        apply String.eqb_neq in E. now rewrite E. }
    split.
    { destruct (String.eqb_spec (Project.id selected) projectId) as [E | E];
        [exact I |].
      split; [| exact Hsaved].
      apply filter_In. split; [exact Hin |].
      apply negb_true_iff, String.eqb_neq. exact E. }
    split; [| exact I].
    intros Hp. split; [exact Hp | apply lookup_insert_eq].
  - split; [exact I |]. split; [exact I |]. split; [exact I |].
    split; [| exact I].
    intros Hp. split; [exact Hp | apply lookup_insert_eq].
Qed.

Lemma selected_project_stays_listed_witness :
  let project := SampleHost.sampleProject "p1" in
  let state :=
    ProjectStore.setSelectedProject (Some project)
      (ProjectStore.addProject project SampleHost.emptyProjects) in
  selectionListed
    (ProjectStore.addProject (SampleHost.sampleProject "p2") state)
  /\ selectionListed
       (ProjectStore.updateProject (SampleHost.sampleProject "p2") state)
  /\ selectionListed (ProjectStore.deleteProject "p1" state)
  /\ (In (SampleHost.sampleProject "p2") (ProjectStore.projects state) ->
      selectionListed
        (ProjectStore.setSelectedProject
           (Some (SampleHost.sampleProject "p2")) state))
  /\ selectionListed (ProjectStore.setSelectedProject None state).
Proof.
  apply (selected_project_stays_listed
           (ProjectStore.setSelectedProject
              (Some (SampleHost.sampleProject "p1"))
              (ProjectStore.addProject (SampleHost.sampleProject "p1")
                 SampleHost.emptyProjects))
           (SampleHost.sampleProject "p2") "p1").
  split; [left; reflexivity | reflexivity].
Defined.

(** X14. When the projects of the user arrive, the page stores them and
    restores the selection from the saved id: a saved id that is the id of
    an arriving project selects the first such project and stays saved; a
    saved id that no arriving project has is removed from [localStorage],
    the selection staying as it was; without a saved id, with an empty saved
    id or with no project at all, the selection and [localStorage] stay as
    they were. *)
Theorem saved_project_restored_on_load :
  forall (userProjects : list Project) (state : ProjectStore.ProjectState),
    let restored := Dashboard.onUserProjects userProjects state in
    let saved := ProjectStore.localStorage state !! "selectedProjectId" in
    ProjectStore.projects restored = userProjects
    /\ (forall savedProjectId project,
           saved = Some savedProjectId ->
           savedProjectId <> ""%string ->
           In project userProjects ->
           Project.id project = savedProjectId ->
           exists found,
             ProjectStore.selectedProject restored = Some found
             /\ In found userProjects
             /\ Project.id found = savedProjectId
             /\ ((forall other,
                     In other userProjects ->
                     Project.id other = savedProjectId -> other = project) ->
                 found = project)
             /\ ProjectStore.localStorage restored
                = ProjectStore.localStorage state)
    /\ (forall savedProjectId,
           saved = Some savedProjectId ->
           savedProjectId <> ""%string ->
           userProjects <> [] ->
           (forall project,
               In project userProjects ->
               Project.id project <> savedProjectId) ->
           ProjectStore.selectedProject restored
           = ProjectStore.selectedProject state
           /\ ProjectStore.localStorage restored
              = delete "selectedProjectId" (ProjectStore.localStorage state))
    /\ (saved = None \/ saved = Some ""%string \/ userProjects = [] ->
        ProjectStore.selectedProject restored
        = ProjectStore.selectedProject state
        /\ ProjectStore.localStorage restored
           = ProjectStore.localStorage state).
Proof.
  intros userProjects state restored saved.
  subst restored saved. unfold Dashboard.onUserProjects.
  cbn [ProjectStore.setProjects ProjectStore.localStorage
         ProjectStore.projects ProjectStore.selectedProject].
  destruct (ProjectStore.localStorage state !! "selectedProjectId")
    as [savedProjectId |] eqn:Hsaved.
  2:{ split; [reflexivity |]. split; [discriminate |].
      split; [discriminate |]. intros _. now split. }
  destruct (String.eqb_spec savedProjectId "") as [-> | Hne];
    cbn [negb andb].
  { split; [reflexivity |].
    split; [intros ? ? [= <-] H; now contradiction H |].
    split; [intros ? [= <-] H; now contradiction H |].
    intros _. now split. }
  destruct userProjects as [| first rest].
  { split; [reflexivity |].
    split; [intros ? ? _ _ []|].
    split; [intros ? _ _ H; now contradiction H |].
    intros _. now split. }
  change (0 <? length (first :: rest))%nat with true. cbv iota.
  destruct (List.find
              (fun p => String.eqb (Project.id p) savedProjectId)
              (first :: rest)) as [found |] eqn:Hfind.
  - apply find_some in Hfind as [Hin Hid]. apply String.eqb_eq in Hid.
    split; [reflexivity |].
    split.
    { intros ? project [= <-] _ Hp Hpid. exists found.
      cbn [ProjectStore.setSelectedProject ProjectStore.selectedProject
             ProjectStore.localStorage].
      split; [reflexivity |]. split; [exact Hin |]. split; [exact Hid |].
      split; [intros Huniq; now apply Huniq |].
      rewrite Hid. apply insert_id. exact Hsaved. }
    split.
    { intros ? [= <-] _ _ Hnone. now contradiction (Hnone found Hin). }
    intros [H | [H | H]]; [discriminate H | | discriminate H].
    injection H as H. now contradiction Hne.
  - split; [reflexivity |].
    split.
    { intros ? project [= <-] _ Hp Hpid.
      pose proof (find_none _ _ Hfind project Hp) as Hno. cbv beta in Hno.
      apply String.eqb_neq in Hno. now contradiction Hno. }
    split; [intros ? [= <-] _ _ _; now split |].
    intros [H | [H | H]]; [discriminate H | | discriminate H].
    injection H as H. now contradiction Hne.
Qed.

(** X15. Deleting the selected project drops the selection but leaves its
    id saved in [localStorage]: [deleteProject] does not touch the saved id.
    The next arrival of the remaining projects removes it, unless no project
    remains or the id is the empty string. *)
Theorem deleted_selection_leaves_saved_id :
  forall (state : ProjectStore.ProjectState) (project : Project),
    let deleted :=
      ProjectStore.deleteProject (Project.id project)
        (ProjectStore.setSelectedProject (Some project) state) in
    let reloaded :=
      Dashboard.onUserProjects (ProjectStore.projects deleted) deleted in
    ProjectStore.selectedProject deleted = None
    /\ ProjectStore.localStorage deleted !! "selectedProjectId"
       = Some (Project.id project)
    /\ (forall other,
           In other (ProjectStore.projects deleted) ->
           Project.id other <> Project.id project)
    /\ ProjectStore.selectedProject reloaded = None
    /\ ProjectStore.localStorage reloaded !! "selectedProjectId"
       = if String.eqb (Project.id project) ""
            || (length (ProjectStore.projects deleted) =? 0)%nat
         then Some (Project.id project) else None.
Proof.
  intros state project deleted reloaded.
  assert (Hsel : ProjectStore.selectedProject deleted = None).
  { subst deleted. unfold ProjectStore.deleteProject,
      ProjectStore.selectedHasId.
    cbn [ProjectStore.setSelectedProject ProjectStore.selectedProject].
    now rewrite String.eqb_refl. }
  assert (Hsaved : ProjectStore.localStorage deleted !! "selectedProjectId"
                   = Some (Project.id project))
    by apply lookup_insert_eq.
  assert (Hothers : forall other,
             In other (ProjectStore.projects deleted) ->
             Project.id other <> Project.id project).
  { intros other Hin. subst deleted.
    cbn [ProjectStore.deleteProject ProjectStore.projects] in Hin.
    apply filter_In in Hin as [_ Hin].
    now apply negb_true_iff, String.eqb_neq in Hin. }
  split; [exact Hsel |]. split; [exact Hsaved |]. split; [exact Hothers |].
  subst reloaded. unfold Dashboard.onUserProjects.
  cbn [ProjectStore.setProjects ProjectStore.localStorage
         ProjectStore.projects ProjectStore.selectedProject].
  rewrite Hsaved, Hsel.
  destruct (String.eqb_spec (Project.id project) "") as [E | E];
    cbn [negb andb orb]; [now split |].
  destruct (ProjectStore.projects deleted) as [| first rest] eqn:Hps;
    [now split |].
  change (0 <? length (first :: rest))%nat with true.
  change (length (first :: rest) =? 0)%nat with false. cbv iota.
  destruct (List.find
              (fun p => String.eqb (Project.id p) (Project.id project))
              (first :: rest)) as [found |] eqn:Hfind.
  - apply find_some in Hfind as [Hin Hid]. apply String.eqb_eq in Hid.
    now contradiction (Hothers found Hin).
  - cbn [ProjectStore.selectedProject ProjectStore.localStorage].
    split; [reflexivity | apply lookup_delete_eq].
Qed.

(** X16. A click on the completion mark of a task negates its flag and sets
    its status to "done" or "todo" after the new flag, in the store and, with
    the same two values, at the task service; a rejected call leaves the
    store as it was.  A second click restores the flag, and restores the task
    only when its status was the one its flag stands for: every other status
    is lost. *)
Theorem toggle_complete_twice :
  forall (task : Task) (state : Store.AppState),
    exists once twice : Task,
      let first := TimelineHandlers.handleToggleComplete task true state in
      let second :=
        TimelineHandlers.handleToggleComplete once true
          (TimelineHandlers.tr_state first) in
      TimelineHandlers.tr_state first = Store.updateTask once state
      /\ TimelineHandlers.tr_state second
         = Store.updateTask twice (Store.updateTask once state)
      /\ Task.completed once = negb (Task.completed task)
      /\ Task.status once
         = Some (if Task.completed task then "todo" else "done")%string
      /\ TimelineHandlers.tr_serviceUpdate first
         = (Task.id task,
            ((if Task.completed task then "todo" else "done")%string,
             negb (Task.completed task)))
      /\ Task.id once = Task.id task
      /\ (Task.startDate once, Task.endDate once)
         = (Task.startDate task, Task.endDate task)
      /\ Task.completed twice = Task.completed task
      /\ Task.status twice
         = Some (if Task.completed task then "done" else "todo")%string
      /\ (twice = task
          <-> Task.status task
              = Some (if Task.completed task then "done" else "todo")%string)
      /\ TimelineHandlers.tr_state
           (TimelineHandlers.handleToggleComplete task false state)
         = state.
Proof.
  intros [id projectId title description startDate endDate completed
            createdAt updatedAt notes status] state.
  eexists _, _. cbv zeta.
  unfold TimelineHandlers.handleToggleComplete,
    TaskService.toggleTaskCompletion.
  cbn [TimelineHandlers.tr_state TimelineHandlers.tr_serviceUpdate
         Task.id Task.projectId Task.title Task.description Task.startDate
         Task.endDate Task.completed Task.createdAt Task.updatedAt Task.notes
         Task.status].
  split; [reflexivity |]. split; [reflexivity |].
  cbn [Task.id Task.startDate Task.endDate Task.completed Task.status].
  split; [reflexivity |].
  split; [now destruct completed |].
  split; [now destruct completed |].
  split; [reflexivity |]. split; [reflexivity |].
  split; [apply negb_involutive |].
  split; [now destruct completed |].
  split; [| reflexivity].
  rewrite negb_involutive. split.
  - intros E. injection E as E. now rewrite <- E.
  - intros ->. reflexivity.
Qed.

(** X17. The drop on a column, the completion mark, the quick add and the
    deletion keep the flag of every task in step with its status: when
    [completed] holds of exactly the tasks of status "done" before a
    sequence of these actions, whatever the task service answers, it does so
    after it, and the column "done" of the board shows exactly the completed
    tasks. *)
Theorem done_column_is_completed_tasks :
  forall (trim : string -> string) (actions : list TaskAction)
         (state : Store.AppState),
    Forall (fun t => flagMatchesStatus t = true) (Store.tasks state) ->
    let after := runTaskActions trim actions state in
    Forall (fun t => flagMatchesStatus t = true) (Store.tasks after)
    /\ KanbanBoard.getTasksByStatus (Store.tasks after) "done"
       = List.filter Task.completed (Store.tasks after).
Proof.
  intros trim actions state H after.
  assert (Hafter : Forall (fun t => flagMatchesStatus t = true)
                     (Store.tasks after)).
  { subst after. unfold runTaskActions. revert state H.
    induction actions as [| action actions IH]; intros state H; [exact H |].
    cbn [fold_left]. apply IH. now apply applyTaskAction_flags. }
  split; [exact Hafter |].
  unfold KanbanBoard.getTasksByStatus. apply filter_ext_in.
  intros t Ht.
  assert (Hflag : flagMatchesStatus t = true)
    by (revert t Ht; now apply List.Forall_forall).
  unfold flagMatchesStatus in Hflag. apply eqb_prop in Hflag.
  now rewrite Hflag.
Qed.

Lemma done_column_is_completed_tasks_witness :
  let actions :=
    [ DropTask (Some Samples.taskJan1to3) "done" true;
      ToggleComplete Samples.taskJan5 true;
      QuickAddTask "pending" {[ "pending"%string := "call"%string ]}
        (Some (SampleHost.sampleProject "p1"))
        1704150000000 1704150000001 1704150000002 1704150000003
        (Some "t3"%string);
      DeleteTask Samples.taskJan5 true true ] in
  let after :=
    runTaskActions SampleHost.trim actions
      (Samples.sampleState [Samples.taskJan1to3; Samples.taskJan5]) in
  Forall (fun t => flagMatchesStatus t = true) (Store.tasks after)
  /\ KanbanBoard.getTasksByStatus (Store.tasks after) "done"
     = List.filter Task.completed (Store.tasks after).
Proof.
  apply (done_column_is_completed_tasks SampleHost.trim
           [ DropTask (Some Samples.taskJan1to3) "done" true;
             ToggleComplete Samples.taskJan5 true;
             QuickAddTask "pending" {[ "pending"%string := "call"%string ]}
               (Some (SampleHost.sampleProject "p1"))
               1704150000000 1704150000001 1704150000002 1704150000003
               (Some "t3"%string);
             DeleteTask Samples.taskJan5 true true ]
           (Samples.sampleState [Samples.taskJan1to3; Samples.taskJan5])).
  repeat constructor.
Defined.

(** X18. Managing the columns neither hides nor doubles a task of a default
    status: after every sequence of add, rename and delete operations on the
    initial columns, the board shows a task of the store whose status is one
    of the five default ones, or that has none, on its cards as often as it
    is in the store, on the one column of its status. *)
Theorem default_status_tasks_shown_once :
  forall (trim : string -> string) (ops : list KanbanBoard.ColumnOp)
         (tasks : list Task) (task : Task),
    In task tasks ->
    In (KanbanBoard.statusOrTodo task) KanbanBoard.defaultColumnIds ->
    let columns := KanbanBoard.runOps trim ops in
    exists cards column,
      KanbanTasks.render tasks columns = KanbanTasks.Columns cards
      /\ map fst cards = columns
      /\ count_occ Task_eq_dec (flat_map snd cards) task
         = count_occ Task_eq_dec tasks task
      /\ columnsOfStatus (KanbanBoard.statusOrTodo task) columns = [column]
      /\ KanbanBoard.col_id column = KanbanBoard.statusOrTodo task
      /\ forall card,
           In card cards ->
           In task (snd card) ->
           fst card = column.
Proof.
  intros trim ops tasks task Hin Hd columns.
  assert (Hown : hasOwnColumn (KanbanBoard.statusOrTodo task) columns).
  { subst columns. unfold KanbanBoard.runOps.
    apply hasOwnColumn_run; [exact Hd |].
    now apply hasOwnColumn_initial. }
  destruct Hown as [Hone Hid].
  destruct (columnsOfStatus (KanbanBoard.statusOrTodo task) columns)
    as [| column [| ? ?]] eqn:E; try discriminate Hone.
  exists (KanbanTasks.columnCards tasks columns), column.
  split.
  { unfold KanbanTasks.render. now destruct tasks. }
  split.
  { unfold KanbanTasks.columnCards. rewrite map_map. cbn [fst].
    apply map_id. }
  split; [rewrite count_occ_columnCards, E; cbn [length]; lia |].
  split; [reflexivity |].
  assert (Hcol : In column
                   (columnsOfStatus (KanbanBoard.statusOrTodo task) columns))
    by (rewrite E; now left).
  split.
  { apply filter_In in Hcol as [Hcol Hst]. apply String.eqb_eq in Hst.
    now apply Hid. }
  intros card Hcard Htask.
  unfold KanbanTasks.columnCards in Hcard.
  apply in_map_iff in Hcard as (c & <- & Hc). cbn [fst snd] in *.
  unfold KanbanBoard.getTasksByStatus in Htask.
  apply filter_In in Htask as [_ Hst].
  assert (Hc' : In c (columnsOfStatus (KanbanBoard.statusOrTodo task)
                        columns)).
  { apply filter_In. split; [exact Hc |].
    now rewrite String.eqb_sym. }
  rewrite E in Hc'. destruct Hc' as [<- | []]. reflexivity.
Qed.

Lemma default_status_tasks_shown_once_witness :
  let ops :=
    [ KanbanBoard.AddColumn "Review" 1704067200000 1704067200000;
      KanbanBoard.EditColumn "todo" "Backlog";
      KanbanBoard.DeleteColumn "custom-1704067200000";
      KanbanBoard.DeleteColumn "todo" ] in
  let tasks := [Samples.taskNoStatus; Samples.taskJan5] in
  let task := Samples.taskNoStatus in
  let columns := KanbanBoard.runOps SampleHost.trim ops in
  exists cards column,
    KanbanTasks.render tasks columns = KanbanTasks.Columns cards
    /\ map fst cards = columns
    /\ count_occ Task_eq_dec (flat_map snd cards) task
       = count_occ Task_eq_dec tasks task
    /\ columnsOfStatus (KanbanBoard.statusOrTodo task) columns = [column]
    /\ KanbanBoard.col_id column = KanbanBoard.statusOrTodo task
    /\ forall card,
         In card cards ->
         In task (snd card) ->
         fst card = column.
Proof.
  apply (default_status_tasks_shown_once SampleHost.trim
           [ KanbanBoard.AddColumn "Review" 1704067200000 1704067200000;
             KanbanBoard.EditColumn "todo" "Backlog";
             KanbanBoard.DeleteColumn "custom-1704067200000";
             KanbanBoard.DeleteColumn "todo" ]
           [Samples.taskNoStatus; Samples.taskJan5] Samples.taskNoStatus).
  - left. reflexivity.
  - left. reflexivity.
Defined.

(** X19. A column that was added can be deleted again: deleting the id
    [handleAddColumn] made, which is never a default id, gives back the
    columns as they were, when no column had that id.  Ids are made from the
    clock: a second column added within the same millisecond has the same
    id, and deleting one deletes both. *)
Theorem added_column_deleted_again :
  forall (trim : string -> string) (title title2 : string)
         (now1 now2 now3 : Z) (columns : list KanbanBoard.KanbanColumn),
    trim title <> ""%string ->
    trim title2 <> ""%string ->
    (forall column,
        In column columns ->
        KanbanBoard.col_id column <> ("custom-" +:+ pretty now1)%string) ->
    let added := KanbanBoard.handleAddColumn trim title now1 now2 columns in
    let twice := KanbanBoard.handleAddColumn trim title2 now1 now3 added in
    length added = S (length columns)
    /\ KanbanBoard.handleDeleteColumn ("custom-" +:+ pretty now1) added
       = columns
    /\ length twice = S (S (length columns))
    /\ KanbanBoard.handleDeleteColumn ("custom-" +:+ pretty now1) twice
       = columns.
Proof.
  intros trim title title2 now1 now2 now3 columns Ht Ht2 Hfresh added twice.
  subst added twice. unfold KanbanBoard.handleAddColumn.
  apply String.eqb_neq in Ht, Ht2. rewrite Ht, Ht2.
  unfold KanbanBoard.handleDeleteColumn.
  assert (Hcustom : KanbanBoard.includes KanbanBoard.defaultColumnIds
                      ("custom-" +:+ pretty now1) = false) by reflexivity.
  rewrite Hcustom.
  assert (Hkeep : List.filter
                    (fun col =>
                       negb (String.eqb (KanbanBoard.col_id col)
                               ("custom-" +:+ pretty now1)))
                    columns = columns).
  { apply filter_keeps_all. intros col Hin.
    apply negb_true_iff, String.eqb_neq. now apply Hfresh. }
  rewrite !List.filter_app, Hkeep. cbn [List.filter KanbanBoard.col_id].
  rewrite String.eqb_refl. cbn [negb].
  rewrite !List.length_app. cbn [length].
  rewrite !app_nil_r.
  split; [lia |]. split; [reflexivity |]. split; [lia | reflexivity].
Qed.

Lemma added_column_deleted_again_witness :
  let added :=
    KanbanBoard.handleAddColumn SampleHost.trim "Review" 1704067200000
      1704067200001 KanbanBoard.initialColumns in
  let twice :=
    KanbanBoard.handleAddColumn SampleHost.trim "QA" 1704067200000
      1704067200002 added in
  length added = S (length KanbanBoard.initialColumns)
  /\ KanbanBoard.handleDeleteColumn ("custom-" +:+ pretty 1704067200000) added
     = KanbanBoard.initialColumns
  /\ length twice = S (S (length KanbanBoard.initialColumns))
  /\ KanbanBoard.handleDeleteColumn ("custom-" +:+ pretty 1704067200000) twice
     = KanbanBoard.initialColumns.
Proof.
  apply (added_column_deleted_again SampleHost.trim "Review" "QA"
           1704067200000 1704067200001 1704067200002
           KanbanBoard.initialColumns).
  - discriminate.
  - discriminate.
  - intros column Hin. cbn in Hin.
    destruct Hin as [<- | [<- | [<- | [<- | [<- | []]]]]]; discriminate.
Defined.

(** X20. A quick add on a column, with a title that is not blank, a selected
    project and a task service that accepts it, appends one task to the
    store: it carries the trimmed title, the project, the column's status and
    the flag that goes with it, starts at the first reading of the clock and
    ends 24 hours after the second, so that its dates are valid; it is shown
    last on that column and on no other, and the input of the column is
    cleared.  Without a title, with a blank title, without a project, or
    when the service rejects it, nothing changes. *)
Theorem quick_add_lands_in_its_column :
  forall (trim : string -> string) (status typed taskId : string)
         (newTaskTitle : gmap string string) (project : Project)
         (nowStart nowEnd nowCreated nowUpdated : Z)
         (state : Store.AppState),
    newTaskTitle !! status = Some typed ->
    trim typed <> ""%string ->
    status <> ""%string ->
    let result :=
      KanbanTasks.handleQuickAddTask trim status newTaskTitle (Some project)
        nowStart nowEnd nowCreated nowUpdated (Some taskId) state in
    (exists newTask,
        Store.tasks (KanbanTasks.qa_state result)
        = Store.tasks state ++ [newTask]
        /\ Task.id newTask = taskId
        /\ Task.projectId newTask = Project.id project
        /\ Task.title newTask = trim typed
        /\ Task.status newTask = Some status
        /\ Task.completed newTask = String.eqb status "done"
        /\ Task.startDate newTask = DateMs nowStart
        /\ Task.endDate newTask = DateMs (nowEnd + MS_PER_DAY)
        /\ hasValidDates newTask = true
        /\ (forall column,
               KanbanBoard.getTasksByStatus
                 (Store.tasks (KanbanTasks.qa_state result)) column
               = KanbanBoard.getTasksByStatus (Store.tasks state) column
                 ++ (if String.eqb column status then [newTask] else [])))
    /\ KanbanTasks.qa_newTaskTitle result = <[status := ""%string]> newTaskTitle
    /\ (forall currentProject createTask,
           currentProject = None \/ createTask = None ->
           KanbanTasks.handleQuickAddTask trim status newTaskTitle
             currentProject nowStart nowEnd nowCreated nowUpdated createTask
             state
           = {| KanbanTasks.qa_state := state;
                KanbanTasks.qa_newTaskTitle := newTaskTitle |})
    /\ (forall titles currentProject createTask,
           titles !! status = None
           \/ (exists blank,
                  titles !! status = Some blank /\ trim blank = ""%string) ->
           KanbanTasks.handleQuickAddTask trim status titles currentProject
             nowStart nowEnd nowCreated nowUpdated createTask state
           = {| KanbanTasks.qa_state := state;
                KanbanTasks.qa_newTaskTitle := titles |}).
Proof.
  intros trim status typed taskId titles project n1 n2 n3 n4 state
    Htyped Htitle Hstatus result.
  apply String.eqb_neq in Htitle.
  subst result. unfold KanbanTasks.handleQuickAddTask.
  rewrite Htyped. cbn [fmap option_fmap option_map]. rewrite Htitle.
  cbn [KanbanTasks.qa_state KanbanTasks.qa_newTaskTitle Store.addTask
         Store.setTasks Store.tasks].
  split.
  { eexists. split; [reflexivity |].
    cbn [Task.id Task.projectId Task.title Task.status Task.completed
           Task.startDate Task.endDate].
    do 8 (split; [reflexivity |]).
    intros column. unfold KanbanBoard.getTasksByStatus.
    rewrite List.filter_app. f_equal. cbn [List.filter].
    unfold KanbanBoard.statusOrTodo. cbn [Task.status].
    apply String.eqb_neq in Hstatus. rewrite Hstatus.
    rewrite (String.eqb_sym status column).
    now destruct (String.eqb column status). }
  split; [reflexivity |].
  split.
  { intros currentProject createTask [-> | ->]; [reflexivity |].
    now destruct currentProject. }
  intros titles' currentProject createTask [Hnone | (blank & Hb & Hblank)].
  - now rewrite Hnone.
  - rewrite Hb. cbn [fmap option_fmap option_map]. rewrite Hblank.
    now destruct currentProject.
Qed.

Lemma quick_add_lands_in_its_column_witness :
  let newTaskTitle : gmap string string :=
    {[ "pending"%string := "call"%string ]} in
  let project := SampleHost.sampleProject "p1" in
  let state := Samples.sampleState [Samples.taskJan5] in
  let result :=
    KanbanTasks.handleQuickAddTask SampleHost.trim "pending" newTaskTitle
      (Some project) 1704150000000 1704150000001 1704150000002 1704150000003
      (Some "t3"%string) state in
  (exists newTask,
      Store.tasks (KanbanTasks.qa_state result)
      = Store.tasks state ++ [newTask]
      /\ Task.id newTask = "t3"%string
      /\ Task.projectId newTask = Project.id project
      /\ Task.title newTask = SampleHost.trim "call"
      /\ Task.status newTask = Some "pending"%string
      /\ Task.completed newTask = String.eqb "pending" "done"
      /\ Task.startDate newTask = DateMs 1704150000000
      /\ Task.endDate newTask = DateMs (1704150000001 + MS_PER_DAY)
      /\ hasValidDates newTask = true
      /\ (forall column,
             KanbanBoard.getTasksByStatus
               (Store.tasks (KanbanTasks.qa_state result)) column
             = KanbanBoard.getTasksByStatus (Store.tasks state) column
               ++ (if String.eqb column "pending" then [newTask] else [])))
  /\ KanbanTasks.qa_newTaskTitle result
     = <["pending"%string := ""%string]> newTaskTitle
  /\ (forall currentProject createTask,
         currentProject = None \/ createTask = None ->
         KanbanTasks.handleQuickAddTask SampleHost.trim "pending" newTaskTitle
           currentProject 1704150000000 1704150000001 1704150000002
           1704150000003 createTask state
         = {| KanbanTasks.qa_state := state;
              KanbanTasks.qa_newTaskTitle := newTaskTitle |})
  /\ (forall titles currentProject createTask,
         titles !! "pending"%string = None
         \/ (exists blank,
                titles !! "pending"%string = Some blank
                /\ SampleHost.trim blank = ""%string) ->
         KanbanTasks.handleQuickAddTask SampleHost.trim "pending" titles
           currentProject 1704150000000 1704150000001 1704150000002
           1704150000003 createTask state
         = {| KanbanTasks.qa_state := state;
              KanbanTasks.qa_newTaskTitle := titles |}).
Proof.
  apply (quick_add_lands_in_its_column SampleHost.trim "pending" "call" "t3"
           {[ "pending"%string := "call"%string ]}
           (SampleHost.sampleProject "p1")
           1704150000000 1704150000001 1704150000002 1704150000003
           (Samples.sampleState [Samples.taskJan5])).
  - reflexivity.
  - discriminate.
  - discriminate.
Defined.


(** X22. What the task dialog saves.  A submit changes nothing and leaves
    the dialog open exactly when no user is signed in, no project is
    selected, the title is blank, the end date is before the start date, or
    the task service rejects the call; the rejection of an update of an
    edited task is one of these cases.  Every other submit closes the dialog
    and stores a task with the trimmed title and the chosen status whose end
    date, when both dates are valid, is not before its start date: a new
    task is added under the id the service gave, an edited task replaces the
    tasks of its id.  The dialog never sets the completion flag: a new task
    is not completed, an edited task keeps its flag, whatever the status. *)
Theorem task_dialog_saves_ordered_dates :
  forall (trim : string -> string) (newDate : string -> JsDate)
         (userSignedIn : bool) (selectedProject : option Project)
         (task : option Task) (form : TaskModal.Form)
         (serviceResult : option string) (now1 now2 : Z)
         (state : Store.AppState),
    let result :=
      TaskModal.handleSubmit trim newDate userSignedIn selectedProject task
        form serviceResult now1 now2 state in
    (TaskModal.sr_state result = state
     /\ TaskModal.sr_isTaskModalOpen result = true
     /\ (userSignedIn = false \/ selectedProject = None
         \/ trim (TaskModal.f_title form) = ""%string
         \/ TaskModal.dateLt (newDate (TaskModal.f_endDate form))
              (newDate (TaskModal.f_startDate form)) = true
         \/ serviceResult = None))
    \/ (exists saved project answer,
           TaskModal.sr_isTaskModalOpen result = false
           /\ userSignedIn = true
           /\ selectedProject = Some project
           /\ serviceResult = Some answer
           /\ TaskModal.dateLt (newDate (TaskModal.f_endDate form))
                (newDate (TaskModal.f_startDate form)) = false
           /\ Task.title saved = trim (TaskModal.f_title form)
           /\ Task.title saved <> ""%string
           /\ Task.status saved = Some (TaskModal.f_status form)
           /\ Task.startDate saved = newDate (TaskModal.f_startDate form)
           /\ Task.endDate saved = newDate (TaskModal.f_endDate form)
           /\ (forall s e,
                  Task.startDate saved = DateMs s ->
                  Task.endDate saved = DateMs e -> s <= e)
           /\ match task with
              | Some edited =>
                  TaskModal.sr_state result = Store.updateTask saved state
                  /\ Task.id saved = Task.id edited
                  /\ Task.projectId saved = Task.projectId edited
                  /\ Task.completed saved = Task.completed edited
                  /\ Task.createdAt saved = Task.createdAt edited
                  /\ Task.updatedAt saved = DateMs now1
              | None =>
                  TaskModal.sr_state result = Store.addTask saved state
                  /\ Task.id saved = answer
                  /\ Task.projectId saved = Project.id project
                  /\ Task.completed saved = false
                  /\ Task.createdAt saved = DateMs now1
                  /\ Task.updatedAt saved = DateMs now2
              end).
Proof.
  intros trim newDate userSignedIn selectedProject task form serviceResult
    now1 now2 state result.
  subst result. unfold TaskModal.handleSubmit.
  destruct userSignedIn; cbn [negb];
    [| left; split; [reflexivity |]; split; [reflexivity | now left]].
  destruct selectedProject as [project |];
    [| left; split; [reflexivity |]; split; [reflexivity |];
       right; now left].
  destruct (String.eqb_spec (trim (TaskModal.f_title form)) "") as [E | E];
    [left; split; [reflexivity |]; split; [reflexivity |];
     right; right; now left |].
  destruct (TaskModal.dateLt (newDate (TaskModal.f_endDate form))
              (newDate (TaskModal.f_startDate form))) eqn:Hlt;
    [left; split; [reflexivity |]; split; [reflexivity |];
     right; right; right; now left |].
  assert (Hord : forall s e,
             newDate (TaskModal.f_startDate form) = DateMs s ->
             newDate (TaskModal.f_endDate form) = DateMs e -> s <= e).
  { intros s e Hs He. rewrite Hs, He in Hlt. cbn [TaskModal.dateLt] in Hlt.
    apply Z.ltb_ge in Hlt. exact Hlt. }
  destruct serviceResult as [answer |];
    [| left; destruct task; (split; [reflexivity |]);
       (split; [reflexivity |]); now do 4 right].
  right. destruct task as [edited |];
    [exists (Task.mk (Task.id edited) (Task.projectId edited)
               (trim (TaskModal.f_title form))
               (Some (trim (TaskModal.f_description form)))
               (newDate (TaskModal.f_startDate form))
               (newDate (TaskModal.f_endDate form))
               (Task.completed edited) (Task.createdAt edited) (DateMs now1)
               (Some (trim (TaskModal.f_notes form)))
               (Some (TaskModal.f_status form))), project, answer
    | exists (Task.mk answer (Project.id project)
                (trim (TaskModal.f_title form))
                (Some (trim (TaskModal.f_description form)))
                (newDate (TaskModal.f_startDate form))
                (newDate (TaskModal.f_endDate form))
                false (DateMs now1) (DateMs now2)
                (Some (trim (TaskModal.f_notes form)))
                (Some (TaskModal.f_status form))), project, answer];
    cbn [TaskModal.sr_state TaskModal.sr_isTaskModalOpen];
    (split; [reflexivity |]); (split; [reflexivity |]);
    (split; [reflexivity |]); (split; [reflexivity |]);
    (split; [reflexivity |]);
    cbn [Task.id Task.projectId Task.title Task.status Task.startDate
           Task.endDate Task.completed Task.createdAt Task.updatedAt];
    (split; [reflexivity |]); (split; [exact E |]);
    (split; [reflexivity |]); (split; [reflexivity |]);
    (split; [reflexivity |]); (split; [exact Hord |]);
    repeat (split; [reflexivity |]); reflexivity.
Qed.

(** X23. The task actions of the store on an id that no stored task has:
    [updateTask] changes nothing (it never inserts) and [deleteTask] changes
    nothing; adding a task with such an id and deleting the id again gives
    back the store, and an update that follows the add replaces the added
    task alone.  For every id, updating twice is updating with the last
    task, and a deleted id stays deleted under an update. *)
Theorem task_actions_on_missing_id :
  forall (task replacement : Task) (state : Store.AppState),
    (forall t, In t (Store.tasks state) -> Task.id t <> Task.id task) ->
    Task.id replacement = Task.id task ->
    Store.updateTask task state = state
    /\ Store.deleteTask (Task.id task) state = state
    /\ Store.deleteTask (Task.id task) (Store.addTask task state) = state
    /\ Store.updateTask replacement (Store.addTask task state)
       = Store.addTask replacement state
    /\ (forall anyState,
           Store.updateTask replacement (Store.updateTask task anyState)
           = Store.updateTask replacement anyState)
    /\ (forall anyState,
           Store.updateTask task
             (Store.deleteTask (Task.id task) anyState)
           = Store.deleteTask (Task.id task) anyState).
Proof.
  intros task replacement state Hfresh Hid.
  assert (Hkeep : forall st,
             (forall t, In t (Store.tasks st) -> Task.id t <> Task.id task) ->
             map (fun t => if String.eqb (Task.id t) (Task.id task)
                           then task else t) (Store.tasks st)
             = Store.tasks st).
  { intros st H. rewrite <- (map_id (Store.tasks st)) at 2.
    apply map_ext_in. intros t Ht. apply H in Ht.
    apply String.eqb_neq in Ht. now rewrite Ht. }
  assert (Hfilter : List.filter
                      (fun t => negb (String.eqb (Task.id t) (Task.id task)))
                      (Store.tasks state) = Store.tasks state).
  { apply filter_keeps_all. intros t Ht.
    apply negb_true_iff, String.eqb_neq. now apply Hfresh. }
  unfold Store.updateTask, Store.deleteTask, Store.addTask, Store.setTasks.
  cbn [Store.tasks Store.currentView Store.isSidebarCollapsed
         Store.timelineZoom Store.localStorage].
  split; [rewrite (Hkeep state Hfresh); now destruct state |].
  split; [rewrite Hfilter; now destruct state |].
  split.
  { rewrite List.filter_app, Hfilter. cbn [List.filter].
    rewrite String.eqb_refl. cbn [negb]. rewrite app_nil_r.
    now destruct state. }
  split.
  { rewrite map_app. cbn [map]. rewrite Hid, String.eqb_refl.
    f_equal. f_equal.
    rewrite <- (map_id (Store.tasks state)) at 2.
    apply map_ext_in. intros t Ht. apply Hfresh in Ht.
    apply String.eqb_neq in Ht. now rewrite Ht. }
  split.
  { intros anyState. f_equal. rewrite map_map. apply map_ext. intros t.
    rewrite Hid.
    destruct (String.eqb (Task.id t) (Task.id task)) eqn:E;
      [now rewrite String.eqb_refl | now rewrite E]. }
  intros anyState. f_equal.
  rewrite <- (map_id (List.filter _ (Store.tasks anyState))) at 2.
  apply map_ext_in. intros t Ht. apply filter_In in Ht as [_ Ht].
  apply negb_true_iff in Ht. now rewrite Ht.
Qed.

Lemma task_actions_on_missing_id_witness :
  let task := Samples.taskJan5 in
  let replacement :=
    Samples.mkTask "2" (DateMs 1704412800000) (DateMs 1704499200000) true
      (Some "done"%string) in
  let state := Samples.sampleState [Samples.taskJan1to3] in
  Store.updateTask task state = state
  /\ Store.deleteTask (Task.id task) state = state
  /\ Store.deleteTask (Task.id task) (Store.addTask task state) = state
  /\ Store.updateTask replacement (Store.addTask task state)
     = Store.addTask replacement state
  /\ (forall anyState,
         Store.updateTask replacement (Store.updateTask task anyState)
         = Store.updateTask replacement anyState)
  /\ (forall anyState,
         Store.updateTask task (Store.deleteTask (Task.id task) anyState)
         = Store.deleteTask (Task.id task) anyState).
Proof.
  apply (task_actions_on_missing_id Samples.taskJan5
           (Samples.mkTask "2" (DateMs 1704412800000) (DateMs 1704499200000)
              true (Some "done"%string))
           (Samples.sampleState [Samples.taskJan1to3])).
  - intros t [<- | []]. discriminate.
  - reflexivity.
Defined.

(** * The layout at the limits of [Date] *)

Lemma timeClip_within (t : Z) :
  Z.abs t <= DateLimits.MAX_TIME -> DateLimits.timeClip t = DateMs t.
Proof.
  intros H. unfold DateLimits.timeClip.
  now destruct (Z.leb_spec (Z.abs t) DateLimits.MAX_TIME); [| lia].
Qed.

Lemma startOfWeek_idem (t : Z) : startOfWeek (startOfWeek t) = startOfWeek t.
Proof.
  now rewrite (startOfWeek_weekNumber (startOfWeek t)), weekNumber_startOfWeek,
    <- startOfWeek_weekNumber.
Qed.

Lemma startOfWeek_endOfWeek (t : Z) : startOfWeek (endOfWeek t) = startOfWeek t.
Proof.
  now rewrite (startOfWeek_weekNumber (endOfWeek t)), weekNumber_endOfWeek,
    <- startOfWeek_weekNumber.
Qed.

Lemma startOfMonth_idem (t : Z) :
  startOfMonth (startOfMonth t) = startOfMonth t.
Proof.
  destruct (monthNumber_spec (startOfMonth t)) as (_ & -> & _).
  destruct (monthNumber_spec t) as (_ & E & _).
  now rewrite monthNumber_startOfMonth, <- E.
Qed.

Lemma timeClip_valid (t : Z) :
  isValidDate (DateLimits.timeClip t) = true ->
  Z.abs t <= DateLimits.MAX_TIME /\ DateLimits.timeClip t = DateMs t.
Proof.
  unfold DateLimits.timeClip.
  destruct (Z.leb_spec (Z.abs t) DateLimits.MAX_TIME); [now split |].
  discriminate.
Qed.

Lemma withinDateLimits_spec (view : ViewType) (t : Z) :
  withinDateLimits view t = true ->
  Z.abs t <= DateLimits.MAX_TIME
  /\ match view with
     | daily => Z.abs (startOfDay t) <= DateLimits.MAX_TIME
     | weekly =>
         Z.abs (startOfWeek t) <= DateLimits.MAX_TIME
         /\ Z.abs (endOfWeek t) <= DateLimits.MAX_TIME
     | monthly =>
         Z.abs (startOfMonth t) <= DateLimits.MAX_TIME
         /\ Z.abs (endOfMonth t) <= DateLimits.MAX_TIME
     | kanban => True
     end.
Proof.
  unfold withinDateLimits. intros H. apply andb_true_iff in H as [Ht Hv].
  split; [now apply timeClip_valid |].
  destruct view; cbn [DateLimits.startOfDay DateLimits.startOfWeek
                        DateLimits.endOfWeek DateLimits.startOfMonth
                        DateLimits.endOfMonth DateLimits.onDate] in Hv.
  - now apply timeClip_valid.
  - apply andb_true_iff in Hv as [H1 H2]. split; now apply timeClip_valid.
  - apply andb_true_iff in Hv as [H1 H2]. split; now apply timeClip_valid.
  - exact I.
Qed.

(** Inside the limits the range of [Date] never matters: the layout on
    [Date]s is the layout on time values. *)
Lemma timelineData_within_limits (tasks : list Task) (view : ViewType) :
  forallb (withinDateLimits view) (flat_map taskTimes tasks) = true ->
  DateLimits.timelineData tasks view = Timeline.timelineData tasks view.
Proof.
  intros Hall. rewrite List.forallb_forall in Hall.
  unfold DateLimits.timelineData, Timeline.timelineData.
  destruct (length (List.filter hasValidDates tasks) =? 0)%nat;
    [reflexivity |].
  destruct (flat_map taskTimes (List.filter hasValidDates tasks))
    as [| d ds] eqn:Hdates; [reflexivity |].
  assert (Hsub : forall x, In x (d :: ds) -> In x (flat_map taskTimes tasks)).
  { intros x Hx. rewrite <- Hdates in Hx.
    apply in_flat_map in Hx as (t & Ht & Hx).
    apply filter_In in Ht as [Ht _]. apply in_flat_map. now exists t. }
  destruct (withinDateLimits_spec _ _ (Hall _ (Hsub _ (minOf_In ds d))))
    as [Hmin Hvmin].
  destruct (withinDateLimits_spec _ _ (Hall _ (Hsub _ (maxOf_In ds d))))
    as [Hmax Hvmax].
  pose proof (minOf_le_maxOf ds d) as Hle.
  set (minDate := minOf d ds) in *. set (maxDate := maxOf d ds) in *.
  assert (HD : MS_PER_DAY = 86400000) by reflexivity.
  rewrite (timeClip_within minDate), (timeClip_within maxDate) by lia.
  destruct view; cbv zeta.
  - unfold DateLimits.eachDayOfInterval, DateLimits.startOfDay,
      DateLimits.onDate.
    rewrite (timeClip_within (DateFns.startOfDay minDate)) by exact Hvmin.
    unfold DateFns.eachDayOfInterval.
    destruct (Z.leb_spec minDate maxDate); [reflexivity | lia].
  - destruct Hvmin as [Hs1 He1]. destruct Hvmax as [Hs2 He2].
    pose proof (startOfWeek_le minDate). pose proof (endOfWeek_ge maxDate).
    unfold DateLimits.startOfWeek, DateLimits.endOfWeek, DateLimits.onDate.
    rewrite (timeClip_within (DateFns.startOfWeek minDate)),
      (timeClip_within (DateFns.endOfWeek maxDate)) by assumption.
    unfold DateLimits.eachWeekOfInterval, DateLimits.setHours15,
      DateLimits.startOfWeek, DateLimits.onDate.
    rewrite startOfWeek_idem, startOfWeek_endOfWeek.
    rewrite (timeClip_within (DateFns.startOfWeek minDate)),
      (timeClip_within (DateFns.startOfWeek maxDate)) by assumption.
    assert (E1 : DateFns.endOfWeek minDate
                 = DateFns.startOfWeek minDate + 7 * MS_PER_DAY - 1)
      by reflexivity.
    assert (E2 : DateFns.endOfWeek maxDate
                 = DateFns.startOfWeek maxDate + 7 * MS_PER_DAY - 1)
      by reflexivity.
    rewrite (timeClip_within
               (DateFns.startOfWeek minDate + 15 * 60 * 60 * 1000)),
      (timeClip_within
         (DateFns.startOfWeek maxDate + 15 * 60 * 60 * 1000)) by lia.
    unfold DateFns.eachWeekOfInterval.
    destruct (Z.leb_spec (DateFns.startOfWeek minDate)
                (DateFns.endOfWeek maxDate)); [reflexivity | lia].
  - destruct Hvmin as [Hs1 _]. destruct Hvmax as [_ He2].
    pose proof (startOfMonth_le minDate). pose proof (endOfMonth_ge maxDate).
    unfold DateLimits.startOfMonth, DateLimits.endOfMonth, DateLimits.onDate.
    rewrite (timeClip_within (DateFns.startOfMonth minDate)),
      (timeClip_within (DateFns.endOfMonth maxDate)) by assumption.
    unfold DateLimits.eachMonthOfInterval, DateLimits.startOfMonth,
      DateLimits.onDate.
    rewrite startOfMonth_idem.
    rewrite (timeClip_within (DateFns.startOfMonth minDate)) by assumption.
    unfold DateFns.eachMonthOfInterval.
    destruct (Z.leb_spec (DateFns.startOfMonth minDate)
                (DateFns.endOfMonth maxDate)); [| lia].
    destruct (civil (dayNumber (DateFns.startOfMonth minDate)))
      as [[y m] dom]. reflexivity.
  - reflexivity.
Qed.



